(** * semantic-release: the release resolution pipeline

    A shallow embedding of [cmd/semantic-release/main.go] ([cliHandler]) and of
    the GitHub provider of package [semrel] ([NewGitHubRepository], [GetInfo],
    [GetCommits], [GetLatestRelease], [CreateRelease], [parseGithubCommit]).

    Conventions of the embedding.
    - Go strings are [string]s, read as byte sequences; where the library
      works on runes ([strings.TrimSpace], [strings.Trim]) the bytes are
      decoded as UTF-8, as the library does.
    - A Go [error] is its message; [(T, error)] results are [result T].
    - The process state that the program changes is a trace of [Event]s: files
      written, references and releases created at the provider, the update
      hook.  Lines printed by the logger are not part of that state.
    - [exitIfError] ends the process: a computation of the monad [M] returns,
      exits with a code and the error, panics, or runs out of fuel (the
      pagination loop of [GetLatestRelease] has no bound of its own).
    - Everything the program obtains from outside these sources is an
      input: the parsed configuration, the CI service, the provider clients,
      the file system, the two commit patterns, the semantic-version parser,
      [semrel.GetNewVersion], [semrel.GetChangelog] and
      [Releases.GetLatestRelease].  They are the fields of [Env]. *)

From Stdlib Require Import String Ascii List ZArith NArith Lia Bool DecimalString.
Import ListNotations.
Local Open Scope string_scope.

(** ** Package [strings] *)

Module Strings.

(** [strings.HasPrefix(s, prefix)] and the rest of [s] after the prefix. *)
Fixpoint cutPrefix (s prefix : string) : option string :=
  match prefix, s with
  | EmptyString, _ => Some s
  | String _ _, EmptyString => None
  | String a p, String b r => if Ascii.eqb a b then cutPrefix r p else None
  end.

Definition HasPrefix (s prefix : string) : bool :=
  match cutPrefix s prefix with Some _ => true | None => false end.

(** [strings.TrimPrefix(s, prefix)]. *)
Definition TrimPrefix (s prefix : string) : string :=
  match cutPrefix s prefix with Some r => r | None => s end.

(** [strings.Contains(s, substr)]. *)
Fixpoint Contains (s substr : string) : bool :=
  if HasPrefix s substr then true
  else match s with
       | EmptyString => false
       | String _ r => Contains r substr
       end.

(** Membership of a byte in a cutset. *)
Fixpoint inCutset (c : ascii) (cutset : string) : bool :=
  match cutset with
  | EmptyString => false
  | String d r => Ascii.eqb c d || inCutset c r
  end.

(** *** Package [unicode/utf8] *)

(** A byte as a number, a rune as its code point. *)
Definition byte (c : ascii) : N := N_of_ascii c.

(** [utf8.RuneError], U+FFFD, and [utf8.RuneSelf]. *)
Definition RuneError : N := 65533.
Definition RuneSelf : N := 128.

Definition between (lo hi b : N) : bool := ((lo <=? b) && (b <=? hi))%N.

(** The table [first] with [acceptRanges]: for the first byte of a
    sequence of several bytes its size and the range of its second byte;
    [None] for a byte that starts no such sequence. *)
Definition first (s0 : N) : option (nat * N * N) :=
  if between 194 223 s0 then Some (2%nat, 128, 191)%N
  else if (s0 =? 224)%N then Some (3%nat, 160, 191)%N
  else if between 225 236 s0 then Some (3%nat, 128, 191)%N
  else if (s0 =? 237)%N then Some (3%nat, 128, 159)%N
  else if between 238 239 s0 then Some (3%nat, 128, 191)%N
  else if (s0 =? 240)%N then Some (4%nat, 144, 191)%N
  else if between 241 243 s0 then Some (4%nat, 128, 191)%N
  else if (s0 =? 244)%N then Some (4%nat, 128, 143)%N
  else None.

(** [utf8.DecodeRuneInString(s)]: the first rune of [s] and its width;
    [(RuneError, 1)] for bytes that are no encoding. *)
Definition DecodeRuneInString (s : string) : N * nat :=
  match s with
  | EmptyString => (RuneError, 0%nat)
  | String c0 r0 =>
      let s0 := byte c0 in
      if (s0 <? RuneSelf)%N then (s0, 1%nat)
      else
        match first s0 with
        | None => (RuneError, 1%nat)
        | Some (sz, lo, hi) =>
            match r0 with
            | EmptyString => (RuneError, 1%nat)
            | String c1 r1 =>
                let s1 := byte c1 in
                if negb (between lo hi s1) then (RuneError, 1%nat)
                else if (sz <=? 2)%nat then
                  (N.lor (N.shiftl (N.land s0 31) 6) (N.land s1 63), 2%nat)
                else
                  match r1 with
                  | EmptyString => (RuneError, 1%nat)
                  | String c2 r2 =>
                      let s2 := byte c2 in
                      if negb (between 128 191 s2) then (RuneError, 1%nat)
                      else if (sz <=? 3)%nat then
                        (N.lor (N.shiftl (N.land s0 15) 12)
                               (N.lor (N.shiftl (N.land s1 63) 6)
                                      (N.land s2 63)), 3%nat)
                      else
                        match r2 with
                        | EmptyString => (RuneError, 1%nat)
                        | String c3 _ =>
                            let s3 := byte c3 in
                            if negb (between 128 191 s3) then (RuneError, 1%nat)
                            else
                              (N.lor (N.shiftl (N.land s0 7) 18)
                                 (N.lor (N.shiftl (N.land s1 63) 12)
                                    (N.lor (N.shiftl (N.land s2 63) 6)
                                           (N.land s3 63))), 4%nat)
                        end
                  end
            end
        end
  end.

(** [utf8.RuneStart(b)]: [b] is not a continuation byte. *)
Definition RuneStart (b : N) : bool := negb (N.land b 192 =? 128)%N.

Definition byteAt (l : list ascii) (i : Z) : N :=
  byte (nth (Z.to_nat i) l zero).

(** The loop of [DecodeLastRuneInString] that steps back from [start] to
    the start of a rune, not below [lim]: the index it ends with, which
    is [lim - 1] when it finds none. *)
Fixpoint stepBack (l : list ascii) (n : nat) (start lim : Z) : Z :=
  match n with
  | O => start
  | S n' =>
      if (start <? lim)%Z then start
      else if RuneStart (byteAt l start) then start
      else stepBack l n' (start - 1)%Z lim
  end.

(** [utf8.DecodeLastRuneInString(s)]: the last rune of [s] and its
    width. *)
Definition DecodeLastRuneInString (s : string) : N * nat :=
  let l := list_ascii_of_string s in
  let end_ := Z.of_nat (length l) in
  if (end_ =? 0)%Z then (RuneError, 0%nat)
  else
    let start := (end_ - 1)%Z in
    let r := byteAt l start in
    if (r <? RuneSelf)%N then (r, 1%nat)
    else
      let lim := Z.max 0 (end_ - 4) in
      let start := stepBack l 4 (start - 1)%Z lim in
      let start := Z.max 0 start in
      let '(r, size) :=
        DecodeRuneInString (string_of_list_ascii (skipn (Z.to_nat start) l)) in
      if (start + Z.of_nat size =? end_)%Z then (r, size)
      else (RuneError, 1%nat).

(** [utf8.ValidRune(r)]. *)
Definition ValidRune (r : N) : bool :=
  ((r <? 55296) || ((57343 <? r) && (r <=? 1114111)))%N.

(** [string(r)] for a valid rune: its encoding. *)
Definition EncodeRune (r : N) : string :=
  let b (n : N) := ascii_of_N n in
  let cont (n : N) := b (N.lor 128 (N.land n 63)) in
  if (r <? 128)%N then String (b r) EmptyString
  else if (r <? 2048)%N then
    String (b (N.lor 192 (N.shiftr r 6))) (String (cont r) EmptyString)
  else if (r <? 65536)%N then
    String (b (N.lor 224 (N.shiftr r 12)))
      (String (cont (N.shiftr r 6)) (String (cont r) EmptyString))
  else
    String (b (N.lor 240 (N.shiftr r 18)))
      (String (cont (N.shiftr r 12))
         (String (cont (N.shiftr r 6)) (String (cont r) EmptyString))).

(** *** Package [unicode] *)

(** [unicode.IsSpace(r)]: the white space of Latin-1 and the rest of the
    property White_Space. *)
Definition IsSpace (r : N) : bool :=
  (between 9 13 r || (r =? 32) || (r =? 133) || (r =? 160)
   || (r =? 5760) || between 8192 8202 r || between 8232 8233 r
   || (r =? 8239) || (r =? 8287) || (r =? 12288))%N.

(** *** Trimming *)

(** [s[n:]]. *)
Fixpoint drop (n : nat) (s : string) : string :=
  match n, s with
  | O, _ => s
  | S _, EmptyString => EmptyString
  | S n', String _ r => drop n' r
  end.

(** The loop of [indexFunc(s, f, false)] within [strings.TrimLeftFunc]:
    what is left of [s] from its first rune that fails [f]; [n] bounds
    the number of runes. *)
Fixpoint trimLeftRunes (n : nat) (f : N -> bool) (s : string) : string :=
  match n with
  | O => EmptyString
  | S n' =>
      match s with
      | EmptyString => EmptyString
      | _ =>
          let '(r, size) := DecodeRuneInString s in
          if f r then trimLeftRunes n' f (drop size s) else s
      end
  end.

(** [strings.TrimLeftFunc(s, f)]. *)
Definition TrimLeftFunc (f : N -> bool) (s : string) : string :=
  trimLeftRunes (String.length s) f s.

(** [lastIndexFunc(s, f, false)] on the prefix [p] of [s] that is still
    to be looked at: the index of the last rune that fails [f]. *)
Fixpoint lastIndexFunc (n : nat) (f : N -> bool) (p : list ascii) : option nat :=
  match n with
  | O => None
  | S n' =>
      match p with
      | [] => None
      | _ =>
          let '(r, size) := DecodeLastRuneInString (string_of_list_ascii p) in
          let p' := firstn (length p - size) p in
          if f r then lastIndexFunc n' f p' else Some (length p')
      end
  end.

(** [strings.TrimRightFunc(s, f)]. *)
Definition TrimRightFunc (f : N -> bool) (s : string) : string :=
  let l := list_ascii_of_string s in
  let i :=
    match lastIndexFunc (length l) f l with
    | Some i =>
        if (RuneSelf <=? byte (nth i l zero))%N
        then (i + snd (DecodeRuneInString (string_of_list_ascii (skipn i l))))%nat
        else S i
    | None => O
    end in
  string_of_list_ascii (firstn i l).

(** [strings.TrimFunc(s, f)]. *)
Definition TrimFunc (f : N -> bool) (s : string) : string :=
  TrimRightFunc f (TrimLeftFunc f s).

(** [strings.TrimSpace(s)]: leading and trailing white space, as Unicode
    defines it, is removed.  (The library first skips the bytes of ASCII
    white space and then does this.) *)
Definition TrimSpace (s : string) : string := TrimFunc IsSpace s.

Definition isASCII (s : string) : bool :=
  forallb (fun c => (byte c <? RuneSelf)%N) (list_ascii_of_string s).

(** [trimLeftASCII] and [trimRightASCII]: the leading and the trailing
    bytes of the set are removed. *)
Fixpoint trimLeftASCII (s cutset : string) : string :=
  match s with
  | EmptyString => EmptyString
  | String c r => if inCutset c cutset then trimLeftASCII r cutset else s
  end.

Fixpoint trimRightASCII (s cutset : string) : string :=
  match s with
  | EmptyString => EmptyString
  | String c r =>
      match trimRightASCII r cutset with
      | EmptyString =>
          if inCutset c cutset then EmptyString else String c EmptyString
      | r' => String c r'
      end
  end.

(** The runes of [s] hold [RuneError]: a byte that is no encoding, or
    the encoding of U+FFFD. *)
Fixpoint hasRuneError (n : nat) (s : string) : bool :=
  match n with
  | O => false
  | S n' =>
      match s with
      | EmptyString => false
      | _ =>
          let '(r, size) := DecodeRuneInString s in
          if (r =? RuneError)%N then true else hasRuneError n' (drop size s)
      end
  end.

(** [strings.ContainsRune(s, r)]. *)
Definition ContainsRune (s : string) (r : N) : bool :=
  if (r <? RuneSelf)%N then inCutset (ascii_of_N r) s
  else if (r =? RuneError)%N then hasRuneError (String.length s) s
  else if negb (ValidRune r) then false
  else Contains s (EncodeRune r).

(** [trimLeftUnicode] and [trimRightUnicode]. *)
Fixpoint trimLeftUnicode (n : nat) (s cutset : string) : string :=
  match n with
  | O => s
  | S n' =>
      match s with
      | EmptyString => s
      | String c _ =>
          let '(r, size) :=
            if (byte c <? RuneSelf)%N then (byte c, 1%nat)
            else DecodeRuneInString s in
          if ContainsRune cutset r then trimLeftUnicode n' (drop size s) cutset
          else s
      end
  end.

Fixpoint trimRightUnicode (n : nat) (p : list ascii) (cutset : string)
  : list ascii :=
  match n with
  | O => p
  | S n' =>
      match p with
      | [] => p
      | _ =>
          let last := byte (nth (length p - 1) p zero) in
          let '(r, size) :=
            if (last <? RuneSelf)%N then (last, 1%nat)
            else DecodeLastRuneInString (string_of_list_ascii p) in
          if ContainsRune cutset r
          then trimRightUnicode n' (firstn (length p - size) p) cutset
          else p
      end
  end.

(** [strings.Trim(s, cutset)]: the leading and trailing runes of the
    cutset are removed; byte by byte when the cutset is ASCII. *)
Definition Trim (s cutset : string) : string :=
  if String.eqb s "" || String.eqb cutset "" then s
  else if isASCII cutset then trimLeftASCII (trimRightASCII s cutset) cutset
  else
    trimLeftUnicode (String.length s)
      (string_of_list_ascii
         (trimRightUnicode (String.length s) (list_ascii_of_string s) cutset))
      cutset.

(** [strings.ToLower] on bytes: the ASCII capital letters become small,
    every other byte is kept. *)
Definition lowerAscii (c : ascii) : ascii :=
  let n := nat_of_ascii c in
  if ((65 <=? n) && (n <=? 90))%nat then ascii_of_nat (n + 32) else c.

Fixpoint ToLower (s : string) : string :=
  match s with
  | EmptyString => EmptyString
  | String c r => String (lowerAscii c) (ToLower r)
  end.

(** [strings.Split(s, sep)] for a one-byte separator: the pieces between
    the separators, as the first piece and the others; the result of
    [Split] is never empty. *)
Fixpoint Split (s : string) (sep : ascii) : string * list string :=
  match s with
  | EmptyString => (EmptyString, [])
  | String c r =>
      let '(l, ls) := Split r sep in
      if Ascii.eqb c sep then (EmptyString, l :: ls)
      else (String c l, ls)
  end.

(** The line feed, ["\n"]. *)
Definition LF : ascii := "010"%char.

Definition neqb (a b : string) : bool := negb (String.eqb a b).

End Strings.

(** ** Package [semver] (Masterminds) *)

Module Semver.

(** Modelled from the spec: the [semver] package is not among the sources.
    A version is "major.minor.patch, optional pre-release/build metadata"
    (section 3); the three numbers are 64-bit signed integers. *)
Record Version : Type := mkVersion {
  major : Z;
  minor : Z;
  patch : Z;
  pre : string;
  metadata : string
}.

(** [semver.Version{}], the zero value: 0.0.0. *)
Definition zero : Version := mkVersion 0 0 0 "" "".

(** Two's-complement wrap-around of a 64-bit signed integer. *)
Definition wrap64 (z : Z) : Z :=
  ((z + 2 ^ 63) mod 2 ^ 64 - 2 ^ 63)%Z.

Definition Prerelease (v : Version) : string := pre v.

Definition decimal (z : Z) : string :=
  match z with
  | Zneg p => "-" ++ NilZero.string_of_uint (Pos.to_uint p)
  | _ => NilZero.string_of_uint (N.to_uint (Z.to_N z))
  end.

(** Modelled from the spec: [Version.String], "major.minor.patch" followed
    by "-pre" and "+metadata" when present. *)
Definition String_ (v : Version) : string :=
  decimal (major v) ++ "." ++ decimal (minor v) ++ "." ++ decimal (patch v)
  ++ (if String.eqb (pre v) "" then "" else "-" ++ pre v)
  ++ (if String.eqb (metadata v) "" then "" else "+" ++ metadata v).

(** Modelled from the spec: [Version.IncMinor], "incrementing minor zeroes
    patch; pre-release/build metadata is dropped on increment"
    (section 4.2). *)
Definition IncMinor (v : Version) : Version :=
  mkVersion (major v) (wrap64 (minor v + 1)) 0 "" "".

(** Modelled from the spec: [Version.IncPatch], the patch increment of
    section 4.2.  As in the library, a version that carries a pre-release
    becomes the release of the same triple: the pre-release and the
    metadata are dropped and the patch number stays. *)
Definition IncPatch (v : Version) : Version :=
  if String.eqb (pre v) ""
  then mkVersion (major v) (minor v) (wrap64 (patch v + 1)) "" ""
  else mkVersion (major v) (minor v) (patch v) "" "".

End Semver.

(** ** Results, events and the monad of the command *)

Definition error : Type := string.

Inductive result (A : Type) : Type :=
| Ok (a : A)
| Err (e : error).
Arguments Ok {A} a.
Arguments Err {A} e.

(** What a run leaves behind. *)
Inductive Event : Type :=
| WriteFile (path content : string)
| CreateRef (ref sha : string)
| CreateReleaseObject (tagName name targetCommitish body : string) (prerelease : bool)
| UpdateApply (file version : string).

Inductive Outcome (A : Type) : Type :=
| Return (a : A)
| Exit (code : Z) (err : error)
| Panic (msg : string)
| OutOfFuel.
Arguments Return {A} a.
Arguments Exit {A} code err.
Arguments Panic {A} msg.
Arguments OutOfFuel {A}.

Definition M (A : Type) : Type := list Event -> Outcome A * list Event.

Definition ret {A} (a : A) : M A := fun t => (Return a, t).

Definition bind {A B} (m : M A) (k : A -> M B) : M B :=
  fun t =>
    match m t with
    | (Return a, t') => k a t'
    | (Exit c e, t') => (Exit c e, t')
    | (Panic msg, t') => (Panic msg, t')
    | (OutOfFuel, t') => (OutOfFuel, t')
    end.

Declare Scope cmd_scope.
Delimit Scope cmd_scope with cmd.
Notation "x <- m ;; k" := (bind m (fun x => k))
  (at level 61, m at next level, right associativity) : cmd_scope.
Notation "' pat <- m ;; k" :=
  (bind m (fun x => match x with pat => k end))
  (at level 61, pat pattern, m at next level, right associativity) : cmd_scope.
Notation "m ;;; k" := (bind m (fun _ => k))
  (at level 61, right associativity) : cmd_scope.

(** An operation that reads only: its outcome, the trace untouched. *)
Definition lift {A} (o : Outcome A) : M A := fun t => (o, t).

Definition emit (e : Event) : M unit := fun t => (Return tt, (t ++ [e])%list).

(** [os.Exit(code)] after the error was logged. *)
Definition exit {A} (code : Z) (err : error) : M A := lift (Exit code err).

(** [exitIfError(err, code)] for an [error] value. *)
Definition exitIfError (err : option error) (code : Z) : M unit :=
  match err with
  | Some e => exit code e
  | None => ret tt
  end.

(** A call [v, err := f(...)] followed by [exitIfError(err)]. *)
Definition orExit {A} (r : result A) (code : Z) : M A :=
  match r with
  | Ok a => ret a
  | Err e => exit code e
  end.

(** ** Package [semrel]: data *)

Record Change : Type := mkChange {
  Major : bool;
  Minor : bool;
  Patch : bool
}.

Record Commit : Type := mkCommit {
  SHA : string;
  Raw : list string;
  Type_ : string;
  Scope : string;
  Message : string;
  CommitChange : Change
}.

Record Release : Type := mkRelease {
  ReleaseSHA : string;
  Version : Semver.Version
}.

Definition Releases : Type := list Release.

(** A compiled [*regexp.Regexp], as its [MatchString]. *)
Definition Regexp : Type := string -> bool.

(** The interface [semrel.Repository]. Reading methods leave no event. *)
Record Repository : Type := mkRepository {
  GetInfo : Outcome (result (string * bool));
  GetCommits : string -> string -> Outcome (result (list Commit));
  GetLatestRelease :
    string -> option Regexp -> string -> string -> Outcome (result Release);
  CreateRelease :
    string -> Semver.Version -> bool -> string -> string -> string -> string ->
    M (option error);
  Owner : string;
  Repo : string;
  Provider : string
}.

(** ** Packages [config] and [condition] *)

Record BetaReleaseConfig : Type := mkBetaRelease {
  MaintainedVersion : string
}.

(** The fields of [config.Config] that the command reads. *)
Record Config : Type := mkConfig {
  Token : string;
  Slug : string;
  Changelog : string;
  Ghr : bool;
  Noci : bool;
  Dry : bool;
  Vf : bool;
  Update : string;
  GheHost : string;
  Prerelease : bool;
  TravisCom : bool;
  BetaRelease : BetaReleaseConfig;
  Match : string;
  GitLab : bool;
  GitLabBaseURL : string;
  GitLabProjectID : string;
  CurrentBranch : string;
  BaseBranch : string;
  Pkgname : string;
  CommitHash : string
}.

(** [condition.CIConfig] with its three keys. *)
Record CIConfig : Type := mkCIConfig {
  token : string;
  defaultBranch : string;
  private : bool
}.

(** The interface [condition.CI]. *)
Record CI : Type := mkCI {
  Name : string;
  GetCurrentBranch : string;
  GetCurrentSHA : string;
  RunCondition : CIConfig -> option error
}.

(** ** The GitHub client *)

Record RepositoryCommit : Type := mkRepositoryCommit {
  rcSHA : string;
  rcMessage : string
}.

(** A [github.Reference]: its name, and type and SHA of its object. *)
Record Reference : Type := mkReference {
  Ref : string;
  ObjectType : string;
  ObjectSHA : string
}.

Record Response : Type := mkResponse {
  StatusCode : Z;
  NextPage : Z
}.

Record RepositoryRelease : Type := mkRepositoryRelease {
  TagName : string;
  ReleaseName : string;
  TargetCommitish : string;
  Body : string;
  IsPrerelease : bool
}.

(** The answers of the GitHub API to the calls of the provider. A creating
    call that answers with an error has created nothing. *)
Record Client : Type := mkClient {
  Repositories_Get : string -> string -> result (string * bool);
  Repositories_ListCommits :
    string -> string -> string -> result (list RepositoryCommit);
  Git_ListRefs :
    string -> string -> Z -> list Reference * option Response * option error;
  Git_CreateRef : string -> string -> string -> string -> option error;
  Repositories_CreateRelease :
    string -> string -> RepositoryRelease -> option error
}.

(** ** The environment of a run *)

Record Env : Type := mkEnv {
  (** [config.NewConfig(c)] *)
  NewConfig : result Config;
  (** [condition.NewCI()] *)
  NewCI : CI;
  (** [os.Getenv] *)
  Getenv : string -> string;
  (** [github.NewClient] for a token *)
  NewClient : string -> Client;
  (** [github.NewEnterpriseClient] for a URL and a token *)
  NewEnterpriseClient : string -> string -> result Client;
  (** [semrel.NewGitLabRepository] *)
  NewGitLabRepository :
    string -> string -> string -> string -> string -> result Repository;
  (** [commitPattern.FindAllStringSubmatch(line, -1)]: for each match its
      groups 1, 2 and 3 (type, scope, subject) *)
  commitPattern : string -> list (string * string * string);
  (** [breakingPattern.MatchString] *)
  breakingPattern : string -> bool;
  (** [regexp.MustCompile], which panics on a pattern that does not compile *)
  MustCompile : string -> option Regexp;
  (** [semver.NewVersion] *)
  NewVersion : string -> result Semver.Version;
  (** [Releases.GetLatestRelease(vrange, lastVersionHotfix)] *)
  ReleasesGetLatestRelease : Releases -> string -> string -> result Release;
  (** [semrel.GetNewVersion], [nil] as [None] *)
  GetNewVersion : Config -> list Commit -> Release -> option Semver.Version;
  (** [semrel.GetChangelog] *)
  GetChangelog : list Commit -> Release -> Semver.Version -> string;
  (** [ioutil.WriteFile(path, content, 0644)] *)
  ioutilWriteFile : string -> string -> option error;
  (** [update.Apply(file, version)] *)
  updateApply : string -> string -> option error;
  (** how many pages of tags a run may fetch *)
  fuel : nat
}.

(** ** The GitHub provider, [semrel.GitHubRepository] *)

Module GitHub.

Local Open Scope cmd_scope.

Record GitHubRepository : Type := mkGitHubRepository {
  owner : string;
  repo : string;
  client : Client
}.

(** [NewGitHubRepository(ctx, gheHost, slug, token)].  The guard on ["/"]
    makes [split[1]] exist. *)
Definition NewGitHubRepository (env : Env) (gheHost slug token : string)
  : result GitHubRepository :=
  if negb (Strings.Contains slug "/") then Err "invalid slug"
  else
    let '(split0, rest) := Strings.Split slug "/"%char in
    let split1 := hd "" rest in
    if Strings.neqb gheHost "" then
      let gheUrl := "https://" ++ gheHost ++ "/api/v3/" in
      match NewEnterpriseClient env gheUrl token with
      | Err e => Err e
      | Ok rClient => Ok (mkGitHubRepository split0 split1 rClient)
      end
    else Ok (mkGitHubRepository split0 split1 (NewClient env token)).

(** [GetInfo()]. *)
Definition GetInfo (env : Env) (r : GitHubRepository)
  : result (string * bool) :=
  match Repositories_Get (client r) (owner r) (repo r) with
  | Err e => Err e
  | Ok (defaultBranch, isPrivate) =>
      let branch :=
        if Strings.neqb (Getenv env "branch_name") ""
        then Getenv env "branch_name" else defaultBranch in
      Ok (branch, isPrivate)
  end.

(** [parseGithubCommit(commit, pkg)]. *)
Definition parseGithubCommit (env : Env) (commit : RepositoryCommit)
           (pkg : string) : Commit :=
  let '(raw0, rawRest) := Strings.Split (rcMessage commit) Strings.LF in
  let c := mkCommit (rcSHA commit) (raw0 :: rawRest) "" "" ""
                    (mkChange false false false) in
  match commitPattern env raw0 with
  | [] => c
  | (found1, found2, found3) :: _ =>
      if Strings.neqb pkg "" && String.eqb pkg found2 then
        let type := Strings.ToLower found1 in
        mkCommit (rcSHA commit) (raw0 :: rawRest) type found2 found3
                 (mkChange (breakingPattern env (rcMessage commit))
                           (String.eqb type "feat")
                           (String.eqb type "fix"))
      else c
  end.

(** [GetCommits(sha, pkg)]. *)
Definition GetCommits (env : Env) (r : GitHubRepository) (sha pkg : string)
  : result (list Commit) :=
  match Repositories_ListCommits (client r) (owner r) (repo r) sha with
  | Err e => Err e
  | Ok commits => Ok (map (fun commit => parseGithubCommit env commit pkg) commits)
  end.

(** The tag of a reference as the loop of [GetLatestRelease] reads it:
    without ["refs/tags/"], and without the release prefix of the package. *)
Definition releaseTag (pkg_name : string) (r : Reference) : string :=
  let tag := Strings.TrimPrefix (Ref r) "refs/tags/" in
  if Strings.Contains tag (pkg_name ++ "-release-")
  then Strings.TrimPrefix tag (pkg_name ++ "-release-")
  else tag.

(** One turn of the loop over the references of a page: the release that
    is appended, or [None] where the loop [continue]s. *)
Definition candidate (env : Env) (re : option Regexp) (pkg_name : string)
           (r : Reference) : option Release :=
  let tag := releaseTag pkg_name r in
  if match re with Some rx => negb (rx tag) | None => false end then None
  else if Strings.neqb (ObjectType r) "commit" then None
  else match NewVersion env tag with
       | Err _ => None
       | Ok version => Some (mkRelease (ObjectSHA r) version)
       end.

(** The loop over the references of one page. *)
Fixpoint collect (env : Env) (re : option Regexp) (pkg_name : string)
         (refs : list Reference) (allReleases : Releases) : Releases :=
  match refs with
  | [] => allReleases
  | r :: rest =>
      collect env re pkg_name rest
              match candidate env re pkg_name r with
              | Some rel => (allReleases ++ [rel])%list
              | None => allReleases
              end
  end.

(** The loop over the pages, from page [page] with [allReleases] so far. *)
Fixpoint pages (env : Env) (r : GitHubRepository) (vrange : string)
         (re : option Regexp) (pkg_name lastVersionHotfix : string)
         (n : nat) (page : Z) (allReleases : Releases)
  : Outcome (result Release) :=
  match n with
  | O => OutOfFuel
  | S n' =>
      let '(refs, resp, err) := Git_ListRefs (client r) (owner r) (repo r) page in
      if match resp with Some rs => (StatusCode rs =? 404)%Z | None => false end
      then Return (Ok (mkRelease "" Semver.zero))
      else
        match err with
        | Some e => Return (Err e)
        | None =>
            let allReleases' := collect env re pkg_name refs allReleases in
            match resp with
            | None => Panic "invalid memory address or nil pointer dereference"
            | Some rs =>
                if (NextPage rs =? 0)%Z
                then Return (ReleasesGetLatestRelease env allReleases'
                               vrange lastVersionHotfix)
                else pages env r vrange re pkg_name lastVersionHotfix
                           n' (NextPage rs) allReleases'
            end
        end
  end.

(** [GetLatestRelease(vrange, re, pkg_name, lastVersionHotfix)]. *)
Definition GetLatestRelease (env : Env) (r : GitHubRepository)
           (vrange : string) (re : option Regexp)
           (pkg_name lastVersionHotfix : string) : Outcome (result Release) :=
  pages env r vrange re pkg_name lastVersionHotfix (fuel env) 0%Z [].

(** [Client.Git.CreateRef] and [Client.Repositories.CreateRelease]. *)
Definition createRef (r : GitHubRepository) (ref sha : string)
  : M (option error) :=
  match Git_CreateRef (client r) (owner r) (repo r) ref sha with
  | Some e => ret (Some e)
  | None => emit (CreateRef ref sha) ;;; ret None
  end.

Definition createRelease (r : GitHubRepository) (opts : RepositoryRelease)
  : M (option error) :=
  match Repositories_CreateRelease (client r) (owner r) (repo r) opts with
  | Some e => ret (Some e)
  | None =>
      emit (CreateReleaseObject (TagName opts) (ReleaseName opts)
              (TargetCommitish opts) (Body opts) (IsPrerelease opts)) ;;;
      ret None
  end.

(** [CreateRelease(changelog, newVersion, prerelease, branch, sha,
    currentSHA, pkgName)]. *)
Definition CreateRelease (r : GitHubRepository) (changelog : string)
           (newVersion : Semver.Version) (prerelease : bool)
           (branch sha currentSHA pkgName : string) : M (option error) :=
  let tag := pkgName ++ "-release-v" ++ Semver.String_ newVersion in
  let isPrerelease :=
    prerelease || Strings.neqb (Semver.Prerelease newVersion) "" in
  let ref := "refs/tags/" ++ tag in
  err <- createRef r ref currentSHA ;;
  match err with
  | Some e => ret (Some e)
  | None =>
      let opts := mkRepositoryRelease tag tag currentSHA changelog isPrerelease in
      err <- createRelease r opts ;;
      match err with
      | Some e => ret (Some e)
      | None =>
          if String.eqb branch "master" then
            let tag := pkgName ++ "-branch-v" ++ Semver.String_ newVersion in
            let ref := "refs/heads/" ++ tag in
            err <- createRef r ref currentSHA ;;
            match err with
            | Some e => ret (Some e)
            | None => ret None
            end
          else ret None
      end
  end.

(** The provider behind the interface. *)
Definition asRepository (env : Env) (r : GitHubRepository) : Repository :=
  mkRepository
    (Return (GetInfo env r))
    (fun sha pkg => Return (GetCommits env r sha pkg))
    (GetLatestRelease env r)
    (CreateRelease r)
    (owner r) (repo r) "GitHub".

End GitHub.

(** ** The command, [cliHandler] *)

Local Open Scope cmd_scope.

(** What the first part of [cliHandler] has established when the latest
    release is known. *)
Record Context : Type := mkContext {
  conf : Config;
  repository : Repository;
  currentBranch : string;
  currentSha : string;
  release : Release
}.

(** What the second part adds: the commits and the new version. *)
Record Plan : Type := mkPlan {
  context : Context;
  commits : list Commit;
  newVer : Semver.Version
}.

(** [cliHandler], lines 61-67: the repository of the configured provider. *)
Definition newRepository (env : Env) (conf : Config) (ci : CI)
  : result Repository :=
  if GitLab conf then
    NewGitLabRepository env (GitLabBaseURL conf) (Slug conf) (Token conf)
                        (GetCurrentBranch ci) (GitLabProjectID conf)
  else
    match GitHub.NewGitHubRepository env (GheHost conf) (Slug conf) (Token conf) with
    | Ok r => Ok (GitHub.asRepository env r)
    | Err e => Err e
    end.

(** [cliHandler], lines 117-122.  The filter on tags:
    [regexp.MustCompile("^" + match)] when the trimmed [conf.Match] is not
    empty, [nil] otherwise. *)
Definition matchRegex (env : Env) (conf : Config) : M (option Regexp) :=
  let match_ := Strings.TrimSpace (Match conf) in
  if Strings.neqb match_ "" then
    match MustCompile env ("^" ++ match_) with
    | Some re => ret (Some re)
    | None => lift (Panic ("regexp: Compile(^" ++ match_ ++ ")"))
    end
  else ret None.

(** [cliHandler], lines 55-129: configuration, provider, branches, CI
    condition and the latest release. *)
Definition setup (env : Env) : M Context :=
  conf <- orExit (NewConfig env) 1 ;;
  let ci := NewCI env in
  repo <- orExit (newRepository env conf ci) 1 ;;
  info <- lift (GetInfo repo) ;;
  '(defaultBranch, isPrivate) <- orExit info 1 ;;
  let currentBranch :=
    if Strings.neqb (CurrentBranch conf) "" then CurrentBranch conf
    else GetCurrentBranch ci in
  (if String.eqb currentBranch "" then exit 1 "current branch not found"
   else ret tt) ;;;
  (if Strings.neqb (MaintainedVersion (BetaRelease conf)) ""
      && String.eqb currentBranch defaultBranch
   then exit 1 "maintained version not allowed on default branch"
   else ret tt) ;;;
  let defaultBranch :=
    if Strings.neqb (MaintainedVersion (BetaRelease conf)) "" then "*"
    else defaultBranch in
  let currentSha :=
    if Strings.neqb (CurrentBranch conf) "" then CurrentBranch conf
    else GetCurrentSHA ci in
  (if negb (Noci conf) then
     exitIfError
       (RunCondition ci (mkCIConfig (Token conf) defaultBranch
                                    (isPrivate || TravisCom conf))) 66
   else ret tt) ;;;
  matchRegex <- matchRegex env conf ;;
  let lastVersionHotfix :=
    if Strings.neqb (CurrentBranch conf) (BaseBranch conf)
    then Strings.Trim (CurrentBranch conf) (Pkgname conf ++ "-branch-v")
    else "" in
  latest <- lift (GetLatestRelease repo (MaintainedVersion (BetaRelease conf))
                                   matchRegex (Pkgname conf) lastVersionHotfix) ;;
  release <- orExit latest 1 ;;
  ret (mkContext conf repo currentBranch currentSha release).

(** [cliHandler], lines 140-150.  The new version: what
    [semrel.GetNewVersion] computes, and when it returns [nil] the patch
    increment off the base branch, the minor increment on it. *)
Definition newVersion (env : Env) (conf : Config) (commits : list Commit)
           (release : Release) : Semver.Version :=
  match GetNewVersion env conf commits release with
  | Some newVer => newVer
  | None =>
      if Strings.neqb (CurrentBranch conf) (BaseBranch conf)
      then Semver.IncPatch (Version release)
      else Semver.IncMinor (Version release)
  end.

(** [cliHandler], lines 131-154: from the pre-release check to the dry-run
    exit. *)
Definition resolve (env : Env) (ctx : Context) : M Plan :=
  (if Strings.Contains (MaintainedVersion (BetaRelease (conf ctx))) "-"
      && String.eqb (Semver.Prerelease (Version (release ctx))) ""
   then exit 1 "no pre-release for this version possible"
   else ret tt) ;;;
  fetched <- lift (GetCommits (repository ctx) (currentSha ctx)
                              (Pkgname (conf ctx))) ;;
  commits <- orExit fetched 1 ;;
  let newVer := newVersion env (conf ctx) commits (release ctx) in
  (if Dry (conf ctx) then exit 65 "DRY RUN: no release was created"
   else ret tt) ;;;
  ret (mkPlan ctx commits newVer).

(** [ioutil.WriteFile] followed by [exitIfError]. *)
Definition writeFile (env : Env) (path content : string) : M unit :=
  match ioutilWriteFile env path content with
  | Some e => exit 1 e
  | None => emit (WriteFile path content)
  end.

(** [cliHandler], lines 162-172.  The loop that looks for [conf.CommitHash]
    among the commits: the SHA to release and [foundCommit]. *)
Definition anchor (commits : list Commit) (commitHash : string)
  : string * bool :=
  match commits with
  | [] => ("", false)
  | c0 :: _ =>
      fold_left
        (fun (st : string * bool) (j : Commit) =>
           if String.eqb (SHA j) commitHash then (SHA j, true) else st)
        commits (SHA c0, false)
  end.

(** [cliHandler], lines 156-175: from the changelog to the check of
    [foundCommit]; the changelog and the SHA to release. *)
Definition prepare (env : Env) (p : Plan) : M (string * string) :=
  let ctx := context p in
  let conf := conf ctx in
  let changelog := GetChangelog env (commits p) (release ctx) (newVer p) in
  (if Strings.neqb (Changelog conf) ""
   then writeFile env (Changelog conf) changelog else ret tt) ;;;
  let '(SHA, foundCommit) := anchor (commits p) (CommitHash conf) in
  (if negb foundCommit then exit 65 "Commit not found" else ret tt) ;;;
  ret (changelog, SHA).

(** [cliHandler], lines 179-192: after the release, the files [.ghr] and
    [.version] and the update hook. *)
Definition finish (env : Env) (p : Plan) : M unit :=
  let ctx := context p in
  let conf := conf ctx in
  let repo := repository ctx in
  (if Ghr conf then
     writeFile env ".ghr"
       ("-u " ++ Owner repo ++ " -r " ++ Repo repo ++ " v"
        ++ Semver.String_ (newVer p))
   else ret tt) ;;;
  (if Vf conf then writeFile env ".version" (Semver.String_ (newVer p))
   else ret tt) ;;;
  (if Strings.neqb (Update conf) "" then
     match updateApply env (Update conf) (Semver.String_ (newVer p)) with
     | Some e => exit 1 e
     | None => emit (UpdateApply (Update conf) (Semver.String_ (newVer p)))
     end
   else ret tt) ;;;
  ret tt.

(** [cliHandler], lines 176-192: the release and what follows it. *)
Definition deliver (env : Env) (p : Plan) (changelog SHA : string) : M unit :=
  let ctx := context p in
  let conf := conf ctx in
  let repo := repository ctx in
  err <- CreateRelease repo changelog (newVer p) (Prerelease conf)
                       (currentBranch ctx) (currentSha ctx) SHA (Pkgname conf) ;;
  exitIfError err 1 ;;;
  finish env p.

Definition cliHandler (env : Env) : M unit :=
  ctx <- setup env ;;
  p <- resolve env ctx ;;
  '(changelog, SHA) <- prepare env p ;;
  deliver env p changelog SHA.

(** A run from the empty trace. *)
Definition run (env : Env) : Outcome unit * list Event := cliHandler env [].

(** ** Reading a run *)

(** The plan of a run, when the run gets as far as the changelog. *)
Definition planOf (env : Env) : option Plan :=
  match setup env [] with
  | (Return ctx, t) =>
      match resolve env ctx t with
      | (Return p, _) => Some p
      | _ => None
      end
  | _ => None
  end.

(** A computation that leaves the trace as it found it. *)
Definition silent {A} (m : M A) : Prop := forall t, snd (m t) = t.

(** A computation that keeps a property of the trace. *)
Definition preserves {A} (P : list Event -> Prop) (m : M A) : Prop :=
  forall t, P t -> P (snd (m t)).

Definition failed {A} (o : Outcome A) : bool :=
  match o with
  | Return _ => false
  | _ => true
  end.

(** Tags, releases and branches: what is created at the provider. *)
Definition isProviderEvent (ev : Event) : bool :=
  match ev with
  | CreateRef _ _ => true
  | CreateReleaseObject _ _ _ _ _ => true
  | _ => false
  end.

(** A property of traces that outlives events other than the provider's. *)
Definition lasting (P : list Event -> Prop) : Prop :=
  forall t ev, isProviderEvent ev = false -> P t -> P (t ++ [ev])%list.

(** The commit that a created reference or release points at. *)
Definition pointsAt (sha : string) (ev : Event) : Prop :=
  match ev with
  | CreateRef _ s => s = sha
  | CreateReleaseObject _ _ target _ _ => target = sha
  | _ => True
  end.

(** The changelog file that [prepare] writes, when one is configured. *)
Definition changelogWritten (env : Env) (p : Plan) : list Event :=
  let ctx := context p in
  if Strings.neqb (Changelog (conf ctx)) ""
  then [WriteFile (Changelog (conf ctx))
                  (GetChangelog env (commits p) (release ctx) (newVer p))]
  else [].

(** The changelog step passes: no file is asked for, or it can be written. *)
Definition changelogPasses (env : Env) (p : Plan) : Prop :=
  let ctx := context p in
  Changelog (conf ctx) = ""
  \/ ioutilWriteFile env (Changelog (conf ctx))
       (GetChangelog env (commits p) (release ctx) (newVer p)) = None.

Definition isUpper (c : ascii) : bool :=
  let n := nat_of_ascii c in ((65 <=? n) && (n <=? 90))%nat.

Definition unclassified (c : Commit) : Prop :=
  Type_ c = "" /\ Scope c = "" /\ Message c = ""
  /\ CommitChange c = mkChange false false false.

(** ** The parts of package [semrel] that the sources call and do not hold *)

Module SemrelSpec.

(** Modelled from the spec: [Version.IncMajor] of the [semver] package,
    "incrementing major zeroes minor and patch" (section 4.2). *)
Definition IncMajor (v : Semver.Version) : Semver.Version :=
  Semver.mkVersion (Semver.wrap64 (Semver.major v + 1)) 0 0 "" "".

(** Modelled from the spec: the fold of [semrel.GetNewVersion], "fold all
    commits' Change flags with logical OR across the set" (section 4.2). *)
Definition CalculateChange (commits : list Commit) : Change :=
  fold_left
    (fun change commit =>
       mkChange (Major change || Major (CommitChange commit))
                (Minor change || Minor (CommitChange commit))
                (Patch change || Patch (CommitChange commit)))
    commits (mkChange false false false).

(** Modelled from the spec: [semrel.GetNewVersion] is not among the
    sources.  "major if ANY commit is breaking, else minor if ANY is a
    feature, else patch if ANY is a fix, else none" (section 4.2), on a
    previous release that is not a pre-release. *)
Definition GetNewVersion (conf : Config) (commits : list Commit)
           (release : Release) : option Semver.Version :=
  let change := CalculateChange commits in
  if Major change then Some (IncMajor (Version release))
  else if Minor change then Some (Semver.IncMinor (Version release))
  else if Patch change then Some (Semver.IncPatch (Version release))
  else None.

Definition isWord (c : ascii) : bool :=
  let n := nat_of_ascii c in
  (((48 <=? n) && (n <=? 57)) || ((65 <=? n) && (n <=? 90))
   || ((97 <=? n) && (n <=? 122)) || (n =? 95))%nat.

Fixpoint span (f : ascii -> bool) (s : string) : string * string :=
  match s with
  | EmptyString => (EmptyString, EmptyString)
  | String c r =>
      if f c then let '(a, b) := span f r in (String c a, b)
      else (EmptyString, s)
  end.

(** The text before and after the first occurrence of [sep]. *)
Fixpoint cut (s sep : string) : option (string * string) :=
  match Strings.cutPrefix s sep with
  | Some after => Some (EmptyString, after)
  | None =>
      match s with
      | EmptyString => None
      | String c r =>
          match cut r sep with
          | Some (before, after) => Some (String c before, after)
          | None => None
          end
      end
  end.

(** Modelled from the spec: [commitPattern] is not among the sources.  The
    subject line is [<type>(<scope>): <subject>], "scope parenthetical
    optional in grammar", or [<type>!: <subject>] (section 4.1); the type
    is a word. *)
Definition commitPattern (line : string) : list (string * string * string) :=
  let '(type, rest) := span isWord line in
  match rest with
  | String "(" r =>
      match cut r "): " with
      | Some (scope, subject) => [(type, scope, subject)]
      | None => []
      end
  | String ":" (String " " subject) => [(type, "", subject)]
  | String "!" (String ":" (String " " subject)) => [(type, "", subject)]
  | _ => []
  end.

(** Modelled from the spec: [breakingPattern] is not among the sources; the
    "dedicated footer token" of section 4.1. *)
Definition breakingPattern (message : string) : bool :=
  Strings.Contains message "BREAKING CHANGE".

Definition isDigit (c : ascii) : bool :=
  let n := nat_of_ascii c in ((48 <=? n) && (n <=? 57))%nat.

Definition isLetter (c : ascii) : bool :=
  let n := nat_of_ascii c in
  (((65 <=? n) && (n <=? 90)) || ((97 <=? n) && (n <=? 122)))%nat.

Definition allBytes (f : ascii -> bool) (s : string) : bool :=
  forallb f (list_ascii_of_string s).

(** A number of a version: digits that fit 64 bits. *)
Definition number (s : string) : option Z :=
  match s with
  | EmptyString => None
  | _ =>
      if allBytes isDigit s then
        match NilEmpty.uint_of_string s with
        | Some u =>
            if (Z.of_uint u <=? 2 ^ 63 - 1)%Z then Some (Z.of_uint u) else None
        | None => None
        end
      else None
  end.

(** Identifiers of a pre-release or of build metadata: letters, digits
    and hyphens, with dots between them. *)
Definition identifiers (s : string) : bool :=
  let '(a, rest) := Strings.Split s "."%char in
  forallb (fun x => Strings.neqb x ""
                    && allBytes (fun c => isDigit c || isLetter c
                                          || Ascii.eqb c "-"%char) x)
          (a :: rest).

Definition optional (f : string -> bool) (s : option string) : bool :=
  match s with
  | Some x => f x
  | None => true
  end.

Definition orEmpty (s : option string) : string :=
  match s with
  | Some x => x
  | None => EmptyString
  end.

(** Modelled from the spec: [semver.NewVersion] is not among the sources.
    A version is "major.minor.patch, optional pre-release/build metadata"
    (section 3).  As in the Masterminds library, a leading [v] is allowed,
    minor and patch may be left out and are then 0, the pre-release follows
    [-] and the metadata [+], and a number beyond 64 bits is an error. *)
Definition NewVersion (tag : string) : result Semver.Version :=
  let s := Strings.TrimPrefix tag "v" in
  let '(s, metadata) :=
    match cut s "+" with
    | Some (before, after) => (before, Some after)
    | None => (s, None)
    end in
  let '(core, pre) :=
    match cut s "-" with
    | Some (before, after) => (before, Some after)
    | None => (s, None)
    end in
  let '(major, rest) := Strings.Split core "."%char in
  if negb (forallb (fun x => Strings.neqb x "" && allBytes isDigit x)
                   (major :: rest)
           && (length rest <=? 2)%nat
           && optional identifiers pre && optional identifiers metadata)
  then Err "Invalid Semantic Version"
  else
    match number major, number (nth 0 rest "0"), number (nth 1 rest "0") with
    | Some x, Some y, Some z =>
        Ok (Semver.mkVersion x y z (orEmpty pre) (orEmpty metadata))
    | _, _, _ => Err "Error parsing version segment"
    end.

(** Modelled from the spec: the [regexp] package is not among the sources.
    Of its syntax this holds the expressions made of literal bytes, [|]
    between alternatives and [^] at the start of an alternative: an
    alternative with [^] matches a string that starts with its literal,
    one without matches a string that holds its literal anywhere, and
    the expression matches when one of its alternatives does.  Section 4.3
    asks for a match "anchored at the start". *)
Definition isMeta (c : ascii) : bool := Strings.inCutset c "\.+*?()|[]{}^$".

Definition isLiteral (s : string) : bool :=
  allBytes (fun c => (Strings.byte c <? Strings.RuneSelf)%N && negb (isMeta c)) s.

(** An alternative: whether it starts with [^], and its literal. *)
Definition alternative (a : string) : bool * string :=
  match a with
  | String "^" literal => (true, literal)
  | _ => (false, a)
  end.

Definition matchAlternative (s : string) (a : bool * string) : bool :=
  if fst a then Strings.HasPrefix s (snd a) else Strings.Contains s (snd a).

Definition MustCompile (pattern : string) : option Regexp :=
  let '(a, rest) := Strings.Split pattern "|"%char in
  let alternatives := map alternative (a :: rest) in
  if forallb (fun x => isLiteral (snd x)) alternatives
  then Some (fun s => existsb (matchAlternative s) alternatives)
  else None.

Definition precedes (v w : Semver.Version) : bool :=
  ((Semver.major v <? Semver.major w)
   || ((Semver.major v =? Semver.major w)
       && ((Semver.minor v <? Semver.minor w)
           || ((Semver.minor v =? Semver.minor w)
               && ((Semver.patch v <? Semver.patch w)
                   || ((Semver.patch v =? Semver.patch w)
                       && Strings.neqb (Semver.pre v) ""
                       && String.eqb (Semver.pre w) ""))))))%Z.

(** One number of a maintenance line against one number of a version:
    [x], [X] and [*] stand for any number. *)
Definition component (pattern : string) (n : Z) : option bool :=
  if String.eqb pattern "x" || String.eqb pattern "X" || String.eqb pattern "*"
  then Some true
  else option_map (Z.eqb n) (number pattern).

Definition both (a b : option bool) : option bool :=
  match a, b with
  | Some x, Some y => Some (x && y)
  | _, _ => None
  end.

(** A version is on a maintenance line, "an explicit version or version
    range string": up to three numbers or wildcards with dots between
    them, a pre-release after [-] left aside. *)
Definition satisfies (vrange : string) (v : Semver.Version) : option bool :=
  let core := match cut vrange "-" with
              | Some (before, _) => before
              | None => vrange
              end in
  match Strings.Split (Strings.TrimPrefix core "v") "."%char with
  | (a, []) => component a (Semver.major v)
  | (a, [b]) => both (component a (Semver.major v)) (component b (Semver.minor v))
  | (a, [b; c]) =>
      both (component a (Semver.major v))
           (both (component b (Semver.minor v)) (component c (Semver.patch v)))
  | _ => None
  end.

(** The numbers of a version start with the suffix of a hotfix branch. *)
Definition onHotfixLine (suffix : string) (v : Semver.Version) : bool :=
  Strings.HasPrefix
    (Semver.decimal (Semver.major v) ++ "." ++ Semver.decimal (Semver.minor v)
     ++ "." ++ Semver.decimal (Semver.patch v) ++ ".")
    (Strings.TrimPrefix suffix "v" ++ ".").

(** Modelled from the spec: [Releases.GetLatestRelease] is not among the
    sources.  Section 4.3: with a maintenance line the pool is restricted
    to the versions that satisfy it; with a hotfix suffix, to the versions
    "whose numeric prefix matches that suffix"; of the pool "the one with
    the greatest Version", "first-seen wins"; the zero Release for an
    empty pool. *)
Definition GetLatestRelease (all : Releases) (vrange lastVersionHotfix : string)
  : result Release :=
  let onLine (v : Semver.Version) : option bool :=
    if String.eqb vrange "" then Some true else satisfies vrange v in
  match onLine Semver.zero with
  | None => Err "improper constraint"
  | Some _ =>
      let pool :=
        filter (fun r =>
                  match onLine (Version r) with Some b => b | None => false end
                  && (String.eqb lastVersionHotfix ""
                      || onHotfixLine lastVersionHotfix (Version r))) all in
      Ok (match pool with
          | [] => mkRelease "" Semver.zero
          | r :: rest =>
              fold_left (fun best x =>
                           if precedes (Version best) (Version x) then x else best)
                        rest r
          end)
  end.

(** Modelled from the spec: [semrel.GetChangelog] is not among the sources.
    "a heading identifying newVersion" (section 4.4); the sections per
    commit type are left out. *)
Definition GetChangelog (commits : list Commit) (release : Release)
           (newVersion : Semver.Version) : string :=
  "## " ++ Semver.String_ newVersion.

End SemrelSpec.

(** ** Concrete runs *)

Module Sample.

(** A GitHub repository with the tags of two packages and two commits. *)
Definition refs : list Reference :=
  [ mkReference "refs/tags/pkgA-release-v1.0.1" "commit" "sha-101";
    mkReference "refs/tags/pkgA-release-v1.0.0" "commit" "sha-100";
    mkReference "refs/tags/pkgA-release-nightly" "commit" "sha-n";
    mkReference "refs/tags/pkgB-release-v3.0.0" "commit" "sha-b" ].

Definition history : list RepositoryCommit :=
  [ mkRepositoryCommit "sha-2" "feat(pkgA): add export";
    mkRepositoryCommit "sha-1" "fix(pkgA): null check" ].

Definition client (defaultBranch : string) (tags : list Reference)
           (log : list RepositoryCommit) (releaseError : option error)
  : Client :=
  mkClient
    (fun _ _ => Ok (defaultBranch, false))
    (fun _ _ _ => Ok log)
    (fun _ _ _ => (tags, Some (mkResponse 200 0), None))
    (fun _ _ _ _ => None)
    (fun _ _ _ => releaseError).

(** A repository without any tag: the listing answers 404. *)
Definition emptyClient : Client :=
  mkClient
    (fun _ _ => Ok ("main", false))
    (fun _ _ _ => Ok [])
    (fun _ _ _ => ([], Some (mkResponse 404 0), Some "404 Not Found"))
    (fun _ _ _ _ => None)
    (fun _ _ _ => None).

Definition ci : CI :=
  mkCI "none" "" "" (fun _ => None).

(** A configuration for package [pkgA] of [acme/widgets]. *)
Definition config (changelog maintained currentBranch baseBranch commitHash
                   : string) : Config :=
  mkConfig "token" "acme/widgets" changelog false true false false ""
           "" false false (mkBetaRelease maintained) ""
           false "" "" currentBranch baseBranch "pkgA" commitHash.

(** The same configuration with a filter on the tags. *)
Definition configMatching (pattern : string) : Config :=
  mkConfig "token" "acme/widgets" "" false true false false ""
           "" false false (mkBetaRelease "") pattern
           false "" "" "main" "main" "pkgA" "sha-2".

Definition env (conf : Config) (c : Client) : Env :=
  mkEnv (Ok conf) ci (fun _ => "") (fun _ => c) (fun _ _ => Ok c)
        (fun _ _ _ _ _ => Err "no GitLab")
        SemrelSpec.commitPattern SemrelSpec.breakingPattern
        SemrelSpec.MustCompile
        SemrelSpec.NewVersion SemrelSpec.GetLatestRelease
        SemrelSpec.GetNewVersion SemrelSpec.GetChangelog
        (fun _ _ => None) (fun _ _ => None) 8.

Definition github (c : Client) : GitHub.GitHubRepository :=
  GitHub.mkGitHubRepository "acme" "widgets" c.

Definition v (major minor patch : Z) : Semver.Version :=
  Semver.mkVersion major minor patch "" "".

(** The run of package [pkgA] on branch [branch], with base branch [base],
    anchored at [commitHash], in a repository whose default branch is
    [defaultBranch]. *)
Definition envOn (changelog maintained branch base commitHash defaultBranch
                  : string) (log : list RepositoryCommit) : Env :=
  env (config changelog maintained branch base commitHash)
      (client defaultBranch refs log None).

(** What [setup] establishes in such a run: the latest release of [pkgA]
    is 1.0.1. *)
Definition contextOn (changelog maintained branch base commitHash
                      defaultBranch : string) (log : list RepositoryCommit)
  : Context :=
  let e := envOn changelog maintained branch base commitHash defaultBranch log in
  mkContext (config changelog maintained branch base commitHash)
            (GitHub.asRepository e (github (client defaultBranch refs log None)))
            branch branch (mkRelease "sha-101" (v 1 0 1)).

Definition planOn (changelog maintained branch base commitHash defaultBranch
                   : string) (log : list RepositoryCommit)
           (newVer : Semver.Version) : Plan :=
  let e := envOn changelog maintained branch base commitHash defaultBranch log in
  mkPlan (contextOn changelog maintained branch base commitHash defaultBranch log)
         (map (fun c => GitHub.parseGithubCommit e c "pkgA") log)
         newVer.

(** A release from [main], the default branch, anchored at [sha-2]. *)
Definition released : Env :=
  envOn "CHANGELOG.md" "" "main" "main" "sha-2" "main" history.
Definition releasedPlan : Plan :=
  planOn "CHANGELOG.md" "" "main" "main" "sha-2" "main" history (v 1 1 0).

(** The same run anchored at a commit that was not fetched. *)
Definition notFound : Env :=
  envOn "CHANGELOG.md" "" "main" "main" "zzz" "main" history.
Definition notFoundPlan : Plan :=
  planOn "CHANGELOG.md" "" "main" "main" "zzz" "main" history (v 1 1 0).

(** The same run at a provider that creates the tag and then refuses the
    release. *)
Definition releaseRefused : Env :=
  env (config "CHANGELOG.md" "" "main" "main" "sha-2")
      (client "main" refs history (Some "422 Validation Failed")).

(** A release from a branch named [master] that is not the default. *)
Definition onMaster : Env :=
  envOn "CHANGELOG.md" "" "master" "master" "sha-1" "main" history.

(** A pre-release asked for on a line whose latest release is 1.0.1. *)
Definition maintained : Env :=
  envOn "" "1.0.x-beta" "pkgA-branch-v1.0" "main" "sha-1" "main" history.
Definition maintainedContext : Context :=
  contextOn "" "1.0.x-beta" "pkgA-branch-v1.0" "main" "sha-1" "main" history.

(** No commit and no anchor, on the base branch and on a hotfix branch. *)
Definition quiet : Env := envOn "" "" "main" "main" "" "main" [].
Definition quietPlan : Plan :=
  planOn "" "" "main" "main" "" "main" [] (v 1 1 0).
Definition quietHotfix : Env :=
  envOn "" "" "pkgA-branch-v1.0" "main" "" "main" [].
Definition quietHotfixPlan : Plan :=
  planOn "" "" "pkgA-branch-v1.0" "main" "" "main" [] (v 1 0 2).

(** Two commits and no anchor. *)
Definition noAnchor : Env := envOn "" "" "main" "main" "" "main" history.
Definition noAnchorPlan : Plan :=
  planOn "" "" "main" "main" "" "main" history (v 1 1 0).

(** A repository without tags, and a filter on tags that start with [v]. *)
Definition firstRelease : Env :=
  env (config "" "" "main" "main" "") emptyClient.

End Sample.

(** ** More of the sources, and further readings of a run *)

(** [errorHandler(logger)(err, exitCode...)], lines 22-33: nothing for a nil
    error; otherwise the error is logged and the process exits, with the
    code passed when exactly one is passed and with 1 otherwise. *)
Definition errorHandler (err : option error) (exitCode : list Z) : M unit :=
  match err with
  | Some e =>
      match exitCode with
      | [code] => exit code e
      | _ => exit 1 e
      end
  | None => ret tt
  end.

(** The lines of a message put together again, a line feed between them. *)
Fixpoint joinLines (first : string) (rest : list string) : string :=
  match rest with
  | [] => first
  | l :: ls => first ++ String Strings.LF (joinLines l ls)
  end.

Definition firstByte (s : string) : option ascii :=
  match s with
  | EmptyString => None
  | String c _ => Some c
  end.

Fixpoint lastByte (s : string) : option ascii :=
  match s with
  | EmptyString => None
  | String c EmptyString => Some c
  | String _ r => lastByte r
  end.

(** No byte of [s] is [c]. *)
Fixpoint without (c : ascii) (s : string) : Prop :=
  match s with
  | EmptyString => True
  | String d r => d <> c /\ without c r
  end.

(** The exits of a computation are among those that [S] allows. *)
Definition exitsIn {A} (S : Z -> error -> Prop) (m : M A) : Prop :=
  forall t c e t', m t = (Exit c e, t') -> S c e.

(** A computation neither panics nor runs out of fuel. *)
Definition completes {A} (m : M A) : Prop :=
  forall t, match fst (m t) with
            | Panic _ | OutOfFuel => False
            | _ => True
            end.

(** The current branch of a run: the configured one, else that of the CI. *)
Definition branchOf (conf : Config) (ci : CI) : string :=
  if Strings.neqb (CurrentBranch conf) "" then CurrentBranch conf
  else GetCurrentBranch ci.

(** The events of [finish] when every step of it succeeds. *)
Definition finishEvents (p : Plan) : list Event :=
  let ctx := context p in
  let version := Semver.String_ (newVer p) in
  ((if Ghr (conf ctx)
    then [WriteFile ".ghr"
            ("-u " ++ Owner (repository ctx) ++ " -r " ++ Repo (repository ctx)
             ++ " v" ++ version)]
    else [])
   ++ (if Vf (conf ctx) then [WriteFile ".version" version] else [])
   ++ (if Strings.neqb (Update (conf ctx)) ""
       then [UpdateApply (Update (conf ctx)) version] else []))%list.

(** [cliHandler], lines 123-126: the suffix of a hotfix branch that is
    handed to the selector. *)
Definition lastVersionHotfix (conf : Config) : string :=
  if Strings.neqb (CurrentBranch conf) (BaseBranch conf)
  then Strings.Trim (CurrentBranch conf) (Pkgname conf ++ "-branch-v")
  else "".

(** The code points that [unicode.IsSpace] accepts, and their encodings. *)
Definition spaceRunes : list N :=
  [9; 10; 11; 12; 13; 32; 133; 160; 5760;
   8192; 8193; 8194; 8195; 8196; 8197; 8198; 8199; 8200; 8201; 8202;
   8232; 8233; 8239; 8287; 12288]%N.

Definition whiteSpace : list string := map Strings.EncodeRune spaceRunes.

(** A byte of ASCII that is white space, and one that is not. *)
Definition asciiSpace (c : ascii) : bool :=
  (Strings.byte c <? Strings.RuneSelf)%N && Strings.IsSpace (Strings.byte c).

Definition asciiGraphic (c : ascii) : bool :=
  (Strings.byte c <? Strings.RuneSelf)%N
  && negb (Strings.IsSpace (Strings.byte c)).

(** How an outcome that is neither a return nor an exit ends: with the
    message of a panic, or without an end. *)
Definition crashOf {A} (o : Outcome A) : option (option string) :=
  match o with
  | Panic msg => Some (Some msg)
  | OutOfFuel => Some None
  | _ => None
  end.

(** ** More concrete runs *)

Module Cases.

(** A provider that announces page 1 after every page of tags. *)
Definition endlessClient : Client :=
  mkClient
    (fun _ _ => Ok ("main", false))
    (fun _ _ _ => Ok [])
    (fun _ _ _ => ([], Some (mkResponse 200 1), None))
    (fun _ _ _ _ => None)
    (fun _ _ _ => None).

(** A provider whose listing of the tags fails. *)
Definition failingClient : Client :=
  mkClient
    (fun _ _ => Ok ("main", false))
    (fun _ _ _ => Ok [])
    (fun _ _ _ => ([], Some (mkResponse 500 0), Some "500 Internal Server Error"))
    (fun _ _ _ _ => None)
    (fun _ _ _ => None).

Definition firstPage : list Reference :=
  [ mkReference "refs/tags/pkgA-release-v1.0.0" "commit" "sha-100";
    mkReference "refs/tags/pkgA-release-v0.9.0" "tag" "sha-annotated" ].

Definition secondPage : list Reference :=
  [ mkReference "refs/tags/pkgA-release-v1.2.0" "commit" "sha-120" ].

(** A provider that lists its tags on page 0 and on page 2. *)
Definition pagedClient : Client :=
  mkClient
    (fun _ _ => Ok ("main", false))
    (fun _ _ _ => Ok [])
    (fun _ _ page =>
       if (page =? 0)%Z then (firstPage, Some (mkResponse 200 2), None)
       else (secondPage, Some (mkResponse 200 0), None))
    (fun _ _ _ _ => None)
    (fun _ _ _ => None).

Definition sampleClient : Client :=
  Sample.client "main" Sample.refs Sample.history None.

(** The configuration of [Sample.released] with the dry flag, and with
    every file and the update hook asked for. *)
Definition dryConfig : Config :=
  mkConfig "token" "acme/widgets" "CHANGELOG.md" false true true false ""
           "" false false (mkBetaRelease "") ""
           false "" "" "main" "main" "pkgA" "sha-2".

Definition fullConfig : Config :=
  mkConfig "token" "acme/widgets" "CHANGELOG.md" true true false true "package.json"
           "" false false (mkBetaRelease "") ""
           false "" "" "master" "master" "pkgA" "sha-2".

(** A configuration whose slug names no owner. *)
Definition slugConfig : Config :=
  mkConfig "token" "widgets" "" false true false false ""
           "" false false (mkBetaRelease "") ""
           false "" "" "main" "main" "pkgA" "sha-2".

Definition dry : Env := Sample.env dryConfig sampleClient.
Definition full : Env := Sample.env fullConfig sampleClient.
Definition badSlug : Env := Sample.env slugConfig sampleClient.

Definition fullPlan : Plan :=
  mkPlan (mkContext fullConfig
            (GitHub.asRepository full (Sample.github sampleClient))
            "master" "master" (mkRelease "sha-101" (Sample.v 1 0 1)))
         (map (fun c => GitHub.parseGithubCommit full c "pkgA") Sample.history)
         (Sample.v 1 1 0).

(** No current branch, neither configured nor from the CI. *)
Definition noBranch : Env :=
  Sample.envOn "" "" "" "main" "sha-2" "main" Sample.history.

(** A maintained version on the default branch. *)
Definition maintainedOnDefault : Env :=
  Sample.envOn "" "1.0.x" "main" "main" "sha-2" "main" Sample.history.

(** A CI that refuses the run. *)
Definition ciConfig : Config :=
  mkConfig "token" "acme/widgets" "" false false false false ""
           "" false false (mkBetaRelease "") ""
           false "" "" "" "main" "pkgA" "sha-2".

Definition ciRefused : Env :=
  mkEnv (Ok ciConfig)
        (mkCI "ci" "feature" "sha-9"
              (fun config =>
                 if String.eqb (defaultBranch config) "feature" then None
                 else Some "not running on the default branch"))
        (fun _ => "") (fun _ => sampleClient) (fun _ _ => Ok sampleClient)
        (fun _ _ _ _ _ => Err "no GitLab")
        SemrelSpec.commitPattern SemrelSpec.breakingPattern
        SemrelSpec.MustCompile
        SemrelSpec.NewVersion SemrelSpec.GetLatestRelease
        SemrelSpec.GetNewVersion SemrelSpec.GetChangelog
        (fun _ _ => None) (fun _ _ => None) 8.

(** A provider whose listing of the tags fails on its second page. *)
Definition failsLater : Client :=
  mkClient
    (fun _ _ => Ok ("main", false))
    (fun _ _ _ => Ok [])
    (fun _ _ page =>
       if (page =? 0)%Z then (firstPage, Some (mkResponse 200 2), None)
       else ([], Some (mkResponse 502 0), Some "502 Bad Gateway"))
    (fun _ _ _ _ => None)
    (fun _ _ _ => None).

(** A CI that reports its branch and accepts every run, and the run of
    [Sample.quiet] under it: the current branch is that of the CI when
    [currentBranch], the flag, is empty. *)
Definition ciOn (branch : string) : CI :=
  mkCI "ci" branch "sha-2" (fun _ => None).

Definition envWithCI (currentBranch baseBranch ciBranch : string) : Env :=
  mkEnv (Ok (Sample.config "" "" currentBranch baseBranch ""))
        (ciOn ciBranch)
        (fun _ => "")
        (fun _ => Sample.client "main" Sample.refs [] None)
        (fun _ _ => Ok (Sample.client "main" Sample.refs [] None))
        (fun _ _ _ _ _ => Err "no GitLab")
        SemrelSpec.commitPattern SemrelSpec.breakingPattern
        SemrelSpec.MustCompile
        SemrelSpec.NewVersion SemrelSpec.GetLatestRelease
        SemrelSpec.GetNewVersion SemrelSpec.GetChangelog
        (fun _ _ => None) (fun _ _ => None) 8.

(** On the default branch [main], which the CI reports; the flag for the
    current branch is not given, the base branch is [main]. *)
Definition defaultByCI : Env := envWithCI "" "main" "main".

(** On a hotfix branch, which the CI reports; neither flag is given. *)
Definition hotfixByCI : Env := envWithCI "" "" "pkgA-branch-v1.0".


Definition unclosed : Env :=
  Sample.env (Sample.configMatching "(") sampleClient.

Definition blank : Env :=
  Sample.env (Sample.configMatching (Strings.EncodeRune 160 ++ " ")) sampleClient.

(** Package [app1] on its hotfix branch of line 1.2. *)
Definition digitConfig : Config :=
  mkConfig "token" "acme/widgets" "" false true false false ""
           "" false false (mkBetaRelease "") ""
           false "" "" "app1-branch-v1.2" "main" "app1" "".

Definition digit : Env := Sample.env digitConfig sampleClient.

(** The run of [Sample.quiet] at the provider whose pages never end. *)
Definition endless : Env :=
  Sample.env (Sample.config "" "" "main" "main" "") endlessClient.

End Cases.

(** * Properties *)

(** ** Checks of the embedding on the scenarios of the specification *)

Example Trim_branch : Strings.Trim "pkgA-branch-v1.2" "pkgA-branch-v" = "1.2".
Proof. reflexivity. Qed.

Example TrimSpace_pattern : Strings.TrimSpace "  v1 " = "v1".
Proof. reflexivity. Qed.

Example TrimSpace_no_break_space :
  Strings.TrimSpace (Strings.EncodeRune 160 ++ " v1 " ++ Strings.EncodeRune 12288)
  = "v1".
Proof. reflexivity. Qed.

(** A cutset that is not ASCII is a set of code points, not of bytes: the
    second byte of the cutset, alone, is kept. *)
Example Trim_code_points :
  Strings.Trim (Strings.EncodeRune 233 ++ "1.2" ++ String (ascii_of_N 169) "")
               (Strings.EncodeRune 233)
  = "1.2" ++ String (ascii_of_N 169) "".
Proof. reflexivity. Qed.

Example Split_message :
  Strings.Split ("feat(pkgA): x" ++ String Strings.LF "body") Strings.LF
  = ("feat(pkgA): x", ["body"]).
Proof. reflexivity. Qed.

Example Contains_dash : Strings.Contains "1.0.x-beta" "-" = true.
Proof. reflexivity. Qed.

Example String_prerelease :
  Semver.String_ (Semver.mkVersion 1 2 3 "beta.1" "") = "1.2.3-beta.1".
Proof. reflexivity. Qed.

Example IncMinor_overflow :
  Semver.minor (Semver.IncMinor (Semver.mkVersion 1 (2 ^ 63 - 1) 0 "" ""))
  = (- 2 ^ 63)%Z.
Proof. reflexivity. Qed.

(** Section 8: the tags of [pkgA] and [pkgB], scope [pkgA]. *)
Example selector_scoping :
  GitHub.GetLatestRelease Sample.released
    (Sample.github (Sample.client "main" Sample.refs Sample.history None))
    "" None "pkgA" ""
  = Return (Ok (mkRelease "sha-101" (Sample.v 1 0 1))).
Proof. reflexivity. Qed.

(** Section 8: no tag at all, then a [feat] commit: 0.1.0. *)
Example first_release_version :
  SemrelSpec.GetNewVersion (Sample.config "" "" "main" "main" "")
    [GitHub.parseGithubCommit Sample.firstRelease
       (mkRepositoryCommit "sha-2" "feat(pkgA): add export") "pkgA"]
    (mkRelease "" Semver.zero)
  = Some (Sample.v 0 1 0).
Proof. reflexivity. Qed.

(** ** The monad *)

Section Monad.

Context {A B : Type}.

Lemma silent_ret (a : A) : silent (ret a).
Proof. intros t; reflexivity. Qed.

Lemma silent_lift (o : Outcome A) : silent (lift o).
Proof. intros t; reflexivity. Qed.

Lemma silent_exit (code : Z) (e : error) : silent (@exit A code e).
Proof. intros t; reflexivity. Qed.

Lemma silent_orExit (r : result A) (code : Z) : silent (orExit r code).
Proof. destruct r; [apply silent_ret | apply silent_exit]. Qed.

Lemma silent_bind (m : M A) (k : A -> M B) :
  silent m -> (forall a, silent (k a)) -> silent (bind m k).
Proof.
  intros Hm Hk t. unfold bind.
  specialize (Hm t). destruct (m t) as [[a | c e | msg |] t']; simpl in *; subst;
    try reflexivity.
  apply Hk.
Qed.

Lemma bind_return (m : M A) (k : A -> M B) (t t' : list Event) (a : A) :
  m t = (Return a, t') -> bind m k t = k a t'.
Proof. intros H; unfold bind; rewrite H; reflexivity. Qed.

Lemma bind_failed (m : M A) (k : A -> M B) (t : list Event) :
  failed (fst (m t)) = true ->
  failed (fst (bind m k t)) = true /\ snd (bind m k t) = snd (m t).
Proof.
  unfold bind. destruct (m t) as [[a | c e | msg |] t']; simpl;
    intros H; try discriminate; split; reflexivity.
Qed.

End Monad.

Lemma silent_exitIfError (err : option error) (code : Z) :
  silent (exitIfError err code).
Proof. destruct err; [apply silent_exit | apply silent_ret]. Qed.

Lemma silent_when (b : bool) (m : M unit) : silent m -> silent (if b then m else ret tt).
Proof. destruct b; [trivial | intros _; apply silent_ret]. Qed.

Create HintDb silent.
#[local] Hint Resolve silent_ret silent_lift silent_exit silent_orExit
  silent_exitIfError silent_when : silent.

(** ** Strings *)


Lemma cutPrefix_sound (p : string) :
  forall s rest, Strings.cutPrefix s p = Some rest -> s = p ++ rest.
Proof.
  induction p as [| a p IH]; intros s rest H.
  - destruct s; simpl in H; inversion H; reflexivity.
  - destruct s as [| b s]; simpl in H; [discriminate |].
    destruct (Ascii.eqb a b) eqn:E; [| discriminate].
    apply Ascii.eqb_eq in E; subst b. simpl. f_equal. apply IH; exact H.
Qed.





Lemma lowerAscii_not_upper (c : ascii) : isUpper (Strings.lowerAscii c) = false.
Proof. destruct c as [[] [] [] [] [] [] [] []]; reflexivity. Qed.

Lemma ToLower_not_upper (s : string) :
  Forall (fun c => isUpper c = false) (list_ascii_of_string (Strings.ToLower s)).
Proof.
  induction s as [| c s IH]; simpl; constructor;
    [apply lowerAscii_not_upper | exact IH].
Qed.

Lemma neqb_false (a b : string) : Strings.neqb a b = false <-> a = b.
Proof.
  unfold Strings.neqb. rewrite negb_false_iff. apply String.eqb_eq.
Qed.

Lemma neqb_true (a b : string) : Strings.neqb a b = true <-> a <> b.
Proof.
  unfold Strings.neqb. rewrite negb_true_iff. apply String.eqb_neq.
Qed.

(** ** Trimming *)

Lemma inCutset_self (cutset : string) :
  Forall (fun c => Strings.inCutset c cutset = true) (list_ascii_of_string cutset).
Proof.
  induction cutset as [| d r IH]; simpl; constructor.
  - rewrite Ascii.eqb_refl. reflexivity.
  - eapply Forall_impl; [| exact IH]. simpl. intros c H. rewrite H.
    apply orb_true_r.
Qed.

Lemma inCutset_app (c : ascii) (a b : string) :
  Strings.inCutset c (a ++ b) = Strings.inCutset c a || Strings.inCutset c b.
Proof.
  induction a as [| d a IH]; simpl; [reflexivity |].
  rewrite IH. apply orb_assoc.
Qed.

Lemma trimLeftASCII_app (cutset p rest : string) :
  Forall (fun c => Strings.inCutset c cutset = true) (list_ascii_of_string p) ->
  Strings.trimLeftASCII (p ++ rest) cutset = Strings.trimLeftASCII rest cutset.
Proof.
  induction p as [| c p IH]; simpl; intros H; [reflexivity |].
  inversion H as [| ? ? Hc Hp]. subst. rewrite Hc. apply IH. exact Hp.
Qed.

Lemma trimLeftASCII_first (cutset s : string) (a : ascii) :
  firstByte s = Some a -> Strings.inCutset a cutset = false ->
  Strings.trimLeftASCII s cutset = s.
Proof.
  destruct s as [| c r]; simpl; intros H F; [reflexivity |].
  inversion H. subst. rewrite F. reflexivity.
Qed.

Lemma trimLeftASCII_starts (cutset s : string) (b : ascii) :
  firstByte (Strings.trimLeftASCII s cutset) = Some b ->
  Strings.inCutset b cutset = false.
Proof.
  induction s as [| c r IH]; simpl; [discriminate |].
  destruct (Strings.inCutset c cutset) eqn:E; [exact IH |].
  simpl. intros H. inversion H. subst. exact E.
Qed.

Lemma trimRightASCII_last (cutset s : string) (z : ascii) :
  lastByte s = Some z -> Strings.inCutset z cutset = false ->
  Strings.trimRightASCII s cutset = s.
Proof.
  induction s as [| c r IH]; intros H F; [reflexivity |].
  destruct r as [| d r'].
  - simpl in *. inversion H. subst. rewrite F. reflexivity.
  - change (lastByte (String c (String d r'))) with (lastByte (String d r')) in H.
    specialize (IH H F).
    change (Strings.trimRightASCII (String c (String d r')) cutset)
      with (match Strings.trimRightASCII (String d r') cutset with
            | EmptyString =>
                if Strings.inCutset c cutset then EmptyString
                else String c EmptyString
            | r'' => String c r''
            end).
    rewrite IH. reflexivity.
Qed.

Lemma trimLeftASCII_empty (s : string) : Strings.trimLeftASCII s "" = s.
Proof. destruct s; reflexivity. Qed.

Lemma trimRightASCII_empty (s : string) : Strings.trimRightASCII s "" = s.
Proof.
  induction s as [| c r IH]; [reflexivity |].
  simpl. rewrite IH. destruct r; reflexivity.
Qed.

Lemma lastByte_app (p s : string) :
  s <> "" -> lastByte (p ++ s) = lastByte s.
Proof.
  intros N. induction p as [| c p IH]; [reflexivity |].
  simpl. rewrite IH. destruct (p ++ s) eqn:E; [| reflexivity].
  destruct p; simpl in E; [contradiction | discriminate].
Qed.

Lemma isASCII_app (a b : string) :
  Strings.isASCII (a ++ b) = Strings.isASCII a && Strings.isASCII b.
Proof.
  unfold Strings.isASCII. induction a as [| c a IH]; simpl; [reflexivity |].
  rewrite IH. apply andb_assoc.
Qed.

(** With a cutset of ASCII, [strings.Trim] works on bytes. *)
Lemma Trim_ASCII (s cutset : string) :
  Strings.isASCII cutset = true ->
  Strings.Trim s cutset
  = Strings.trimLeftASCII (Strings.trimRightASCII s cutset) cutset.
Proof.
  intros H. unfold Strings.Trim.
  destruct (String.eqb s "") eqn:E.
  - apply String.eqb_eq in E. subst. reflexivity.
  - destruct (String.eqb cutset "") eqn:C; simpl.
    + apply String.eqb_eq in C. subst.
      rewrite trimRightASCII_empty, trimLeftASCII_empty. reflexivity.
    + rewrite H. reflexivity.
Qed.

(** ** White space *)

Lemma decode_whiteSpace (w rest : string) :
  In w whiteSpace ->
  exists r c w',
    w = String c w'
    /\ Strings.DecodeRuneInString (String c (w' ++ rest)) = (r, String.length w)
    /\ Strings.IsSpace r = true
    /\ Strings.drop (String.length w) (String c (w' ++ rest)) = rest.
Proof.
  intros H. vm_compute in H.
  repeat (destruct H as [<- | H];
          [do 3 eexists; split; [reflexivity |];
           split; [reflexivity |]; split; reflexivity |]).
  contradiction.
Qed.

Lemma length_append (a b : string) :
  String.length (a ++ b) = (String.length a + String.length b)%nat.
Proof. induction a as [| c a IH]; simpl; [reflexivity | rewrite IH; reflexivity]. Qed.

Lemma trimLeftRunes_whiteSpace (ws : list string) :
  Forall (fun w => In w whiteSpace) ws ->
  forall n,
    (String.length (fold_right String.append "" ws) <= n)%nat ->
    Strings.trimLeftRunes n Strings.IsSpace (fold_right String.append "" ws) = "".
Proof.
  induction 1 as [| w ws Hw Hws IH]; intros n L; simpl.
  - destruct n; reflexivity.
  - destruct (decode_whiteSpace w (fold_right String.append "" ws) Hw)
      as (r & c & w' & -> & D & Sp & Dr).
    simpl in L. destruct n as [| n]; [lia |].
    change (String c w' ++ fold_right String.append "" ws)
      with (String c (w' ++ fold_right String.append "" ws)).
    cbn [Strings.trimLeftRunes]. rewrite D, Sp, Dr.
    apply IH. rewrite length_append in L. lia.
Qed.

(** Text that is made of white space only is trimmed to nothing. *)
Lemma TrimSpace_whiteSpace (ws : list string) :
  Forall (fun w => In w whiteSpace) ws ->
  Strings.TrimSpace (fold_right String.append "" ws) = "".
Proof.
  intros H. unfold Strings.TrimSpace, Strings.TrimFunc, Strings.TrimLeftFunc.
  rewrite (trimLeftRunes_whiteSpace ws H); [reflexivity | lia].
Qed.

Lemma asciiSpace_spec (c : ascii) :
  asciiSpace c = true ->
  (Strings.byte c <? Strings.RuneSelf)%N = true
  /\ Strings.IsSpace (Strings.byte c) = true.
Proof. unfold asciiSpace. intros H. apply andb_true_iff in H. exact H. Qed.

Lemma asciiGraphic_spec (c : ascii) :
  asciiGraphic c = true ->
  (Strings.byte c <? Strings.RuneSelf)%N = true
  /\ Strings.IsSpace (Strings.byte c) = false.
Proof.
  unfold asciiGraphic. intros H. apply andb_true_iff in H.
  destruct H as [H1 H2]. apply negb_true_iff in H2. auto.
Qed.

Lemma DecodeRuneInString_ascii (c : ascii) (r : string) :
  (Strings.byte c <? Strings.RuneSelf)%N = true ->
  Strings.DecodeRuneInString (String c r) = (Strings.byte c, 1%nat).
Proof. intros H. unfold Strings.DecodeRuneInString. rewrite H. reflexivity. Qed.

Lemma trimLeftRunes_asciiSpace (lead s : string) (n : nat) :
  Forall (fun c => asciiSpace c = true) (list_ascii_of_string lead) ->
  Strings.trimLeftRunes (String.length lead + n) Strings.IsSpace (lead ++ s)
  = Strings.trimLeftRunes n Strings.IsSpace s.
Proof.
  induction lead as [| c lead IH]; intros H; [reflexivity |].
  simpl in H. inversion H as [| ? ? Hc Hl]. subst.
  apply asciiSpace_spec in Hc. destruct Hc as [A Sp].
  change (String c lead ++ s) with (String c (lead ++ s)).
  change (String.length (String c lead) + n)%nat
    with (S (String.length lead + n)).
  cbn [Strings.trimLeftRunes].
  rewrite (DecodeRuneInString_ascii c (lead ++ s) A), Sp. simpl.
  apply IH. exact Hl.
Qed.

Lemma trimLeftRunes_graphic (a : ascii) (s : string) (n : nat) :
  firstByte s = Some a -> asciiGraphic a = true ->
  Strings.trimLeftRunes (S n) Strings.IsSpace s = s.
Proof.
  destruct s as [| c r]; [discriminate |]. simpl firstByte. intros H G.
  inversion H. subst. apply asciiGraphic_spec in G. destruct G as [A Sp].
  cbn [Strings.trimLeftRunes].
  rewrite (DecodeRuneInString_ascii a r A), Sp. reflexivity.
Qed.

Lemma DecodeLastRuneInString_ascii (p : list ascii) (x : ascii) :
  (Strings.byte x <? Strings.RuneSelf)%N = true ->
  Strings.DecodeLastRuneInString (string_of_list_ascii (p ++ [x]))
  = (Strings.byte x, 1%nat).
Proof.
  intros H. unfold Strings.DecodeLastRuneInString.
  rewrite list_ascii_of_string_of_list_ascii.
  rewrite length_app. simpl length.
  replace (Z.of_nat (length p + 1) =? 0)%Z with false
    by (symmetry; apply Z.eqb_neq; lia).
  unfold Strings.byteAt.
  replace (Z.to_nat (Z.of_nat (length p + 1) - 1)) with (length p) by lia.
  rewrite nth_middle. rewrite H. reflexivity.
Qed.

Lemma lastIndexFunc_asciiSpace (q : list ascii) (z : ascii) (trail : list ascii) :
  asciiGraphic z = true ->
  Forall (fun c => asciiSpace c = true) trail ->
  forall n,
    (length trail < n)%nat ->
    Strings.lastIndexFunc n Strings.IsSpace (q ++ z :: trail) = Some (length q).
Proof.
  intros G. apply asciiGraphic_spec in G. destruct G as [A Sp].
  induction trail as [| x trail IH] using rev_ind; intros H n L.
  - destruct n as [| n]; [simpl in L; lia |].
    cbn [Strings.lastIndexFunc].
    destruct (q ++ [z])%list eqn:E; [destruct q; discriminate E |].
    rewrite <- E. rewrite (DecodeLastRuneInString_ascii q z A), Sp.
    rewrite length_app. simpl length.
    replace (length q + 1 - 1)%nat with (length q) by lia.
    rewrite firstn_app, firstn_all, Nat.sub_diag. simpl.
    rewrite app_nil_r. reflexivity.
  - apply Forall_app in H. destruct H as [Ht Hx].
    inversion Hx as [| ? ? Hx' _]. subst.
    apply asciiSpace_spec in Hx'. destruct Hx' as [Ax Spx].
    rewrite length_app in L. simpl in L.
    destruct n as [| n]; [lia |].
    replace (q ++ z :: trail ++ [x])%list with ((q ++ z :: trail) ++ [x])%list
      by (rewrite <- app_assoc; reflexivity).
    cbn [Strings.lastIndexFunc].
    destruct ((q ++ z :: trail) ++ [x])%list eqn:E;
      [destruct (q ++ z :: trail)%list; discriminate E |].
    rewrite <- E.
    rewrite (DecodeLastRuneInString_ascii (q ++ z :: trail) x Ax), Spx.
    rewrite length_app. simpl length.
    replace (length (q ++ z :: trail) + 1 - 1)%nat
      with (length (q ++ z :: trail)) by lia.
    rewrite firstn_app, firstn_all, Nat.sub_diag. simpl.
    rewrite app_nil_r. apply IH; [exact Ht | lia].
Qed.

Lemma lastByte_list (s : string) (z : ascii) :
  lastByte s = Some z ->
  exists q, list_ascii_of_string s = (q ++ [z])%list.
Proof.
  induction s as [| c r IH]; [discriminate |].
  destruct r as [| d r'].
  - simpl. intros H. inversion H. exists []. reflexivity.
  - change (lastByte (String c (String d r'))) with (lastByte (String d r')).
    intros H. destruct (IH H) as [q E]. exists (c :: q).
    change (list_ascii_of_string (String c (String d r')))
      with (c :: list_ascii_of_string (String d r')).
    rewrite E. reflexivity.
Qed.

Lemma list_ascii_of_string_app (a b : string) :
  list_ascii_of_string (a ++ b)
  = (list_ascii_of_string a ++ list_ascii_of_string b)%list.
Proof. induction a as [| c a IH]; simpl; [reflexivity | rewrite IH; reflexivity]. Qed.

Lemma TrimRightFunc_asciiSpace (core trail : string) (z : ascii) :
  lastByte core = Some z -> asciiGraphic z = true ->
  Forall (fun c => asciiSpace c = true) (list_ascii_of_string trail) ->
  Strings.TrimRightFunc Strings.IsSpace (core ++ trail) = core.
Proof.
  intros Hz G Ht. destruct (lastByte_list core z Hz) as [q E].
  unfold Strings.TrimRightFunc.
  rewrite list_ascii_of_string_app, E, <- app_assoc. simpl app.
  rewrite (lastIndexFunc_asciiSpace q z (list_ascii_of_string trail) G Ht);
    [| rewrite length_app; simpl; lia].
  rewrite nth_middle.
  apply asciiGraphic_spec in G. destruct G as [A _].
  apply N.ltb_lt in A.
  replace (Strings.RuneSelf <=? Strings.byte z)%N with false
    by (symmetry; apply N.leb_gt; exact A).
  replace (q ++ z :: list_ascii_of_string trail)%list
    with ((q ++ [z]) ++ list_ascii_of_string trail)%list
    by (rewrite <- app_assoc; reflexivity).
  replace (S (length q)) with (length (q ++ [z])%list)
    by (rewrite length_app; simpl; lia).
  rewrite firstn_app, firstn_all, Nat.sub_diag. simpl. rewrite app_nil_r.
  rewrite <- E. apply string_of_list_ascii_of_string.
Qed.

(** White space of ASCII around text that starts and ends with other
    bytes of ASCII is what [strings.TrimSpace] removes. *)
Lemma TrimSpace_padding (lead core trail : string) (a z : ascii) :
  Forall (fun c => asciiSpace c = true) (list_ascii_of_string lead) ->
  Forall (fun c => asciiSpace c = true) (list_ascii_of_string trail) ->
  firstByte core = Some a -> asciiGraphic a = true ->
  lastByte core = Some z -> asciiGraphic z = true ->
  Strings.TrimSpace (lead ++ core ++ trail) = core.
Proof.
  intros Hl Ht Ha Ga Hz Gz.
  unfold Strings.TrimSpace, Strings.TrimFunc, Strings.TrimLeftFunc.
  rewrite length_append.
  rewrite (trimLeftRunes_asciiSpace lead (core ++ trail) _ Hl).
  assert (F : firstByte (core ++ trail) = Some a).
  { destruct core; [discriminate Ha | exact Ha]. }
  destruct (String.length (core ++ trail)) as [| n] eqn:L.
  { destruct core; [discriminate Ha | discriminate L]. }
  rewrite (trimLeftRunes_graphic a (core ++ trail) n F Ga).
  apply (TrimRightFunc_asciiSpace core trail z Hz Gz Ht).
Qed.

(** ** The commit classifier *)

(** C2. When the first line of the message matches [commitPattern] with a
    scope equal to the package scope (a configured scope: not the empty
    one), the commit gets the matched type in lower case, the scope and the
    subject; [Minor] is true exactly for type ["feat"], [Patch] exactly for
    type ["fix"], and [Major] exactly when [breakingPattern] matches the
    whole message, whatever the type.  In particular a ["feat"] commit
    without breaking marker has [Minor] true and [Major] false. *)
Theorem parseGithubCommit_in_scope
        (env : Env) (commit : RepositoryCommit) (pkg type scope subject : string)
        (others : list (string * string * string)) :
  commitPattern env (fst (Strings.Split (rcMessage commit) Strings.LF))
  = (type, scope, subject) :: others ->
  pkg <> "" ->
  scope = pkg ->
  let c := GitHub.parseGithubCommit env commit pkg in
  Type_ c = Strings.ToLower type
  /\ Forall (fun ch => isUpper ch = false) (list_ascii_of_string (Type_ c))
  /\ Scope c = pkg
  /\ Message c = subject
  /\ Minor (CommitChange c) = String.eqb (Strings.ToLower type) "feat"
  /\ Patch (CommitChange c) = String.eqb (Strings.ToLower type) "fix"
  /\ Major (CommitChange c) = breakingPattern env (rcMessage commit)
  /\ (Strings.ToLower type = "feat" ->
      breakingPattern env (rcMessage commit) = false ->
      Type_ c = "feat" /\ Minor (CommitChange c) = true
      /\ Major (CommitChange c) = false).
Proof.
  intros Hpat Hpkg Hscope c. subst c scope.
  unfold GitHub.parseGithubCommit.
  destruct (Strings.Split (rcMessage commit) Strings.LF) as [raw0 rawRest].
  simpl in Hpat. rewrite Hpat.
  apply neqb_true in Hpkg. rewrite Hpkg, String.eqb_refl. simpl.
  split; [reflexivity |].
  split; [apply ToLower_not_upper |].
  do 5 (split; [reflexivity |]).
  intros Hfeat Hbreak. rewrite Hfeat, Hbreak. repeat split.
Qed.

(** C9. With the empty package scope every commit stays unclassified: SHA
    and raw lines are kept, type, scope and subject are empty and no flag
    is set, whatever [commitPattern] finds; so no commit that [GetCommits]
    returns for the empty scope carries a flag, and their fold has none. *)
Theorem parseGithubCommit_no_scope (env : Env) (commit : RepositoryCommit) :
  GitHub.parseGithubCommit env commit ""
  = mkCommit (rcSHA commit)
             (fst (Strings.Split (rcMessage commit) Strings.LF)
              :: snd (Strings.Split (rcMessage commit) Strings.LF))
             "" "" "" (mkChange false false false)
  /\ unclassified (GitHub.parseGithubCommit env commit "")
  /\ (forall (r : GitHub.GitHubRepository) (sha : string) (cs : list Commit),
        GitHub.GetCommits env r sha "" = Ok cs ->
        Forall unclassified cs
        /\ SemrelSpec.CalculateChange cs = mkChange false false false).
Proof.
  assert (E : forall rc, GitHub.parseGithubCommit env rc ""
            = mkCommit (rcSHA rc)
                (fst (Strings.Split (rcMessage rc) Strings.LF)
                 :: snd (Strings.Split (rcMessage rc) Strings.LF))
                "" "" "" (mkChange false false false)).
  { intros rc. unfold GitHub.parseGithubCommit.
    destruct (Strings.Split (rcMessage rc) Strings.LF) as [raw0 rawRest]. simpl.
    destruct (commitPattern env raw0) as [| [[f1 f2] f3] l]; reflexivity. }
  split; [apply E |]. split.
  - rewrite E. repeat split.
  - intros r sha cs H. unfold GitHub.GetCommits in H.
    destruct (Repositories_ListCommits _ _ _ _) as [l | e]; [| discriminate].
    inversion H; subst cs; clear H.
    split.
    + apply Forall_forall. intros c Hc. apply in_map_iff in Hc.
      destruct Hc as [rc [<- _]]. rewrite E. repeat split.
    + unfold SemrelSpec.CalculateChange.
      induction l as [| rc l IH]; [reflexivity |].
      simpl. rewrite E. simpl. exact IH.
Qed.

(** ** The release selector of the GitHub provider *)

Lemma collect_app (env : Env) (re : option Regexp) (pkg_name : string)
      (before after : list Reference) :
  forall all,
    GitHub.collect env re pkg_name (before ++ after) all
    = GitHub.collect env re pkg_name after
        (GitHub.collect env re pkg_name before all).
Proof.
  induction before as [| r before IH]; intros all; simpl; [reflexivity |].
  apply IH.
Qed.




Lemma pages_not_found (env : Env) (r : GitHub.GitHubRepository)
      (vrange : string) (re : option Regexp) (pkg_name hotfix : string)
      (n : nat) (page : Z) (all : Releases)
      (refs : list Reference) (rs : Response) (err : option error) :
  Git_ListRefs (GitHub.client r) (GitHub.owner r) (GitHub.repo r) page
  = (refs, Some rs, err) ->
  StatusCode rs = 404%Z ->
  GitHub.pages env r vrange re pkg_name hotfix (S n) page all
  = Return (Ok (mkRelease "" Semver.zero)).
Proof.
  intros H S404. simpl. rewrite H, S404. reflexivity.
Qed.

(** C5. When the listing of the tags is answered with status 404, the
    selector returns the zero release, SHA [""] and version 0.0.0, and no
    error. *)
Theorem GetLatestRelease_no_tags
        (env : Env) (r : GitHub.GitHubRepository) (vrange : string)
        (re : option Regexp) (pkg_name hotfix : string)
        (refs : list Reference) (rs : Response) (err : option error) :
  fuel env <> O ->
  Git_ListRefs (GitHub.client r) (GitHub.owner r) (GitHub.repo r) 0
  = (refs, Some rs, err) ->
  StatusCode rs = 404%Z ->
  GitHub.GetLatestRelease env r vrange re pkg_name hotfix
  = Return (Ok (mkRelease "" Semver.zero))
  /\ ReleaseSHA (mkRelease "" Semver.zero) = ""
  /\ Semver.String_ (Version (mkRelease "" Semver.zero)) = "0.0.0".
Proof.
  intros Hfuel H S404. split; [| split; reflexivity].
  unfold GitHub.GetLatestRelease.
  destruct (fuel env) as [| n]; [contradiction |].
  eapply pages_not_found; eassumption.
Qed.

(** ** Release creation at GitHub *)

(** The trace of a release creation that succeeds. *)
Lemma CreateRelease_trace
      (r : GitHub.GitHubRepository) (changelog : string)
      (newVersion : Semver.Version) (prerelease : bool)
      (branch sha currentSHA pkgName : string) (t t' : list Event) :
  GitHub.CreateRelease r changelog newVersion prerelease branch sha
                       currentSHA pkgName t = (Return None, t') ->
  t' = (t ++ [CreateRef ("refs/tags/" ++ pkgName ++ "-release-v"
                         ++ Semver.String_ newVersion) currentSHA;
              CreateReleaseObject
                (pkgName ++ "-release-v" ++ Semver.String_ newVersion)
                (pkgName ++ "-release-v" ++ Semver.String_ newVersion)
                currentSHA changelog
                (prerelease || Strings.neqb (Semver.Prerelease newVersion) "")]
          ++ (if String.eqb branch "master"
              then [CreateRef ("refs/heads/" ++ pkgName ++ "-branch-v"
                               ++ Semver.String_ newVersion) currentSHA]
              else []))%list.
Proof.
  unfold GitHub.CreateRelease, GitHub.createRef, GitHub.createRelease,
    bind, emit, ret.
  destruct (Git_CreateRef (GitHub.client r) (GitHub.owner r) (GitHub.repo r)
              ("refs/tags/" ++ pkgName ++ "-release-v" ++ Semver.String_ newVersion)
              currentSHA); [discriminate |].
  destruct (Repositories_CreateRelease _ _ _ _); [discriminate |]. simpl.
  destruct (String.eqb branch "master").
  - destruct (Git_CreateRef _ _ _ _ _); [discriminate |].
    intros H. inversion H. rewrite <- !app_assoc. reflexivity.
  - intros H. inversion H. rewrite <- ?app_assoc. reflexivity.
Qed.

(** C8 (amended). A release creation that succeeds has created the tag
    [<pkgName>-release-v<version>] at the given commit, then the release
    object of that tag, and then the branch [<pkgName>-branch-v<version>]
    exactly when the branch passed in is named ["master"]; nothing else. *)
Theorem CreateRelease_success
        (r : GitHub.GitHubRepository) (changelog : string)
        (newVersion : Semver.Version) (prerelease : bool)
        (branch sha currentSHA pkgName : string) (t t' : list Event) :
  GitHub.CreateRelease r changelog newVersion prerelease branch sha
                       currentSHA pkgName t = (Return None, t') ->
  let tag := pkgName ++ "-release-v" ++ Semver.String_ newVersion in
  let branchRef := "refs/heads/" ++ pkgName ++ "-branch-v"
                   ++ Semver.String_ newVersion in
  t' = (t ++ [CreateRef ("refs/tags/" ++ tag) currentSHA;
              CreateReleaseObject tag tag currentSHA changelog
                (prerelease || Strings.neqb (Semver.Prerelease newVersion) "")]
          ++ (if String.eqb branch "master"
              then [CreateRef branchRef currentSHA] else []))%list
  /\ (branch = "master" -> In (CreateRef branchRef currentSHA) t')
  /\ (branch <> "master" ->
      Forall (fun ev => ev <> CreateRef branchRef currentSHA) t ->
      ~ In (CreateRef branchRef currentSHA) t').
Proof.
  intros H tag branchRef. apply CreateRelease_trace in H.
  split; [exact H |]. split.
  - intros ->. rewrite H. simpl.
    apply in_or_app. right. simpl. auto.
  - intros HB HT. apply String.eqb_neq in HB. rewrite H, HB.
    rewrite app_nil_r. intros HI. apply in_app_or in HI.
    destruct HI as [HI | [HI | [HI | []]]].
    + rewrite Forall_forall in HT. apply (HT _ HI). reflexivity.
    + injection HI as E. simpl in E. discriminate E.
    + discriminate HI.
Qed.

(** Whatever release creation does, everything it creates points at the
    commit it was given. *)
Lemma CreateRelease_pointsAt
      (r : GitHub.GitHubRepository) (changelog : string)
      (newVersion : Semver.Version) (prerelease : bool)
      (branch sha currentSHA pkgName : string) (t : list Event) :
  exists created,
    snd (GitHub.CreateRelease r changelog newVersion prerelease branch sha
                              currentSHA pkgName t) = (t ++ created)%list
    /\ Forall (pointsAt currentSHA) created.
Proof.
  unfold GitHub.CreateRelease, GitHub.createRef, GitHub.createRelease,
    bind, emit, ret.
  destruct (Git_CreateRef (GitHub.client r) (GitHub.owner r) (GitHub.repo r)
              ("refs/tags/" ++ pkgName ++ "-release-v" ++ Semver.String_ newVersion)
              currentSHA).
  { exists []. simpl. rewrite app_nil_r. auto. }
  destruct (Repositories_CreateRelease _ _ _ _).
  { eexists. simpl. split; [reflexivity |]. repeat constructor. }
  simpl. destruct (String.eqb branch "master").
  - destruct (Git_CreateRef _ _ _ _ _); simpl;
      rewrite <- ?app_assoc; eexists; (split; [reflexivity |]);
      repeat constructor.
  - simpl. rewrite <- app_assoc. eexists. split; [reflexivity |].
    repeat constructor.
Qed.

(** ** The command: the silent part *)

Ltac silence :=
  repeat first
    [ apply silent_ret | apply silent_exit | apply silent_lift
    | apply silent_orExit | apply silent_exitIfError
    | apply silent_bind; [| intros ?]
    | match goal with
      | |- silent (match ?x with _ => _ end) => destruct x
      | |- silent (if ?b then _ else _) => destruct b
      end ].

Lemma silent_matchRegex (env : Env) (conf : Config) :
  silent (matchRegex env conf).
Proof. unfold matchRegex. silence. Qed.

Lemma silent_setup (env : Env) : silent (setup env).
Proof.
  unfold setup. silence.
  apply silent_matchRegex.
Qed.

Lemma silent_resolve (env : Env) (ctx : Context) : silent (resolve env ctx).
Proof. unfold resolve. silence. Qed.

Lemma setup_trace (env : Env) (t t' : list Event) (o : Outcome Context) :
  setup env t = (o, t') -> t' = t.
Proof. intros H. pose proof (silent_setup env t) as S. rewrite H in S. exact S. Qed.

Lemma resolve_trace (env : Env) (ctx : Context) (t t' : list Event)
      (o : Outcome Plan) :
  resolve env ctx t = (o, t') -> t' = t.
Proof.
  intros H. pose proof (silent_resolve env ctx t) as S. rewrite H in S. exact S.
Qed.

(** A run that does not get to the changelog fails and leaves nothing. *)
Lemma run_without_plan (env : Env) :
  planOf env = None -> failed (fst (run env)) = true /\ snd (run env) = [].
Proof.
  unfold planOf, run, cliHandler, bind.
  destruct (setup env []) as [o t] eqn:S.
  apply setup_trace in S as ->.
  destruct o as [ctx | c e | msg |]; try (intros _; split; reflexivity).
  destruct (resolve env ctx []) as [o t] eqn:R.
  apply resolve_trace in R as ->.
  destruct o as [p | c e | msg |]; try (intros _; split; reflexivity).
  discriminate.
Qed.

(** A run that gets to the changelog goes on with the plan. *)
Lemma run_with_plan (env : Env) (p : Plan) :
  planOf env = Some p ->
  run env = bind (prepare env p)
                 (fun x => match x with (changelog, SHA) =>
                                      deliver env p changelog SHA end) [].
Proof.
  unfold planOf, run, cliHandler.
  destruct (setup env []) as [o t] eqn:S.
  pose proof (setup_trace _ _ _ _ S) as ->.
  destruct o as [ctx | c e | msg |]; try discriminate.
  destruct (resolve env ctx []) as [o t] eqn:R.
  pose proof (resolve_trace _ _ _ _ _ R) as ->.
  destruct o as [q | c e | msg |]; try discriminate.
  intros H; inversion H; subst q.
  unfold bind. rewrite S, R. reflexivity.
Qed.

(** ** The anchor commit *)

Lemma anchor_fold (hash : string) (cs : list Commit) :
  forall st,
    fold_left
      (fun (st : string * bool) (j : Commit) =>
         if String.eqb (SHA j) hash then (SHA j, true) else st) cs st
    = if existsb (fun c => String.eqb (SHA c) hash) cs then (hash, true) else st.
Proof.
  induction cs as [| c cs IH]; intros st; simpl; [reflexivity |].
  rewrite IH. destruct (String.eqb (SHA c) hash) eqn:E; simpl.
  - apply String.eqb_eq in E. rewrite E.
    destruct (existsb _ cs); reflexivity.
  - reflexivity.
Qed.

Lemma anchor_spec (cs : list Commit) (hash : string) :
  anchor cs hash
  = if existsb (fun c => String.eqb (SHA c) hash) cs then (hash, true)
    else (match cs with [] => "" | c0 :: _ => SHA c0 end, false).
Proof.
  unfold anchor. destruct cs as [| c0 cs]; [reflexivity |].
  apply anchor_fold.
Qed.

Lemma existsb_SHA (cs : list Commit) (hash : string) :
  existsb (fun c => String.eqb (SHA c) hash) cs = true <-> In hash (map SHA cs).
Proof.
  rewrite existsb_exists, in_map_iff.
  split; intros [c [H1 H2]]; exists c.
  - apply String.eqb_eq in H2. auto.
  - split; [exact H2 | apply String.eqb_eq; exact H1].
Qed.

Lemma anchor_found (cs : list Commit) (hash : string) :
  In hash (map SHA cs) -> anchor cs hash = (hash, true).
Proof.
  intros H. apply existsb_SHA in H. rewrite anchor_spec, H. reflexivity.
Qed.

Lemma anchor_not_found (cs : list Commit) (hash : string) :
  ~ In hash (map SHA cs) -> snd (anchor cs hash) = false.
Proof.
  intros H. rewrite anchor_spec.
  destruct (existsb _ cs) eqn:E; [| reflexivity].
  apply existsb_SHA in E. contradiction.
Qed.

(** ** The changelog step and the check of the anchor *)

Lemma prepare_passes (env : Env) (p : Plan) (t : list Event) :
  changelogPasses env p ->
  prepare env p t
  = (if snd (anchor (commits p) (CommitHash (conf (context p))))
     then Return (GetChangelog env (commits p) (release (context p)) (newVer p),
                  fst (anchor (commits p) (CommitHash (conf (context p)))))
     else Exit 65 "Commit not found",
     (t ++ changelogWritten env p)%list).
Proof.
  unfold changelogPasses, changelogWritten, prepare, writeFile, bind, emit,
    exit, lift, ret.
  intros H.
  destruct (anchor (commits p) (CommitHash (conf (context p)))) as [sha found].
  destruct (Strings.neqb (Changelog (conf (context p))) "") eqn:N.
  - destruct H as [H | H]; [apply neqb_true in N; contradiction |].
    rewrite H. destruct found; reflexivity.
  - rewrite app_nil_r. destruct found; reflexivity.
Qed.

Lemma prepare_blocked (env : Env) (p : Plan) (t : list Event) :
  ~ changelogPasses env p ->
  exists e, prepare env p t = (Exit 1 e, t).
Proof.
  unfold changelogPasses, prepare, writeFile, bind, exit, lift.
  intros H.
  destruct (Strings.neqb (Changelog (conf (context p))) "") eqn:N.
  - destruct (ioutilWriteFile env _ _) as [e |] eqn:W.
    + exists e. reflexivity.
    + exfalso. apply H. right. reflexivity.
  - exfalso. apply H. left. apply neqb_false. exact N.
Qed.

Lemma changelogPasses_dec (env : Env) (p : Plan) :
  changelogPasses env p \/ ~ changelogPasses env p.
Proof.
  unfold changelogPasses.
  destruct (String.eqb (Changelog (conf (context p))) "") eqn:E.
  - left. left. apply String.eqb_eq. exact E.
  - apply String.eqb_neq in E.
    destruct (ioutilWriteFile env _ _) eqn:W.
    + right. intros [H | H]; [contradiction | discriminate].
    + left. right. reflexivity.
Qed.

Lemma changelogWritten_no_provider (env : Env) (p : Plan) :
  Forall (fun ev => isProviderEvent ev = false) (changelogWritten env p).
Proof.
  unfold changelogWritten. destruct (Strings.neqb _ _); repeat constructor.
Qed.

(** A run whose anchor is not found, past the changelog step. *)
Lemma run_not_found (env : Env) (p : Plan) :
  planOf env = Some p ->
  changelogPasses env p ->
  snd (anchor (commits p) (CommitHash (conf (context p)))) = false ->
  run env = (Exit 65 "Commit not found", changelogWritten env p).
Proof.
  intros HP HC HA. rewrite (run_with_plan env p HP). unfold bind.
  rewrite (prepare_passes env p [] HC), HA. reflexivity.
Qed.

(** A run whose anchor is not found fails, whatever the changelog step
    does, and has created nothing at the provider. *)
Lemma run_anchor_missing (env : Env) (p : Plan) :
  planOf env = Some p ->
  snd (anchor (commits p) (CommitHash (conf (context p)))) = false ->
  failed (fst (run env)) = true
  /\ Forall (fun ev => isProviderEvent ev = false) (snd (run env))
  /\ (changelogPasses env p ->
      run env = (Exit 65 "Commit not found", changelogWritten env p)).
Proof.
  intros HP HA.
  destruct (changelogPasses_dec env p) as [HC | HC].
  - rewrite (run_not_found env p HP HC HA). simpl.
    split; [reflexivity |]. split; [apply changelogWritten_no_provider |].
    reflexivity.
  - rewrite (run_with_plan env p HP). unfold bind.
    destruct (prepare_blocked env p [] HC) as [e ->]. simpl.
    split; [reflexivity |]. split; [constructor | contradiction].
Qed.

(** ** What the later steps keep *)

Lemma preserves_silent {A} (P : list Event -> Prop) (m : M A) :
  silent m -> preserves P m.
Proof. intros S t H. rewrite S. exact H. Qed.

Lemma preserves_bind {A B} (P : list Event -> Prop) (m : M A) (k : A -> M B) :
  preserves P m -> (forall a, preserves P (k a)) -> preserves P (bind m k).
Proof.
  intros Hm Hk t H. unfold bind. specialize (Hm t H).
  destruct (m t) as [[a | c e | msg |] t']; simpl in *; try exact Hm.
  apply Hk. exact Hm.
Qed.

Lemma preserves_emit (P : list Event -> Prop) (ev : Event) :
  lasting P -> isProviderEvent ev = false -> preserves P (emit ev).
Proof. intros L E t H. apply L; assumption. Qed.

Lemma preserves_writeFile (P : list Event -> Prop) (env : Env)
      (path content : string) :
  lasting P -> preserves P (writeFile env path content).
Proof.
  intros L. unfold writeFile. destruct (ioutilWriteFile env path content).
  - apply preserves_silent, silent_exit.
  - apply preserves_emit; [exact L | reflexivity].
Qed.

Lemma preserves_finish (P : list Event -> Prop) (env : Env) (p : Plan) :
  lasting P -> preserves P (finish env p).
Proof.
  intros L. unfold finish.
  repeat (apply preserves_bind; [| intros _]);
    repeat match goal with
      | |- preserves _ (if ?b then _ else _) => destruct b
      | |- preserves _ (match ?x with _ => _ end) => destruct x
      end;
    first [ apply preserves_writeFile; exact L
          | apply preserves_emit; [exact L | reflexivity]
          | apply preserves_silent; auto with silent ].
Qed.

Lemma lasting_pointsAt (sha : string) : lasting (Forall (pointsAt sha)).
Proof.
  intros t ev E H. apply Forall_app. split; [exact H |].
  constructor; [| constructor]. destruct ev; try discriminate; exact I.
Qed.

Lemma lasting_In (ev : Event) : lasting (In ev).
Proof. intros t x _ H. apply in_or_app. left. exact H. Qed.

Lemma deliver_github (env : Env) (p : Plan) (changelog sha : string)
      (r : GitHub.GitHubRepository) (t : list Event) :
  repository (context p) = GitHub.asRepository env r ->
  deliver env p changelog sha t
  = match GitHub.CreateRelease r changelog (newVer p)
            (Prerelease (conf (context p))) (currentBranch (context p))
            (currentSha (context p)) sha (Pkgname (conf (context p))) t with
    | (Return None, t1) => finish env p t1
    | (Return (Some e), t1) => (Exit 1 e, t1)
    | (Exit c e, t1) => (Exit c e, t1)
    | (Panic msg, t1) => (Panic msg, t1)
    | (OutOfFuel, t1) => (OutOfFuel, t1)
    end.
Proof.
  intros HR. unfold deliver. rewrite HR. simpl. unfold bind at 1.
  destruct (GitHub.CreateRelease _ _ _ _ _ _ _ _ t) as [o t1].
  destruct o as [[e |] | c e | msg |]; reflexivity.
Qed.

Lemma deliver_pointsAt (env : Env) (p : Plan) (changelog sha : string)
      (r : GitHub.GitHubRepository) (t : list Event) :
  repository (context p) = GitHub.asRepository env r ->
  Forall (pointsAt sha) t ->
  Forall (pointsAt sha) (snd (deliver env p changelog sha t)).
Proof.
  intros HR HT. rewrite (deliver_github env p changelog sha r t HR).
  destruct (CreateRelease_pointsAt r changelog (newVer p)
              (Prerelease (conf (context p))) (currentBranch (context p))
              (currentSha (context p)) sha (Pkgname (conf (context p))) t)
    as [created [E F]].
  destruct (GitHub.CreateRelease _ _ _ _ _ _ _ _ t) as [o t1].
  simpl in E. subst t1.
  assert (HT1 : Forall (pointsAt sha) (t ++ created)%list)
    by (apply Forall_app; split; assumption).
  destruct o as [[e |] | c e | msg |]; simpl; try exact HT1.
  apply preserves_finish; [apply lasting_pointsAt | exact HT1].
Qed.

Lemma deliver_success (env : Env) (p : Plan) (changelog sha : string)
      (r : GitHub.GitHubRepository) (t : list Event) :
  repository (context p) = GitHub.asRepository env r ->
  fst (deliver env p changelog sha t) = Return tt ->
  let tag := Pkgname (conf (context p)) ++ "-release-v"
             ++ Semver.String_ (newVer p) in
  In (CreateRef ("refs/tags/" ++ tag) sha) (snd (deliver env p changelog sha t))
  /\ In (CreateReleaseObject tag tag sha changelog
           (Prerelease (conf (context p))
            || Strings.neqb (Semver.Prerelease (newVer p)) ""))
        (snd (deliver env p changelog sha t)).
Proof.
  intros HR. rewrite (deliver_github env p changelog sha r t HR).
  destruct (GitHub.CreateRelease _ _ _ _ _ _ _ _ t) as [o t1] eqn:E.
  destruct o as [[e |] | c e | msg |]; simpl; try discriminate.
  apply CreateRelease_trace in E.
  intros _.
  split; (apply preserves_finish; [apply lasting_In |]);
    rewrite E; apply in_or_app; right; apply in_or_app; left; simpl; auto.
Qed.

Lemma resolve_plan (env : Env) (ctx : Context) (p : Plan) (t t' : list Event) :
  resolve env ctx t = (Return p, t') ->
  context p = ctx
  /\ newVer p = newVersion env (conf ctx) (commits p) (release ctx)
  /\ GetCommits (repository ctx) (currentSha ctx) (Pkgname (conf ctx))
     = Return (Ok (commits p))
  /\ Dry (conf ctx) = false.
Proof.
  unfold resolve, bind, lift, orExit, exit, ret.
  destruct (Strings.Contains _ _ && String.eqb _ _); simpl; [discriminate |].
  destruct (GetCommits _ _ _) as [[cs | e] | c e | msg |]; try discriminate.
  destruct (Dry (conf ctx)); [discriminate |].
  intros H. inversion H. simpl. repeat split.
Qed.

Lemma planOf_plan (env : Env) (p : Plan) :
  planOf env = Some p ->
  setup env [] = (Return (context p), [])
  /\ newVer p = newVersion env (conf (context p)) (commits p)
                           (release (context p)).
Proof.
  unfold planOf.
  destruct (setup env []) as [o t] eqn:S.
  pose proof (setup_trace _ _ _ _ S) as ->.
  destruct o as [ctx | c e | msg |]; try discriminate.
  destruct (resolve env ctx []) as [o t] eqn:R.
  destruct o as [q | c e | msg |]; try discriminate.
  intros H. inversion H. subst q.
  apply resolve_plan in R. destruct R as (-> & HV & _). split; [reflexivity | exact HV].
Qed.

(** The fold of the changes of section 4.2 yields "none" exactly when
    [SemrelSpec.GetNewVersion] returns nothing. *)
Lemma GetNewVersion_none (conf : Config) (commits : list Commit) (release : Release) :
  SemrelSpec.GetNewVersion conf commits release = None
  <-> SemrelSpec.CalculateChange commits = mkChange false false false.
Proof.
  unfold SemrelSpec.GetNewVersion.
  destruct (SemrelSpec.CalculateChange commits) as [[] [] []]; simpl;
    split; intros H; try discriminate; reflexivity.
Qed.

(** ** The command: failures, fallback and anchor *)

(** C1 (amended). A run that fails before the changelog step
    (configuration, provider, branches, CI condition, latest release,
    pre-release check, commits, dry run) leaves nothing behind.  A run that
    fails in the changelog step or at the check of the anchor commit has
    created no tag, no release and no branch; the changelog file is written
    before that check, so it is all that such a run can leave.  When the
    anchor commit is not found the run fails there: with the error of the
    changelog write, or with ["Commit not found"] and the changelog
    written. *)
Theorem failure_before_release (env : Env) :
  (planOf env = None -> failed (fst (run env)) = true /\ snd (run env) = [])
  /\ (forall p,
        planOf env = Some p ->
        failed (fst (prepare env p [])) = true ->
        failed (fst (run env)) = true
        /\ Forall (fun ev => isProviderEvent ev = false) (snd (run env))
        /\ (snd (run env) = [] \/ snd (run env) = changelogWritten env p))
  /\ (forall p,
        planOf env = Some p ->
        snd (anchor (commits p) (CommitHash (conf (context p)))) = false ->
        failed (fst (prepare env p [])) = true
        /\ (changelogPasses env p ->
            run env = (Exit 65 "Commit not found", changelogWritten env p))).
Proof.
  split; [apply run_without_plan |]. split.
  - intros p HP HF. rewrite (run_with_plan env p HP).
    destruct (bind_failed (prepare env p)
                (fun x => match x with (changelog, SHA) =>
                                     deliver env p changelog SHA end) [] HF)
      as [F1 F2].
    split; [exact F1 |]. rewrite F2.
    destruct (changelogPasses_dec env p) as [HC | HC].
    + rewrite (prepare_passes env p [] HC). simpl.
      split; [apply changelogWritten_no_provider | right; reflexivity].
    + destruct (prepare_blocked env p [] HC) as [e ->]. simpl.
      split; [constructor | left; reflexivity].
  - intros p HP HA. split.
    + destruct (changelogPasses_dec env p) as [HC | HC].
      * rewrite (prepare_passes env p [] HC), HA. reflexivity.
      * destruct (prepare_blocked env p [] HC) as [e ->]. reflexivity.
    + apply (run_anchor_missing env p HP HA).
Qed.

(** C3.  When the fold of the Change flags of the commits yields "none", as
    it does for the empty set, and [semrel.GetNewVersion] is the resolver
    of section 4.2, the new version of the plan is the minor increment of
    the latest release when the configured current branch,
    [conf.CurrentBranch], equals the configured base branch,
    [conf.BaseBranch], and the patch increment when the two differ.  The
    branch that the CI reports and the default branch of the repository
    play no part, [fallback_follows_the_flags]. *)
Theorem fallback_bump (env : Env) (p : Plan) :
  planOf env = Some p ->
  GetNewVersion env (conf (context p)) (commits p) (release (context p))
  = SemrelSpec.GetNewVersion (conf (context p)) (commits p)
                             (release (context p)) ->
  SemrelSpec.CalculateChange (commits p) = mkChange false false false ->
  (CurrentBranch (conf (context p)) = BaseBranch (conf (context p)) ->
   newVer p = Semver.IncMinor (Version (release (context p))))
  /\ (CurrentBranch (conf (context p)) <> BaseBranch (conf (context p)) ->
      newVer p = Semver.IncPatch (Version (release (context p)))).
Proof.
  intros HP HG HF. apply planOf_plan in HP. destruct HP as [_ HV].
  assert (HN : GetNewVersion env (conf (context p)) (commits p)
                             (release (context p)) = None).
  { rewrite HG. unfold SemrelSpec.GetNewVersion. rewrite HF. reflexivity. }
  rewrite HV. unfold newVersion. rewrite HN. split; intros HB.
  - apply neqb_false in HB. rewrite HB. reflexivity.
  - apply neqb_true in HB. rewrite HB. reflexivity.
Qed.

(** C6. When the maintained version asks for a pre-release (it contains
    ["-"]) and the latest release that [setup] selected has no pre-release,
    the run exits with code 1 and the error
    ["no pre-release for this version possible"]: no plan, hence no new
    version, is made, and nothing is left behind. *)
Theorem prerelease_required (env : Env) (ctx : Context) (t : list Event) :
  setup env [] = (Return ctx, t) ->
  Strings.Contains (MaintainedVersion (BetaRelease (conf ctx))) "-" = true ->
  Semver.Prerelease (Version (release ctx)) = "" ->
  run env = (Exit 1 "no pre-release for this version possible", [])
  /\ planOf env = None.
Proof.
  intros S HC HP.
  pose proof (setup_trace _ _ _ _ S) as ->.
  assert (R : resolve env ctx []
              = (Exit 1 "no pre-release for this version possible", [])).
  { unfold resolve, bind. rewrite HC, HP. reflexivity. }
  unfold run, cliHandler, planOf, bind. rewrite S, R. split; reflexivity.
Qed.

(** C7. Past the changelog step: when the configured commit hash is not
    among the SHAs of the fetched commits the run exits with
    ["Commit not found"] (code 65) and nothing is created at the provider;
    when it is among them, it is the SHA handed to release creation, every
    reference and release that the GitHub provider creates points at it,
    and a run that succeeds has created the tag and the release of that
    commit. *)
Theorem anchor_commit_release (env : Env) (p : Plan) :
  planOf env = Some p ->
  changelogPasses env p ->
  let hash := CommitHash (conf (context p)) in
  let changelog := GetChangelog env (commits p) (release (context p)) (newVer p) in
  let tag := Pkgname (conf (context p)) ++ "-release-v"
             ++ Semver.String_ (newVer p) in
  (~ In hash (map SHA (commits p)) ->
   fst (run env) = Exit 65 "Commit not found"
   /\ Forall (fun ev => isProviderEvent ev = false) (snd (run env)))
  /\ (In hash (map SHA (commits p)) ->
      anchor (commits p) hash = (hash, true)
      /\ run env = deliver env p changelog hash (changelogWritten env p)
      /\ forall r,
          repository (context p) = GitHub.asRepository env r ->
          Forall (pointsAt hash) (snd (run env))
          /\ (fst (run env) = Return tt ->
              In (CreateRef ("refs/tags/" ++ tag) hash) (snd (run env))
              /\ In (CreateReleaseObject tag tag hash changelog
                       (Prerelease (conf (context p))
                        || Strings.neqb (Semver.Prerelease (newVer p)) ""))
                    (snd (run env)))).
Proof.
  intros HP HC hash changelog tag. split.
  - intros HN. apply anchor_not_found in HN.
    rewrite (run_not_found env p HP HC HN). simpl.
    split; [reflexivity | apply changelogWritten_no_provider].
  - intros HI. pose proof (anchor_found _ _ HI) as HA.
    fold hash in HA.
    assert (HR : run env = deliver env p changelog hash (changelogWritten env p)).
    { rewrite (run_with_plan env p HP). unfold bind.
      rewrite (prepare_passes env p [] HC). fold hash. rewrite HA. reflexivity. }
    split; [exact HA |]. split; [exact HR |].
    intros r Hrepo. rewrite HR. split.
    + apply (deliver_pointsAt env p changelog hash r _ Hrepo).
      unfold changelogWritten. destruct (Strings.neqb _ _); repeat constructor.
    + intros HS. apply (deliver_success env p changelog hash r _ Hrepo HS).
Qed.

(** C10. [foundCommit] is set exactly by a commit whose SHA equals the
    configured hash.  So a run without configured hash that gets to the
    changelog fails, and creates nothing at the provider, unless some
    fetched commit has the empty SHA, and a run that fetched no commit fails
    so whatever the hash; the error is ["Commit not found"] (code 65) once
    the changelog step has passed. *)
Theorem anchor_is_mandatory (env : Env) (p : Plan) :
  planOf env = Some p ->
  let notFound :=
    failed (fst (run env)) = true
    /\ Forall (fun ev => isProviderEvent ev = false) (snd (run env))
    /\ (changelogPasses env p ->
        run env = (Exit 65 "Commit not found", changelogWritten env p)) in
  (snd (anchor (commits p) (CommitHash (conf (context p)))) = true
   <-> exists c, In c (commits p) /\ SHA c = CommitHash (conf (context p)))
  /\ (CommitHash (conf (context p)) = "" ->
      (forall c, In c (commits p) -> SHA c <> "") -> notFound)
  /\ (commits p = [] -> notFound).
Proof.
  intros HP notFound.
  assert (HX : snd (anchor (commits p) (CommitHash (conf (context p)))) = true
               <-> exists c, In c (commits p)
                             /\ SHA c = CommitHash (conf (context p))).
  { rewrite anchor_spec.
    destruct (existsb _ (commits p)) eqn:E; simpl.
    - split; [intros _ | reflexivity].
      apply existsb_exists in E. destruct E as [c [H1 H2]].
      exists c. split; [exact H1 | apply String.eqb_eq; exact H2].
    - split; [discriminate |]. intros [c [H1 H2]].
      assert (T : existsb (fun c => String.eqb (SHA c)
                     (CommitHash (conf (context p)))) (commits p) = true).
      { apply existsb_exists. exists c. split; [exact H1 |].
        apply String.eqb_eq. exact H2. }
      rewrite T in E. discriminate. }
  split; [exact HX |]. split.
  - intros HE HN. apply (run_anchor_missing env p HP).
    apply not_true_is_false. intros HT. apply HX in HT.
    destruct HT as [c [H1 H2]]. apply (HN c H1). rewrite H2. exact HE.
  - intros HE. apply (run_anchor_missing env p HP).
    rewrite HE. reflexivity.
Qed.

(** ** The properties on the concrete runs *)

Lemma parseGithubCommit_in_scope_witness :
  let c := GitHub.parseGithubCommit Sample.released
             (mkRepositoryCommit "sha-2" "Feat(pkgA): add export") "pkgA" in
  Type_ c = "feat" /\ Minor (CommitChange c) = true
  /\ Major (CommitChange c) = false.
Proof.
  intros c.
  assert (N : "pkgA" <> "") by discriminate.
  destruct (parseGithubCommit_in_scope Sample.released
              (mkRepositoryCommit "sha-2" "Feat(pkgA): add export")
              "pkgA" "Feat" "pkgA" "add export" [] eq_refl N eq_refl)
    as (_ & _ & _ & _ & _ & _ & _ & H).
  apply H; reflexivity.
Defined.

Lemma parseGithubCommit_no_scope_witness :
  Forall unclassified
    [GitHub.parseGithubCommit Sample.released
       (mkRepositoryCommit "sha-2" "feat(pkgA): add export") "";
     GitHub.parseGithubCommit Sample.released
       (mkRepositoryCommit "sha-1" "fix(pkgA): null check") ""].
Proof.
  destruct (parseGithubCommit_no_scope Sample.released
              (mkRepositoryCommit "sha-2" "feat(pkgA): add export"))
    as (_ & _ & H).
  apply (H (Sample.github (Sample.client "main" Sample.refs Sample.history None))
           "main" _ eq_refl).
Defined.

Lemma GetLatestRelease_no_tags_witness :
  GitHub.GetLatestRelease Sample.firstRelease (Sample.github Sample.emptyClient)
    "" None "pkgA" ""
  = Return (Ok (mkRelease "" Semver.zero)).
Proof.
  assert (F : fuel Sample.firstRelease <> O) by discriminate.
  apply (GetLatestRelease_no_tags Sample.firstRelease
           (Sample.github Sample.emptyClient) "" None "pkgA" ""
           [] (mkResponse 404 0) (Some "404 Not Found") F eq_refl eq_refl).
Defined.



Lemma fallback_bump_witness :
  newVer Sample.quietPlan = Sample.v 1 1 0
  /\ newVer Sample.quietHotfixPlan = Sample.v 1 0 2
  /\ Semver.IncMinor (Sample.v 1 0 1) = Sample.v 1 1 0
  /\ Semver.IncPatch (Sample.v 1 0 1) = Sample.v 1 0 2.
Proof.
  destruct (fallback_bump Sample.quiet Sample.quietPlan eq_refl eq_refl eq_refl)
    as [H1 _].
  destruct (fallback_bump Sample.quietHotfix Sample.quietHotfixPlan
              eq_refl eq_refl eq_refl) as [_ H2].
  assert (N : CurrentBranch (conf (context Sample.quietHotfixPlan))
              <> BaseBranch (conf (context Sample.quietHotfixPlan)))
    by discriminate.
  split; [rewrite (H1 eq_refl); reflexivity |].
  split; [rewrite (H2 N); reflexivity |].
  split; reflexivity.
Defined.

(** C3, as stated, fails: the fallback follows the two flags, not the line
    the run is on.  A run on the default branch [main], which the CI
    reports while the flag for the current branch is not given, goes from
    1.0.1 with no commit to 1.0.2; and a run on a hotfix branch, which the
    CI reports while neither flag is given, goes from 1.0.1 to 1.1.0. *)
Lemma fallback_follows_the_flags :
  (exists p,
     planOf Cases.defaultByCI = Some p
     /\ CurrentBranch (conf (context p)) = ""
     /\ BaseBranch (conf (context p)) = "main"
     /\ currentBranch (context p) = "main"
     /\ GetInfo (repository (context p)) = Return (Ok ("main", false))
     /\ commits p = []
     /\ SemrelSpec.CalculateChange (commits p) = mkChange false false false
     /\ Version (release (context p)) = Sample.v 1 0 1
     /\ newVer p = Sample.v 1 0 2)
  /\ (exists p,
        planOf Cases.hotfixByCI = Some p
        /\ CurrentBranch (conf (context p)) = ""
        /\ BaseBranch (conf (context p)) = ""
        /\ currentBranch (context p) = "pkgA-branch-v1.0"
        /\ GetInfo (repository (context p)) = Return (Ok ("main", false))
        /\ commits p = []
        /\ SemrelSpec.CalculateChange (commits p) = mkChange false false false
        /\ Version (release (context p)) = Sample.v 1 0 1
        /\ newVer p = Sample.v 1 1 0).
Proof.
  split; eexists; (split; [reflexivity |]); repeat split.
Qed.

Lemma CreateRelease_success_witness :
  In (CreateRef "refs/heads/pkgA-branch-v1.1.0" "sha-1")
     [CreateRef "refs/tags/pkgA-release-v1.1.0" "sha-1";
      CreateReleaseObject "pkgA-release-v1.1.0" "pkgA-release-v1.1.0" "sha-1"
        "notes" false;
      CreateRef "refs/heads/pkgA-branch-v1.1.0" "sha-1"]
  /\ ~ In (CreateRef "refs/heads/pkgA-branch-v1.1.0" "sha-1")
       [CreateRef "refs/tags/pkgA-release-v1.1.0" "sha-1";
        CreateReleaseObject "pkgA-release-v1.1.0" "pkgA-release-v1.1.0" "sha-1"
          "notes" false].
Proof.
  destruct (CreateRelease_success
              (Sample.github (Sample.client "main" Sample.refs Sample.history None))
              "notes" (Sample.v 1 1 0) false "master" "main" "sha-1" "pkgA" []
              _ eq_refl) as (_ & H1 & _).
  destruct (CreateRelease_success
              (Sample.github (Sample.client "main" Sample.refs Sample.history None))
              "notes" (Sample.v 1 1 0) false "main" "main" "sha-1" "pkgA" []
              _ eq_refl) as (_ & _ & H2).
  split; [apply H1; reflexivity |].
  apply H2; [discriminate | constructor].
Defined.

(** C8, as stated, fails: a release from the default branch [main] creates
    tag and release and no branch, and a release from a branch [master]
    that is not the default branch creates the branch. *)
Lemma branch_follows_the_name_master :
  (GitHub.GetInfo Sample.released
     (Sample.github (Sample.client "main" Sample.refs Sample.history None))
   = Ok ("main", false)
   /\ option_map (fun p => currentBranch (context p)) (planOf Sample.released)
      = Some "main"
   /\ run Sample.released
      = (Return tt,
         [WriteFile "CHANGELOG.md" "## 1.1.0";
          CreateRef "refs/tags/pkgA-release-v1.1.0" "sha-2";
          CreateReleaseObject "pkgA-release-v1.1.0" "pkgA-release-v1.1.0"
            "sha-2" "## 1.1.0" false]))
  /\ (GitHub.GetInfo Sample.onMaster
        (Sample.github (Sample.client "main" Sample.refs Sample.history None))
      = Ok ("main", false)
      /\ option_map (fun p => currentBranch (context p)) (planOf Sample.onMaster)
         = Some "master"
      /\ run Sample.onMaster
         = (Return tt,
            [WriteFile "CHANGELOG.md" "## 1.1.0";
             CreateRef "refs/tags/pkgA-release-v1.1.0" "sha-1";
             CreateReleaseObject "pkgA-release-v1.1.0" "pkgA-release-v1.1.0"
               "sha-1" "## 1.1.0" false;
             CreateRef "refs/heads/pkgA-branch-v1.1.0" "sha-1"])).
Proof. repeat split; vm_compute; reflexivity. Qed.

(** C1, as stated, fails: the run whose anchor commit is not found exits
    with that error after it wrote the changelog file; and a run whose
    release the provider refuses exits with the provider's error after the
    changelog file was written and the tag created. *)
Lemma commit_not_found_after_changelog :
  (failed (fst (run Sample.notFound)) = true
   /\ run Sample.notFound
      = (Exit 65 "Commit not found", [WriteFile "CHANGELOG.md" "## 1.1.0"]))
  /\ (failed (fst (run Sample.releaseRefused)) = true
      /\ run Sample.releaseRefused
         = (Exit 1 "422 Validation Failed",
            [WriteFile "CHANGELOG.md" "## 1.1.0";
             CreateRef "refs/tags/pkgA-release-v1.1.0" "sha-2"])).
Proof. repeat split; vm_compute; reflexivity. Qed.

Lemma failure_before_release_witness :
  failed (fst (run Sample.notFound)) = true
  /\ Forall (fun ev => isProviderEvent ev = false) (snd (run Sample.notFound))
  /\ run Sample.notFound
     = (Exit 65 "Commit not found",
        changelogWritten Sample.notFound Sample.notFoundPlan).
Proof.
  destruct (failure_before_release Sample.notFound) as (_ & H2 & H3).
  destruct (H3 Sample.notFoundPlan eq_refl eq_refl) as [F R].
  destruct (H2 Sample.notFoundPlan eq_refl F) as (A & B & _).
  split; [exact A |]. split; [exact B |].
  apply R. right. reflexivity.
Defined.

Lemma prerelease_required_witness :
  run Sample.maintained
  = (Exit 1 "no pre-release for this version possible", []).
Proof.
  apply (prerelease_required Sample.maintained Sample.maintainedContext []
           eq_refl eq_refl eq_refl).
Defined.

Lemma anchor_commit_release_witness :
  fst (run Sample.notFound) = Exit 65 "Commit not found"
  /\ In (CreateReleaseObject "pkgA-release-v1.1.0" "pkgA-release-v1.1.0"
           "sha-2" "## 1.1.0" false) (snd (run Sample.released)).
Proof.
  assert (C1 : changelogPasses Sample.notFound Sample.notFoundPlan)
    by (right; reflexivity).
  assert (C2 : changelogPasses Sample.released Sample.releasedPlan)
    by (right; reflexivity).
  destruct (anchor_commit_release Sample.notFound Sample.notFoundPlan
              eq_refl C1) as [H1 _].
  destruct (anchor_commit_release Sample.released Sample.releasedPlan
              eq_refl C2) as [_ H2].
  split.
  - apply H1. simpl. intros [H | [H | []]]; discriminate.
  - destruct H2 as (_ & _ & H3); [simpl; auto |].
    destruct (H3 (Sample.github
                    (Sample.client "main" Sample.refs Sample.history None))
                 eq_refl) as [_ H4].
    apply H4. reflexivity.
Defined.

Lemma anchor_is_mandatory_witness :
  run Sample.quiet = (Exit 65 "Commit not found", [])
  /\ run Sample.noAnchor = (Exit 65 "Commit not found", []).
Proof.
  destruct (anchor_is_mandatory Sample.quiet Sample.quietPlan eq_refl)
    as (_ & _ & H).
  destruct (anchor_is_mandatory Sample.noAnchor Sample.noAnchorPlan eq_refl)
    as (_ & G & _).
  split.
  - destruct (H eq_refl) as (_ & _ & R). apply R. left. reflexivity.
  - destruct (G eq_refl) as (_ & _ & R).
    + simpl. intros c [<- | [<- | []]]; discriminate.
    + apply R. left. reflexivity.
Defined.

(** * Further properties *)

(** ** The exit handler *)

(** X1. The exit handler does nothing for a nil error, whatever codes are
    passed.  For an error it ends the process without touching the trace:
    with the code passed when exactly one is passed, and with code 1 when
    none or several are.  [exitIfError] of the command is this handler with
    one code. *)
Theorem errorHandler_exit (err : option error) (exitCode : list Z)
        (t : list Event) :
  (err = None -> errorHandler err exitCode t = (Return tt, t))
  /\ (forall e, err = Some e ->
        exists code,
          errorHandler err exitCode t = (Exit code e, t)
          /\ (exitCode = [code] \/ (code = 1%Z /\ length exitCode <> 1%nat)))
  /\ (forall code, exitIfError err code = errorHandler err [code])
  /\ errorHandler err [] = errorHandler err [1%Z].
Proof.
  split; [intros ->; reflexivity |]. split.
  - intros e ->. destruct exitCode as [| c [| c' l]].
    + exists 1%Z. split; [reflexivity |]. right. split; [reflexivity | discriminate].
    + exists c. split; [reflexivity |]. left. reflexivity.
    + exists 1%Z. split; [reflexivity |]. right. split; [reflexivity | discriminate].
  - split; [intros code; destruct err; reflexivity |].
    destruct err; reflexivity.
Qed.

(** ** Splitting and joining *)

Lemma HasPrefix_byte (c d : ascii) (r : string) :
  Strings.HasPrefix (String d r) (String c EmptyString) = Ascii.eqb c d.
Proof.
  unfold Strings.HasPrefix. simpl. destruct (Ascii.eqb c d); [| reflexivity].
  destruct r; reflexivity.
Qed.

Lemma Contains_byte_false (c : ascii) (s : string) :
  Strings.Contains s (String c EmptyString) = false <-> without c s.
Proof.
  induction s as [| d s IH]; simpl.
  - split; [trivial | reflexivity].
  - rewrite HasPrefix_byte. destruct (Ascii.eqb c d) eqn:E.
    + apply Ascii.eqb_eq in E. subst d.
      split; [discriminate | intros [H _]; contradiction].
    + apply Ascii.eqb_neq in E. rewrite IH.
      split; [intros H; split; [congruence | exact H] | intros [_ H]; exact H].
Qed.

Lemma Contains_byte_app (c : ascii) (a b : string) :
  Strings.Contains (a ++ String c b) (String c EmptyString) = true.
Proof.
  induction a as [| d a IH]; simpl.
  - rewrite HasPrefix_byte, Ascii.eqb_refl. reflexivity.
  - rewrite HasPrefix_byte. destruct (Ascii.eqb c d); [reflexivity | exact IH].
Qed.

Lemma Split_app (c : ascii) (a b : string) :
  without c a ->
  Strings.Split (a ++ String c b) c
  = (a, fst (Strings.Split b c) :: snd (Strings.Split b c)).
Proof.
  induction a as [| d a IH]; simpl; intros H.
  - destruct (Strings.Split b c) as [l ls]. rewrite Ascii.eqb_refl. reflexivity.
  - destruct H as [Hd Ha]. rewrite (IH Ha).
    destruct (Ascii.eqb d c) eqn:E; [apply Ascii.eqb_eq in E; contradiction |].
    reflexivity.
Qed.

Lemma Split_joinLines (s : string) :
  joinLines (fst (Strings.Split s Strings.LF)) (snd (Strings.Split s Strings.LF))
  = s.
Proof.
  induction s as [| d s IH]; [reflexivity |].
  simpl. destruct (Strings.Split s Strings.LF) as [l ls]. simpl in IH.
  destruct (Ascii.eqb d Strings.LF) eqn:E; simpl.
  - apply Ascii.eqb_eq in E. subst d. rewrite IH. reflexivity.
  - destruct ls as [| l' ls']; simpl in *; rewrite IH; reflexivity.
Qed.

Lemma Split_without (c : ascii) (s : string) :
  without c (fst (Strings.Split s c))
  /\ Forall (without c) (snd (Strings.Split s c)).
Proof.
  induction s as [| d s IH]; simpl; [split; [exact I | constructor] |].
  destruct (Strings.Split s c) as [l ls]. simpl in IH. destruct IH as [H1 H2].
  destruct (Ascii.eqb d c) eqn:E; simpl.
  - split; [exact I | constructor; assumption].
  - apply Ascii.eqb_neq in E. split; [split; assumption | exact H2].
Qed.

(** ** The GitHub provider: construction *)

(** X2. A slug without ["/"] is refused with ["invalid slug"], whatever the
    host.  For a slug [owner/rest] the repository gets the owner before the
    first ["/"] and, as name, what stands between the first and the second
    ["/"]; without enterprise host its client is the public one.  With an
    enterprise host the client is the one of
    [https://<host>/api/v3/], and the error of its construction is the
    error of the provider. *)
Theorem NewGitHubRepository_slug (env : Env) (gheHost token : string) :
  (forall slug, without "/"%char slug ->
     GitHub.NewGitHubRepository env gheHost slug token = Err "invalid slug")
  /\ (forall owner rest, without "/"%char owner ->
        GitHub.NewGitHubRepository env "" (owner ++ "/" ++ rest) token
        = Ok (GitHub.mkGitHubRepository owner
                (fst (Strings.Split rest "/"%char)) (NewClient env token))
        /\ (gheHost <> "" ->
            GitHub.NewGitHubRepository env gheHost (owner ++ "/" ++ rest) token
            = match NewEnterpriseClient env
                      ("https://" ++ gheHost ++ "/api/v3/") token with
              | Ok c => Ok (GitHub.mkGitHubRepository owner
                              (fst (Strings.Split rest "/"%char)) c)
              | Err e => Err e
              end)).
Proof.
  split.
  - intros slug H. unfold GitHub.NewGitHubRepository.
    apply Contains_byte_false in H. rewrite H. reflexivity.
  - intros owner rest H.
    assert (C : Strings.Contains (owner ++ "/" ++ rest) "/" = true)
      by apply Contains_byte_app.
    assert (S : Strings.Split (owner ++ "/" ++ rest) "/"%char
                = (owner, fst (Strings.Split rest "/"%char)
                          :: snd (Strings.Split rest "/"%char)))
      by (apply Split_app; exact H).
    split.
    + unfold GitHub.NewGitHubRepository. rewrite C, S. reflexivity.
    + intros G. unfold GitHub.NewGitHubRepository. rewrite C, S. simpl.
      apply neqb_true in G. rewrite G.
      destruct (NewEnterpriseClient env _ token); reflexivity.
Qed.

(** ** The GitHub provider: commits *)

(** X3. [GetCommits] fails exactly with the error of the listing.  When it
    succeeds it returns one commit per listed commit, in the same order and
    with the same SHA, and the raw lines of each commit are the lines of
    its message: none holds a line feed, and joined by line feeds they give
    the message back. *)
Theorem GetCommits_keeps_history (env : Env) (r : GitHub.GitHubRepository)
        (sha pkg : string) :
  (forall e,
     Repositories_ListCommits (GitHub.client r) (GitHub.owner r) (GitHub.repo r) sha
     = Err e -> GitHub.GetCommits env r sha pkg = Err e)
  /\ (forall listed,
        Repositories_ListCommits (GitHub.client r) (GitHub.owner r) (GitHub.repo r) sha
        = Ok listed ->
        exists cs,
          GitHub.GetCommits env r sha pkg = Ok cs
          /\ map SHA cs = map rcSHA listed
          /\ Forall2 (fun rc c =>
                        exists first rest,
                          Raw c = first :: rest
                          /\ joinLines first rest = rcMessage rc
                          /\ Forall (without Strings.LF) (Raw c))
                     listed cs).
Proof.
  split.
  - intros e H. unfold GitHub.GetCommits. rewrite H. reflexivity.
  - intros listed H. unfold GitHub.GetCommits. rewrite H.
    eexists. split; [reflexivity |].
    assert (P : forall rc,
               SHA (GitHub.parseGithubCommit env rc pkg) = rcSHA rc
               /\ Raw (GitHub.parseGithubCommit env rc pkg)
                  = fst (Strings.Split (rcMessage rc) Strings.LF)
                    :: snd (Strings.Split (rcMessage rc) Strings.LF)).
    { intros rc. unfold GitHub.parseGithubCommit.
      destruct (Strings.Split (rcMessage rc) Strings.LF) as [raw0 rawRest].
      destruct (commitPattern env raw0) as [| [[f1 f2] f3] l]; [split; reflexivity |].
      destruct (Strings.neqb pkg "" && String.eqb pkg f2); split; reflexivity. }
    split.
    + rewrite map_map. apply map_ext. intros rc. apply P.
    + clear H. induction listed as [| rc listed IH]; simpl; constructor; [| exact IH].
      destruct (P rc) as [_ HR].
      exists (fst (Strings.Split (rcMessage rc) Strings.LF)),
             (snd (Strings.Split (rcMessage rc) Strings.LF)).
      split; [exact HR |]. split; [apply Split_joinLines |].
      rewrite HR. destruct (Split_without Strings.LF (rcMessage rc)).
      constructor; assumption.
Qed.

(** X4. Whatever the patterns, a parsed commit keeps the SHA; it is either
    unclassified, or the package scope is not empty and is the scope of the
    commit.  [Minor] is set only for type ["feat"] and [Patch] only for
    type ["fix"], so never both.  A first line that [commitPattern] does not
    match, and a scope other than the package scope, leave the commit
    unclassified even when the message holds a breaking marker. *)
Theorem parseGithubCommit_classes (env : Env) (commit : RepositoryCommit)
        (pkg : string) :
  let c := GitHub.parseGithubCommit env commit pkg in
  SHA c = rcSHA commit
  /\ (unclassified c \/ (pkg <> "" /\ Scope c = pkg))
  /\ (Minor (CommitChange c) = true -> Type_ c = "feat")
  /\ (Patch (CommitChange c) = true -> Type_ c = "fix")
  /\ Minor (CommitChange c) && Patch (CommitChange c) = false
  /\ (commitPattern env (fst (Strings.Split (rcMessage commit) Strings.LF)) = []
      -> unclassified c)
  /\ (forall type scope subject others,
        commitPattern env (fst (Strings.Split (rcMessage commit) Strings.LF))
        = (type, scope, subject) :: others ->
        scope <> pkg -> unclassified c).
Proof.
  intros c. subst c. unfold GitHub.parseGithubCommit.
  destruct (Strings.Split (rcMessage commit) Strings.LF) as [raw0 rawRest].
  simpl fst.
  destruct (commitPattern env raw0) as [| [[f1 f2] f3] l].
  - simpl. repeat split; try discriminate. left. repeat split.
  - destruct (Strings.neqb pkg "") eqn:N; simpl.
    + destruct (String.eqb pkg f2) eqn:E; simpl.
      * apply String.eqb_eq in E. subst f2. apply neqb_true in N.
        split; [reflexivity |]. split; [right; split; [exact N | reflexivity] |].
        split; [intros H; apply String.eqb_eq in H; exact H |].
        split; [intros H; apply String.eqb_eq in H; exact H |].
        split.
        { destruct (String.eqb (Strings.ToLower f1) "feat") eqn:F; [| reflexivity].
          apply String.eqb_eq in F. rewrite F. reflexivity. }
        split; [discriminate |].
        intros type scope subject others H HS. inversion H. subst. contradiction.
      * repeat split; try discriminate. left. repeat split.
    + repeat split; try discriminate. left. repeat split.
Qed.

(** ** The GitHub provider: the tags *)

Lemma collect_from (env : Env) (re : option Regexp) (pkg_name : string)
      (refs : list Reference) :
  forall all,
    GitHub.collect env re pkg_name refs all
    = (all ++ GitHub.collect env re pkg_name refs [])%list.
Proof.
  induction refs as [| r refs IH]; intros all; simpl.
  - rewrite app_nil_r. reflexivity.
  - rewrite IH. rewrite (IH (match GitHub.candidate env re pkg_name r with
                             | Some rel => [rel]
                             | None => []
                             end)).
    destruct (GitHub.candidate env re pkg_name r); simpl.
    + rewrite <- app_assoc. reflexivity.
    + reflexivity.
Qed.

Lemma candidate_origin (env : Env) (re : option Regexp) (pkg_name : string)
      (r : Reference) (rel : Release) :
  GitHub.candidate env re pkg_name r = Some rel ->
  ObjectType r = "commit"
  /\ ReleaseSHA rel = ObjectSHA r
  /\ NewVersion env (GitHub.releaseTag pkg_name r) = Ok (Version rel)
  /\ (forall rx, re = Some rx -> rx (GitHub.releaseTag pkg_name r) = true).
Proof.
  unfold GitHub.candidate.
  destruct (match re with Some rx => negb (rx _) | None => false end) eqn:F;
    [discriminate |].
  destruct (Strings.neqb (ObjectType r) "commit") eqn:T; [discriminate |].
  destruct (NewVersion env _) as [v | e] eqn:V; [| discriminate].
  intros H. inversion H. simpl.
  split; [apply neqb_false; exact T |]. split; [reflexivity |].
  split; [reflexivity |].
  intros rx ->. apply negb_false_iff. exact F.
Qed.

(** X5. The releases that the selector collects from a page are those it
    had followed by the candidates of the references of the page, in the
    order of the references, one for each reference that gives a
    candidate.  A candidate comes from a reference whose object is a
    commit (the reference of an annotated tag gives none), has the SHA of
    that object and the version that [semver.NewVersion] reads from its
    tag, a tag that the filter, if any, matches. *)
Theorem collect_origin (env : Env) (re : option Regexp) (pkg_name : string)
        (refs : list Reference) (all : Releases) :
  GitHub.collect env re pkg_name refs all
  = (all ++ flat_map (fun r => match GitHub.candidate env re pkg_name r with
                               | Some rel => [rel]
                               | None => []
                               end) refs)%list
  /\ (forall r rel,
        GitHub.candidate env re pkg_name r = Some rel ->
        ObjectType r = "commit"
        /\ ReleaseSHA rel = ObjectSHA r
        /\ NewVersion env (GitHub.releaseTag pkg_name r) = Ok (Version rel)
        /\ (forall rx, re = Some rx ->
              rx (GitHub.releaseTag pkg_name r) = true))
  /\ (forall r, ObjectType r <> "commit" ->
        GitHub.candidate env re pkg_name r = None).
Proof.
  split; [| split].
  - revert all. induction refs as [| r refs IH]; intros all; simpl.
    + rewrite app_nil_r. reflexivity.
    + rewrite IH. destruct (GitHub.candidate env re pkg_name r); simpl.
      * rewrite <- app_assoc. reflexivity.
      * reflexivity.
  - intros r rel. apply candidate_origin.
  - intros r HT. unfold GitHub.candidate.
    destruct (match re with Some rx => negb (rx _) | None => false end);
      [reflexivity |].
    apply neqb_true in HT. rewrite HT. reflexivity.
Qed.

Lemma pages_more_fuel (env : Env) (r : GitHub.GitHubRepository)
      (vrange : string) (re : option Regexp) (pkg_name hotfix : string) :
  forall (n m : nat) (page : Z) (all : Releases),
    (n <= m)%nat ->
    GitHub.pages env r vrange re pkg_name hotfix n page all <> OutOfFuel ->
    GitHub.pages env r vrange re pkg_name hotfix m page all
    = GitHub.pages env r vrange re pkg_name hotfix n page all.
Proof.
  induction n as [| n IH]; intros m page all Hle H; [contradiction H; reflexivity |].
  destruct m as [| m]; [lia |].
  simpl in *.
  destruct (Git_ListRefs (GitHub.client r) (GitHub.owner r) (GitHub.repo r) page)
    as [[refs resp] err].
  destruct (match resp with Some rs => (StatusCode rs =? 404)%Z | None => false end);
    [reflexivity |].
  destruct err; [reflexivity |].
  destruct resp as [rs |]; [| reflexivity].
  destruct (NextPage rs =? 0)%Z; [reflexivity |].
  apply IH; [lia | exact H].
Qed.

(** X6. The bound on the number of pages does not change an answer: an
    answer of the selector within some bound is its answer within every
    larger bound.  And a provider that announces a next page after every
    page gets no answer within any bound. *)
Theorem GetLatestRelease_fuel (env : Env) (r : GitHub.GitHubRepository)
        (vrange : string) (re : option Regexp) (pkg_name hotfix : string) :
  (forall (n m : nat) (page : Z) (all : Releases),
     (n <= m)%nat ->
     GitHub.pages env r vrange re pkg_name hotfix n page all <> OutOfFuel ->
     GitHub.pages env r vrange re pkg_name hotfix m page all
     = GitHub.pages env r vrange re pkg_name hotfix n page all)
  /\ ((forall page, exists refs rs,
         Git_ListRefs (GitHub.client r) (GitHub.owner r) (GitHub.repo r) page
         = (refs, Some rs, None)
         /\ StatusCode rs <> 404%Z /\ NextPage rs <> 0%Z) ->
      forall (n : nat) (page : Z) (all : Releases),
        GitHub.pages env r vrange re pkg_name hotfix n page all = OutOfFuel).
Proof.
  split; [apply pages_more_fuel |].
  intros H n. induction n as [| n IH]; intros page all; [reflexivity |].
  simpl. destruct (H page) as [refs [rs [E [S N]]]]. rewrite E.
  apply Z.eqb_neq in S. apply Z.eqb_neq in N. rewrite S, N. apply IH.
Qed.

(** X7. An error of the listing of the tags that is not a 404 is the error
    of the selector, on whichever page it comes: no release is returned,
    the releases collected from the pages before are dropped and what the
    failing page held is not looked at. *)
Theorem GetLatestRelease_error (env : Env) (r : GitHub.GitHubRepository)
        (vrange : string) (re : option Regexp) (pkg_name hotfix : string) :
  (forall (n : nat) (page : Z) (all : Releases) refs resp e,
     Git_ListRefs (GitHub.client r) (GitHub.owner r) (GitHub.repo r) page
     = (refs, resp, Some e) ->
     (forall rs, resp = Some rs -> StatusCode rs <> 404%Z) ->
     GitHub.pages env r vrange re pkg_name hotfix (S n) page all
     = Return (Err e))
  /\ (forall refs resp e,
        fuel env <> O ->
        Git_ListRefs (GitHub.client r) (GitHub.owner r) (GitHub.repo r) 0
        = (refs, resp, Some e) ->
        (forall rs, resp = Some rs -> StatusCode rs <> 404%Z) ->
        GitHub.GetLatestRelease env r vrange re pkg_name hotfix
        = Return (Err e))
  /\ (forall refs1 rs1 refs2 resp2 e,
        (2 <= fuel env)%nat ->
        Git_ListRefs (GitHub.client r) (GitHub.owner r) (GitHub.repo r) 0
        = (refs1, Some rs1, None) ->
        StatusCode rs1 <> 404%Z -> NextPage rs1 <> 0%Z ->
        Git_ListRefs (GitHub.client r) (GitHub.owner r) (GitHub.repo r)
                     (NextPage rs1)
        = (refs2, resp2, Some e) ->
        (forall rs, resp2 = Some rs -> StatusCode rs <> 404%Z) ->
        GitHub.GetLatestRelease env r vrange re pkg_name hotfix
        = Return (Err e)).
Proof.
  assert (P : forall (n : nat) (page : Z) (all : Releases) refs resp e,
             Git_ListRefs (GitHub.client r) (GitHub.owner r) (GitHub.repo r) page
             = (refs, resp, Some e) ->
             (forall rs, resp = Some rs -> StatusCode rs <> 404%Z) ->
             GitHub.pages env r vrange re pkg_name hotfix (S n) page all
             = Return (Err e)).
  { intros n page all refs resp e H S. simpl. rewrite H.
    destruct resp as [rs |]; [| reflexivity].
    specialize (S rs eq_refl). apply Z.eqb_neq in S. rewrite S. reflexivity. }
  split; [exact P |]. split.
  - intros refs resp e F H S. unfold GitHub.GetLatestRelease.
    destruct (fuel env) as [| n]; [contradiction |].
    apply (P n 0%Z [] refs resp e H S).
  - intros refs1 rs1 refs2 resp2 e F H1 S1 N1 H2 S2.
    unfold GitHub.GetLatestRelease.
    destruct (fuel env) as [| [| n]]; [lia | lia |].
    apply Z.eqb_neq in S1. apply Z.eqb_neq in N1.
    change (GitHub.pages env r vrange re pkg_name hotfix (S (S n)) 0 [])
      with (let '(refs, resp, err) :=
              Git_ListRefs (GitHub.client r) (GitHub.owner r) (GitHub.repo r) 0 in
            if match resp with
               | Some rs => (StatusCode rs =? 404)%Z
               | None => false
               end
            then Return (Ok (mkRelease "" Semver.zero))
            else
              match err with
              | Some e => Return (Err e)
              | None =>
                  let allReleases' := GitHub.collect env re pkg_name refs [] in
                  match resp with
                  | None => Panic "invalid memory address or nil pointer dereference"
                  | Some rs =>
                      if (NextPage rs =? 0)%Z
                      then Return (ReleasesGetLatestRelease env allReleases'
                                     vrange hotfix)
                      else GitHub.pages env r vrange re pkg_name hotfix
                                        (S n) (NextPage rs) allReleases'
                  end
              end).
    rewrite H1, S1, N1.
    apply (P n (NextPage rs1) _ refs2 resp2 e H2 S2).
Qed.

(** X8. The selector reads every page before it ranks: when the first page
    announces a next page and that page is the last, the release is chosen
    by [Releases.GetLatestRelease] among the releases of both pages, those
    of the first page first. *)
Theorem GetLatestRelease_two_pages
        (env : Env) (r : GitHub.GitHubRepository) (vrange : string)
        (re : option Regexp) (pkg_name hotfix : string)
        (refs1 refs2 : list Reference) (rs1 rs2 : Response) :
  (2 <= fuel env)%nat ->
  Git_ListRefs (GitHub.client r) (GitHub.owner r) (GitHub.repo r) 0
  = (refs1, Some rs1, None) ->
  StatusCode rs1 <> 404%Z -> NextPage rs1 <> 0%Z ->
  Git_ListRefs (GitHub.client r) (GitHub.owner r) (GitHub.repo r) (NextPage rs1)
  = (refs2, Some rs2, None) ->
  StatusCode rs2 <> 404%Z -> NextPage rs2 = 0%Z ->
  GitHub.GetLatestRelease env r vrange re pkg_name hotfix
  = Return (ReleasesGetLatestRelease env
              (GitHub.collect env re pkg_name (refs1 ++ refs2) [])
              vrange hotfix).
Proof.
  intros F H1 S1 N1 H2 S2 N2. unfold GitHub.GetLatestRelease.
  destruct (fuel env) as [| [| n]]; [lia | lia |].
  apply Z.eqb_neq in S1. apply Z.eqb_neq in N1. apply Z.eqb_neq in S2.
  simpl. rewrite H1, S1, N1, H2, S2, N2. simpl.
  rewrite collect_app. reflexivity.
Qed.

(** ** The GitHub provider: release creation *)

(** X9. Release creation always returns to its caller, and it undoes
    nothing.  When the tag cannot be created nothing is created; when the
    release is refused the tag stays; when the branch of a release from
    ["master"] cannot be created the tag and the release stay.  In each case
    the error returned is that of the call that failed. *)
Theorem CreateRelease_failure
        (r : GitHub.GitHubRepository) (changelog : string)
        (newVersion : Semver.Version) (prerelease : bool)
        (branch sha currentSHA pkgName : string) (t : list Event) :
  let tag := pkgName ++ "-release-v" ++ Semver.String_ newVersion in
  let opts := mkRepositoryRelease tag tag currentSHA changelog
                (prerelease || Strings.neqb (Semver.Prerelease newVersion) "") in
  let created := CreateReleaseObject tag tag currentSHA changelog
                   (prerelease || Strings.neqb (Semver.Prerelease newVersion) "") in
  let call := GitHub.CreateRelease r changelog newVersion prerelease branch sha
                                   currentSHA pkgName t in
  let createRef := Git_CreateRef (GitHub.client r) (GitHub.owner r) (GitHub.repo r) in
  (exists err, fst call = Return err)
  /\ (forall e, createRef ("refs/tags/" ++ tag) currentSHA = Some e ->
        call = (Return (Some e), t))
  /\ (forall e,
        createRef ("refs/tags/" ++ tag) currentSHA = None ->
        Repositories_CreateRelease (GitHub.client r) (GitHub.owner r)
                                   (GitHub.repo r) opts = Some e ->
        call = (Return (Some e), (t ++ [CreateRef ("refs/tags/" ++ tag) currentSHA])%list))
  /\ (forall e,
        createRef ("refs/tags/" ++ tag) currentSHA = None ->
        Repositories_CreateRelease (GitHub.client r) (GitHub.owner r)
                                   (GitHub.repo r) opts = None ->
        branch = "master" ->
        createRef ("refs/heads/" ++ pkgName ++ "-branch-v"
                   ++ Semver.String_ newVersion) currentSHA = Some e ->
        call = (Return (Some e),
                (t ++ [CreateRef ("refs/tags/" ++ tag) currentSHA; created])%list)).
Proof.
  intros tag opts created call createRef. subst call createRef.
  unfold GitHub.CreateRelease, GitHub.createRef, GitHub.createRelease,
    bind, emit, ret.
  fold tag. fold opts.
  split; [| split; [| split]].
  - destruct (Git_CreateRef _ _ _ ("refs/tags/" ++ tag) currentSHA);
      [eexists; reflexivity |].
    destruct (Repositories_CreateRelease _ _ _ opts); [eexists; reflexivity |].
    simpl. destruct (String.eqb branch "master"); [| eexists; reflexivity].
    destruct (Git_CreateRef _ _ _ _ _); eexists; reflexivity.
  - intros e ->. reflexivity.
  - intros e -> ->. reflexivity.
  - intros e -> -> -> H. rewrite H. simpl.
    rewrite <- app_assoc. reflexivity.
Qed.

(** ** The command: what a run has checked *)

Lemma bind_Return_inv {A B} (m : M A) (k : A -> M B) (t t' : list Event) (b : B) :
  bind m k t = (Return b, t') ->
  exists a t1, m t = (Return a, t1) /\ k a t1 = (Return b, t').
Proof.
  unfold bind. destruct (m t) as [[a | c e | msg |] t1]; try discriminate.
  intros H. exists a, t1. split; [reflexivity | exact H].
Qed.

Lemma orExit_Return_inv {A} (r : result A) (code : Z) (t t' : list Event) (a : A) :
  orExit r code t = (Return a, t') -> r = Ok a /\ t' = t.
Proof.
  destruct r; simpl; unfold ret, exit, lift; intros H; inversion H; auto.
Qed.

Lemma lift_Return_inv {A} (o : Outcome A) (t t' : list Event) (a : A) :
  lift o t = (Return a, t') -> o = Return a /\ t' = t.
Proof. unfold lift. intros H; inversion H; auto. Qed.

Lemma unless_Return_inv (b : bool) (code : Z) (e : error) (t t' : list Event)
      (u : unit) :
  (if b then exit code e else ret tt) t = (Return u, t') -> b = false /\ t' = t.
Proof.
  destruct b; unfold exit, lift, ret; intros H; inversion H; auto.
Qed.

Lemma setup_inv (env : Env) (t t' : list Event) (ctx : Context) :
  setup env t = (Return ctx, t') ->
  NewConfig env = Ok (conf ctx)
  /\ newRepository env (conf ctx) (NewCI env) = Ok (repository ctx)
  /\ currentBranch ctx = branchOf (conf ctx) (NewCI env)
  /\ currentBranch ctx <> ""
  /\ currentSha ctx
     = (if Strings.neqb (CurrentBranch (conf ctx)) ""
        then CurrentBranch (conf ctx) else GetCurrentSHA (NewCI env))
  /\ exists defaultBranch isPrivate re,
       GetInfo (repository ctx) = Return (Ok (defaultBranch, isPrivate))
       /\ (MaintainedVersion (BetaRelease (conf ctx)) <> "" ->
           currentBranch ctx <> defaultBranch)
       /\ (Noci (conf ctx) = false ->
           RunCondition (NewCI env)
             (mkCIConfig (Token (conf ctx))
                (if Strings.neqb (MaintainedVersion (BetaRelease (conf ctx))) ""
                 then "*" else defaultBranch)
                (isPrivate || TravisCom (conf ctx))) = None)
       /\ matchRegex env (conf ctx) t = (Return re, t)
       /\ GetLatestRelease (repository ctx)
            (MaintainedVersion (BetaRelease (conf ctx))) re (Pkgname (conf ctx))
            (if Strings.neqb (CurrentBranch (conf ctx)) (BaseBranch (conf ctx))
             then Strings.Trim (CurrentBranch (conf ctx))
                               (Pkgname (conf ctx) ++ "-branch-v")
             else "")
          = Return (Ok (release ctx)).
Proof.
  unfold setup. intros H.
  apply bind_Return_inv in H. destruct H as (cf & t1 & H1 & H).
  apply orExit_Return_inv in H1. destruct H1 as [HC ->].
  apply bind_Return_inv in H. destruct H as (rp & t1 & H1 & H).
  apply orExit_Return_inv in H1. destruct H1 as [HR ->].
  apply bind_Return_inv in H. destruct H as (info & t1 & H1 & H).
  apply lift_Return_inv in H1. destruct H1 as [HI ->].
  apply bind_Return_inv in H. destruct H as ([db priv] & t1 & H1 & H).
  apply orExit_Return_inv in H1. destruct H1 as [-> ->].
  apply bind_Return_inv in H. destruct H as (u1 & t1 & H1 & H).
  apply unless_Return_inv in H1. destruct H1 as [HB ->].
  apply bind_Return_inv in H. destruct H as (u2 & t1 & H1 & H).
  apply unless_Return_inv in H1. destruct H1 as [HM ->].
  apply bind_Return_inv in H. destruct H as (u3 & t1 & H1 & H).
  assert (HCI : Noci cf = false ->
                RunCondition (NewCI env)
                  (mkCIConfig (Token cf)
                     (if Strings.neqb (MaintainedVersion (BetaRelease cf)) ""
                      then "*" else db) (priv || TravisCom cf)) = None).
  { intros N. rewrite N in H1. simpl in H1.
    destruct (RunCondition _ _); [discriminate H1 | reflexivity]. }
  assert (t1 = t) as ->.
  { pose proof (silent_when (negb (Noci cf))
                  (exitIfError
                     (RunCondition (NewCI env)
                        (mkCIConfig (Token cf)
                           (if Strings.neqb (MaintainedVersion (BetaRelease cf)) ""
                            then "*" else db) (priv || TravisCom cf))) 66)
                  (silent_exitIfError _ _) t) as S.
    rewrite H1 in S. exact S. }
  clear H1.
  apply bind_Return_inv in H. destruct H as (re & t1 & H1 & H).
  pose proof (silent_matchRegex env cf t) as S. rewrite H1 in S. simpl in S. subst t1.
  apply bind_Return_inv in H. destruct H as (latest & t1 & H2 & H).
  apply lift_Return_inv in H2. destruct H2 as [HL ->].
  apply bind_Return_inv in H. destruct H as (rel & t1 & H2 & H).
  apply orExit_Return_inv in H2. destruct H2 as [-> ->].
  unfold ret in H. inversion H. subst. simpl.
  split; [exact HC |]. split; [exact HR |]. split; [reflexivity |].
  split; [apply String.eqb_neq; exact HB |]. split; [reflexivity |].
  exists db, priv, re.
  split; [exact HI |]. split.
  { intros N E. apply neqb_true in N. rewrite N in HM. simpl in HM.
    apply String.eqb_neq in HM. contradiction. }
  split; [exact HCI |]. split; [exact H1 | exact HL].
Qed.

(** X10. A run that gets past its first part has read the configuration
    and has a current branch that is not empty: the configured one, else
    the one of the CI.  With a configured current branch the commits are
    fetched from that name too, not from the SHA of the CI.  With a
    maintained version the current branch is not the default branch that
    the provider reports; and unless the CI condition is switched off it
    has accepted the token, the default branch (["*"] with a maintained
    version) and the private flag. *)
Theorem setup_checks (env : Env) (ctx : Context) (t : list Event) :
  setup env [] = (Return ctx, t) ->
  t = []
  /\ NewConfig env = Ok (conf ctx)
  /\ currentBranch ctx <> ""
  /\ (CurrentBranch (conf ctx) <> "" ->
      currentBranch ctx = CurrentBranch (conf ctx)
      /\ currentSha ctx = CurrentBranch (conf ctx))
  /\ (CurrentBranch (conf ctx) = "" ->
      currentBranch ctx = GetCurrentBranch (NewCI env)
      /\ currentSha ctx = GetCurrentSHA (NewCI env))
  /\ exists defaultBranch isPrivate,
       GetInfo (repository ctx) = Return (Ok (defaultBranch, isPrivate))
       /\ (MaintainedVersion (BetaRelease (conf ctx)) <> "" ->
           currentBranch ctx <> defaultBranch)
       /\ (Noci (conf ctx) = false ->
           RunCondition (NewCI env)
             (mkCIConfig (Token (conf ctx))
                (if Strings.neqb (MaintainedVersion (BetaRelease (conf ctx))) ""
                 then "*" else defaultBranch)
                (isPrivate || TravisCom (conf ctx))) = None).
Proof.
  intros H. pose proof (setup_trace _ _ _ _ H) as ->.
  apply setup_inv in H.
  destruct H as (HC & _ & HB & HN & HS & db & priv & re & HI & HM & HCI & _).
  split; [reflexivity |]. split; [exact HC |]. split; [exact HN |].
  unfold branchOf in HB. split; [| split].
  - intros N. apply neqb_true in N. rewrite N in HB, HS. split; assumption.
  - intros E. apply neqb_false in E. rewrite E in HB, HS. split; assumption.
  - exists db, priv. split; [exact HI |]. split; assumption.
Qed.

(** X11. The two refusals on branches.  A run without configured current
    branch in a CI that reports none exits with code 1 and
    ["current branch not found"].  A run with a maintained version on the
    default branch that the provider reports exits with code 1 and
    ["maintained version not allowed on default branch"].  Both leave
    nothing behind, and neither looks at the tags. *)
Theorem branch_refusals (env : Env) (cf : Config) (rp : Repository)
        (defaultBranch : string) (isPrivate : bool) :
  NewConfig env = Ok cf ->
  newRepository env cf (NewCI env) = Ok rp ->
  GetInfo rp = Return (Ok (defaultBranch, isPrivate)) ->
  (branchOf cf (NewCI env) = "" ->
   run env = (Exit 1 "current branch not found", []))
  /\ (MaintainedVersion (BetaRelease cf) <> "" ->
      branchOf cf (NewCI env) <> "" ->
      branchOf cf (NewCI env) = defaultBranch ->
      run env = (Exit 1 "maintained version not allowed on default branch", [])).
Proof.
  intros HC HR HI. unfold run, cliHandler, setup, branchOf.
  split.
  - intros HB. unfold bind at 1 2. rewrite HC. simpl.
    unfold bind at 1. rewrite HR. simpl.
    unfold bind at 1. unfold lift at 1. rewrite HI.
    unfold bind at 1. simpl. unfold bind at 1.
    rewrite HB. reflexivity.
  - intros HM HB HD. unfold bind at 1 2. rewrite HC. simpl.
    unfold bind at 1. rewrite HR. simpl.
    unfold bind at 1. unfold lift at 1. rewrite HI.
    unfold bind at 1. simpl. unfold bind at 1.
    apply String.eqb_neq in HB. rewrite HB. simpl.
    unfold bind at 1.
    apply neqb_true in HM. rewrite HM, HD, String.eqb_refl. reflexivity.
Qed.

Lemma planOf_inv (env : Env) (p : Plan) :
  planOf env = Some p ->
  setup env [] = (Return (context p), [])
  /\ resolve env (context p) [] = (Return p, []).
Proof.
  unfold planOf.
  destruct (setup env []) as [o t] eqn:S.
  pose proof (setup_trace _ _ _ _ S) as ->.
  destruct o as [ctx | c e | msg |]; try discriminate.
  destruct (resolve env ctx []) as [o t] eqn:R.
  pose proof (resolve_trace _ _ _ _ _ R) as ->.
  destruct o as [q | c e | msg |]; try discriminate.
  intros H. inversion H. subst q.
  destruct (resolve_plan _ _ _ _ _ R) as (E & _). subst ctx.
  split; [reflexivity | exact R].
Qed.

(** X12. A dry run creates nothing: with the dry flag set no run succeeds
    and no run leaves anything behind, whatever the provider, the CI and
    the commits are; and a dry run that gets as far as the new version
    exits with code 65 and ["DRY RUN: no release was created"]. *)
Theorem dry_run (env : Env) (cf : Config) :
  NewConfig env = Ok cf ->
  Dry cf = true ->
  failed (fst (run env)) = true
  /\ snd (run env) = []
  /\ (forall ctx t cs,
        setup env [] = (Return ctx, t) ->
        Strings.Contains (MaintainedVersion (BetaRelease (conf ctx))) "-"
        && String.eqb (Semver.Prerelease (Version (release ctx))) "" = false ->
        GetCommits (repository ctx) (currentSha ctx) (Pkgname (conf ctx))
        = Return (Ok cs) ->
        run env = (Exit 65 "DRY RUN: no release was created", [])).
Proof.
  intros HC HD.
  assert (N : planOf env = None).
  { destruct (planOf env) as [p |] eqn:P; [| reflexivity].
    apply planOf_inv in P. destruct P as [S R].
    apply setup_inv in S. destruct S as (HC' & _).
    apply resolve_plan in R. destruct R as (_ & _ & _ & HD').
    rewrite HC in HC'. inversion HC'. subst cf. congruence. }
  destruct (run_without_plan env N) as [F T].
  split; [exact F |]. split; [exact T |].
  intros ctx t cs S HP HG.
  pose proof (setup_trace _ _ _ _ S) as ->.
  assert (E : conf ctx = cf).
  { apply setup_inv in S. destruct S as (HC' & _). congruence. }
  unfold run, cliHandler. unfold bind at 1. rewrite S.
  unfold bind at 1. unfold resolve.
  unfold bind at 1. rewrite HP. simpl.
  unfold bind at 1. unfold lift at 1. rewrite HG.
  unfold bind at 1. simpl. unfold bind at 1.
  rewrite E, HD. reflexivity.
Qed.

(** X13. After its first part a run stops before the changelog only for
    three reasons: the pre-release check, an error of the listing of the
    commits, which is its error with code 1, and the dry flag.  In
    particular commits without any change do not stop it: whatever
    [semrel.GetNewVersion] answers, the run has a plan with the commits as
    fetched and goes on to publish. *)
Theorem resolve_outcomes (env : Env) (ctx : Context) (t : list Event) :
  setup env [] = (Return ctx, t) ->
  Strings.Contains (MaintainedVersion (BetaRelease (conf ctx))) "-"
  && String.eqb (Semver.Prerelease (Version (release ctx))) "" = false ->
  (forall e,
     GetCommits (repository ctx) (currentSha ctx) (Pkgname (conf ctx))
     = Return (Err e) ->
     run env = (Exit 1 e, []))
  /\ (forall cs,
        GetCommits (repository ctx) (currentSha ctx) (Pkgname (conf ctx))
        = Return (Ok cs) ->
        Dry (conf ctx) = false ->
        planOf env
        = Some (mkPlan ctx cs (newVersion env (conf ctx) cs (release ctx)))
        /\ run env
           = bind (prepare env (mkPlan ctx cs
                                   (newVersion env (conf ctx) cs (release ctx))))
                  (fun x => match x with (changelog, SHA) =>
                     deliver env (mkPlan ctx cs
                                    (newVersion env (conf ctx) cs (release ctx)))
                             changelog SHA end) []).
Proof.
  intros S HP. pose proof (setup_trace _ _ _ _ S) as ->. split.
  - intros e HG. unfold run, cliHandler. unfold bind at 1. rewrite S.
    unfold bind at 1. unfold resolve.
    unfold bind at 1. rewrite HP. simpl.
    unfold bind at 1. unfold lift at 1. rewrite HG. reflexivity.
  - intros cs HG HD.
    assert (R : resolve env ctx []
                = (Return (mkPlan ctx cs
                             (newVersion env (conf ctx) cs (release ctx))), [])).
    { unfold resolve. unfold bind at 1. rewrite HP. simpl.
      unfold bind at 1. unfold lift at 1. rewrite HG.
      unfold bind at 1. simpl. unfold bind at 1. rewrite HD. reflexivity. }
    assert (P : planOf env
                = Some (mkPlan ctx cs
                          (newVersion env (conf ctx) cs (release ctx)))).
    { unfold planOf. rewrite S, R. reflexivity. }
    split; [exact P |]. apply run_with_plan. exact P.
Qed.

(** ** The command: exit codes *)

Lemma bind_Exit_inv {A B} (m : M A) (k : A -> M B) (t t' : list Event)
      (c : Z) (e : error) :
  bind m k t = (Exit c e, t') ->
  m t = (Exit c e, t')
  \/ exists a t1, m t = (Return a, t1) /\ k a t1 = (Exit c e, t').
Proof.
  unfold bind. destruct (m t) as [[a | c' e' | msg |] t1]; intros H;
    try discriminate.
  - right. exists a, t1. split; [reflexivity | exact H].
  - left. inversion H. reflexivity.
Qed.

Lemma orExit_Exit_inv {A} (r : result A) (code : Z) (t t' : list Event)
      (c : Z) (e : error) :
  orExit r code t = (Exit c e, t') -> c = code /\ r = Err e.
Proof.
  destruct r; simpl; unfold ret, exit, lift; intros H; inversion H; auto.
Qed.

Lemma unless_Exit_inv (b : bool) (code : Z) (e0 : error) (t t' : list Event)
      (c : Z) (e : error) :
  (if b then exit code e0 else ret tt) t = (Exit c e, t') ->
  c = code /\ e = e0 /\ b = true.
Proof.
  destruct b; unfold exit, lift, ret; intros H; inversion H; auto.
Qed.

Lemma pages_no_exit (env : Env) (r : GitHub.GitHubRepository)
      (vrange : string) (re : option Regexp) (pkg_name hotfix : string)
      (c : Z) (e : error) :
  forall (n : nat) (page : Z) (all : Releases),
    GitHub.pages env r vrange re pkg_name hotfix n page all <> Exit c e.
Proof.
  induction n as [| n IH]; intros page all; simpl; [discriminate |].
  destruct (Git_ListRefs _ _ _ page) as [[refs resp] err].
  destruct (match resp with Some rs => (StatusCode rs =? 404)%Z | None => false end);
    [discriminate |].
  destruct err; [discriminate |].
  destruct resp as [rs |]; [| discriminate].
  destruct (NextPage rs =? 0)%Z; [discriminate | apply IH].
Qed.

Lemma newRepository_github (env : Env) (cf : Config) (ci : CI) (rp : Repository) :
  GitLab cf = false ->
  newRepository env cf ci = Ok rp ->
  exists r,
    GitHub.NewGitHubRepository env (GheHost cf) (Slug cf) (Token cf) = Ok r
    /\ rp = GitHub.asRepository env r.
Proof.
  intros G. unfold newRepository. rewrite G.
  destruct (GitHub.NewGitHubRepository env _ _ _) as [r | e]; [| discriminate].
  intros H. inversion H. exists r. split; reflexivity.
Qed.

Lemma setup_exit (env : Env) (cf : Config) (t t' : list Event)
      (c : Z) (e : error) :
  NewConfig env = Ok cf ->
  GitLab cf = false ->
  setup env t = (Exit c e, t') ->
  c = 1%Z
  \/ (c = 66%Z /\ Noci cf = false
      /\ exists config, RunCondition (NewCI env) config = Some e).
Proof.
  intros HC HG. unfold setup. intros H.
  apply bind_Exit_inv in H. destruct H as [H | (cf' & t1 & H1 & H)];
    [apply orExit_Exit_inv in H; left; apply H |].
  apply orExit_Return_inv in H1. destruct H1 as [HC' ->].
  rewrite HC in HC'. inversion HC'. subst cf'. clear HC'.
  apply bind_Exit_inv in H. destruct H as [H | (rp & t1 & H1 & H)];
    [apply orExit_Exit_inv in H; left; apply H |].
  apply orExit_Return_inv in H1. destruct H1 as [HR ->].
  destruct (newRepository_github env cf (NewCI env) rp HG HR) as (r & _ & ->).
  apply bind_Exit_inv in H. destruct H as [H | (info & t1 & H1 & H)];
    [discriminate H |].
  apply lift_Return_inv in H1. destruct H1 as [_ ->].
  apply bind_Exit_inv in H. destruct H as [H | ([db priv] & t1 & H1 & H)];
    [apply orExit_Exit_inv in H; left; apply H |].
  apply orExit_Return_inv in H1. destruct H1 as [_ ->].
  apply bind_Exit_inv in H. destruct H as [H | (u1 & t1 & H1 & H)];
    [apply unless_Exit_inv in H; left; apply H |].
  apply unless_Return_inv in H1. destruct H1 as [_ ->].
  apply bind_Exit_inv in H. destruct H as [H | (u2 & t1 & H1 & H)];
    [apply unless_Exit_inv in H; left; apply H |].
  apply unless_Return_inv in H1. destruct H1 as [_ ->].
  apply bind_Exit_inv in H. destruct H as [H | (u3 & t1 & H1 & H)].
  { right. destruct (Noci cf); simpl in H; [discriminate H |].
    destruct (RunCondition (NewCI env) _) as [e' |] eqn:R; [| discriminate H].
    inversion H. subst. split; [reflexivity |]. split; [reflexivity |].
    eexists. exact R. }
  clear H1.
  apply bind_Exit_inv in H. destruct H as [H | (re & t2 & H1 & H)].
  { unfold matchRegex in H. destruct (Strings.neqb _ _); [| discriminate H].
    destruct (MustCompile env _); discriminate H. }
  clear H1.
  apply bind_Exit_inv in H. destruct H as [H | (latest & t3 & H1 & H)].
  { unfold lift in H. inversion H as [[HX HT]]. simpl in HX.
    unfold GitHub.GetLatestRelease in HX.
    exfalso. eapply pages_no_exit. exact HX. }
  clear H1.
  apply bind_Exit_inv in H. destruct H as [H | (rel & t4 & H1 & H)];
    [apply orExit_Exit_inv in H; left; apply H |].
  discriminate H.
Qed.

Lemma resolve_exit (env : Env) (ctx : Context) (r : GitHub.GitHubRepository)
      (t t' : list Event) (c : Z) (e : error) :
  repository ctx = GitHub.asRepository env r ->
  resolve env ctx t = (Exit c e, t') ->
  c = 1%Z \/ (c = 65%Z /\ e = "DRY RUN: no release was created").
Proof.
  intros HR. unfold resolve. rewrite HR. intros H.
  apply bind_Exit_inv in H. destruct H as [H | (u & t1 & _ & H)];
    [apply unless_Exit_inv in H; left; apply H |].
  apply bind_Exit_inv in H. destruct H as [H | (fetched & t2 & _ & H)];
    [discriminate H |].
  apply bind_Exit_inv in H. destruct H as [H | (cs & t3 & _ & H)];
    [apply orExit_Exit_inv in H; left; apply H |].
  apply bind_Exit_inv in H. destruct H as [H | (u' & t4 & _ & H)];
    [apply unless_Exit_inv in H; right; split; apply H |].
  discriminate H.
Qed.

Lemma prepare_exit (env : Env) (p : Plan) (t t' : list Event)
      (c : Z) (e : error) :
  prepare env p t = (Exit c e, t') ->
  (c = 1%Z /\ t' = t)
  \/ (c = 65%Z /\ e = "Commit not found"
      /\ t' = (t ++ changelogWritten env p)%list).
Proof.
  destruct (changelogPasses_dec env p) as [HC | HC].
  - rewrite (prepare_passes env p t HC).
    destruct (snd (anchor _ _)); intros H; inversion H. right. auto.
  - destruct (prepare_blocked env p t HC) as [e' ->].
    intros H; inversion H. left. auto.
Qed.

Lemma writeFile_exit (env : Env) (path content : string) (t t' : list Event)
      (c : Z) (e : error) :
  writeFile env path content t = (Exit c e, t') -> c = 1%Z.
Proof.
  unfold writeFile. destruct (ioutilWriteFile env path content);
    unfold exit, lift, emit; intros H; inversion H; reflexivity.
Qed.

Lemma finish_exit (env : Env) (p : Plan) (t t' : list Event) (c : Z) (e : error) :
  finish env p t = (Exit c e, t') -> c = 1%Z.
Proof.
  unfold finish. intros H.
  apply bind_Exit_inv in H. destruct H as [H | (u & t1 & _ & H)].
  { destruct (Ghr _); [apply writeFile_exit in H; exact H | discriminate H]. }
  apply bind_Exit_inv in H. destruct H as [H | (u' & t2 & _ & H)].
  { destruct (Vf _); [apply writeFile_exit in H; exact H | discriminate H]. }
  apply bind_Exit_inv in H. destruct H as [H | (u'' & t3 & _ & H)].
  { destruct (Strings.neqb _ _); [| discriminate H].
    destruct (updateApply env _ _); unfold exit, lift, emit in H;
      inversion H; reflexivity. }
  discriminate H.
Qed.

Lemma CreateRelease_returns
      (r : GitHub.GitHubRepository) (changelog : string)
      (newVersion : Semver.Version) (prerelease : bool)
      (branch sha currentSHA pkgName : string) (t : list Event) :
  exists err,
    fst (GitHub.CreateRelease r changelog newVersion prerelease branch sha
                              currentSHA pkgName t) = Return err.
Proof.
  unfold GitHub.CreateRelease, GitHub.createRef, GitHub.createRelease,
    bind, emit, ret.
  destruct (Git_CreateRef _ _ _ _ currentSHA); [eexists; reflexivity |].
  destruct (Repositories_CreateRelease _ _ _ _); [eexists; reflexivity |].
  simpl. destruct (String.eqb branch "master"); [| eexists; reflexivity].
  destruct (Git_CreateRef _ _ _ _ _); eexists; reflexivity.
Qed.

Lemma deliver_exit (env : Env) (p : Plan) (changelog sha : string)
      (r : GitHub.GitHubRepository) (t t' : list Event) (c : Z) (e : error) :
  repository (context p) = GitHub.asRepository env r ->
  deliver env p changelog sha t = (Exit c e, t') -> c = 1%Z.
Proof.
  intros HR. rewrite (deliver_github env p changelog sha r t HR).
  destruct (CreateRelease_returns r changelog (newVer p)
              (Prerelease (conf (context p))) (currentBranch (context p))
              (currentSha (context p)) sha (Pkgname (conf (context p))) t)
    as [err E].
  destruct (GitHub.CreateRelease _ _ _ _ _ _ _ _ t) as [o t1].
  simpl in E. subst o. destruct err as [e' |].
  - intros H; inversion H; reflexivity.
  - apply finish_exit.
Qed.

(** ** The command: how a run ends *)

Lemma bind_crash_inv {A B} (m : M A) (k : A -> M B) (t t' : list Event)
      (o : Outcome B) (c : option string) :
  bind m k t = (o, t') ->
  crashOf o = Some c ->
  (exists o1, m t = (o1, t') /\ crashOf o1 = Some c)
  \/ exists a t1, m t = (Return a, t1) /\ k a t1 = (o, t').
Proof.
  unfold bind. destruct (m t) as [[a | c' e' | msg |] t1]; intros H C.
  - right. exists a, t1. split; [reflexivity | exact H].
  - inversion H. subst. discriminate C.
  - inversion H. subst. left. exists (Panic msg). split; [reflexivity | exact C].
  - inversion H. subst. left. exists OutOfFuel. split; [reflexivity | exact C].
Qed.

Lemma orExit_no_crash {A} (r : result A) (code : Z) (t t' : list Event)
      (o : Outcome A) :
  orExit r code t = (o, t') -> crashOf o = None.
Proof.
  destruct r; simpl; unfold ret, exit, lift; intros H; inversion H; reflexivity.
Qed.

Lemma unless_no_crash (b : bool) (code : Z) (e : error) (t t' : list Event)
      (o : Outcome unit) :
  (if b then exit code e else ret tt) t = (o, t') -> crashOf o = None.
Proof.
  destruct b; unfold exit, lift, ret; intros H; inversion H; reflexivity.
Qed.

Lemma writeFile_no_crash (env : Env) (path content : string)
      (t t' : list Event) (o : Outcome unit) :
  writeFile env path content t = (o, t') -> crashOf o = None.
Proof.
  unfold writeFile. destruct (ioutilWriteFile env path content);
    unfold exit, lift, emit; intros H; inversion H; reflexivity.
Qed.

(** The selector panics only on a listing that answers with neither a
    response nor an error. *)
Lemma pages_panic (env : Env) (r : GitHub.GitHubRepository)
      (vrange : string) (re : option Regexp) (pkg_name hotfix : string)
      (msg : string) :
  forall (n : nat) (page : Z) (all : Releases),
    GitHub.pages env r vrange re pkg_name hotfix n page all = Panic msg ->
    exists page' refs,
      Git_ListRefs (GitHub.client r) (GitHub.owner r) (GitHub.repo r) page'
      = (refs, None, None).
Proof.
  induction n as [| n IH]; intros page all; simpl; [discriminate |].
  destruct (Git_ListRefs _ _ _ page) as [[refs resp] err] eqn:L.
  destruct (match resp with Some rs => (StatusCode rs =? 404)%Z | None => false end);
    [discriminate |].
  destruct err; [discriminate |].
  destruct resp as [rs |]; [| intros _; exists page, refs; exact L].
  destruct (NextPage rs =? 0)%Z; [discriminate | apply IH].
Qed.

(** The first part of a run ends without return or exit only in the
    compilation of the tag filter or in the selector. *)
Lemma setup_crash (env : Env) (cf : Config) (t t' : list Event)
      (o : Outcome Context) (c : option string) :
  NewConfig env = Ok cf ->
  GitLab cf = false ->
  setup env t = (o, t') ->
  crashOf o = Some c ->
  (Strings.TrimSpace (Match cf) <> ""
   /\ MustCompile env ("^" ++ Strings.TrimSpace (Match cf)) = None
   /\ exists msg, c = Some msg)
  \/ exists r re,
       GitHub.NewGitHubRepository env (GheHost cf) (Slug cf) (Token cf) = Ok r
       /\ crashOf (GitHub.GetLatestRelease env r
                     (MaintainedVersion (BetaRelease cf)) re (Pkgname cf)
                     (lastVersionHotfix cf)) = Some c.
Proof.
  intros HC HG. unfold setup. intros H C.
  apply (fun H => bind_crash_inv _ _ _ _ _ _ H C) in H.
  destruct H as [(o1 & H & C1) | (cf' & t1 & H1 & H)];
    [apply orExit_no_crash in H; rewrite H in C1; discriminate C1 |].
  apply orExit_Return_inv in H1. destruct H1 as [HC' ->].
  rewrite HC in HC'. inversion HC'. subst cf'. clear HC'.
  apply (fun H => bind_crash_inv _ _ _ _ _ _ H C) in H.
  destruct H as [(o1 & H & C1) | (rp & t1 & H1 & H)];
    [apply orExit_no_crash in H; rewrite H in C1; discriminate C1 |].
  apply orExit_Return_inv in H1. destruct H1 as [HR ->].
  destruct (newRepository_github env cf (NewCI env) rp HG HR) as (r & HN & ->).
  apply (fun H => bind_crash_inv _ _ _ _ _ _ H C) in H.
  destruct H as [(o1 & H & C1) | (info & t1 & H1 & H)];
    [unfold lift in H; inversion H; subst o1; discriminate C1 |].
  apply lift_Return_inv in H1. destruct H1 as [_ ->].
  apply (fun H => bind_crash_inv _ _ _ _ _ _ H C) in H.
  destruct H as [(o1 & H & C1) | ([db priv] & t1 & H1 & H)];
    [apply orExit_no_crash in H; rewrite H in C1; discriminate C1 |].
  apply orExit_Return_inv in H1. destruct H1 as [_ ->].
  apply (fun H => bind_crash_inv _ _ _ _ _ _ H C) in H.
  destruct H as [(o1 & H & C1) | (u1 & t1 & H1 & H)];
    [apply unless_no_crash in H; rewrite H in C1; discriminate C1 |].
  apply unless_Return_inv in H1. destruct H1 as [_ ->].
  apply (fun H => bind_crash_inv _ _ _ _ _ _ H C) in H.
  destruct H as [(o1 & H & C1) | (u2 & t1 & H1 & H)];
    [apply unless_no_crash in H; rewrite H in C1; discriminate C1 |].
  apply unless_Return_inv in H1. destruct H1 as [_ ->].
  apply (fun H => bind_crash_inv _ _ _ _ _ _ H C) in H.
  destruct H as [(o1 & H & C1) | (u3 & t1 & H1 & H)].
  { exfalso. destruct (negb (Noci cf)).
    - destruct (RunCondition (NewCI env) _); simpl in H;
        unfold exit, lift, ret in H; inversion H; subst o1; discriminate C1.
    - unfold ret in H. inversion H. subst o1. discriminate C1. }
  clear H1.
  apply (fun H => bind_crash_inv _ _ _ _ _ _ H C) in H.
  destruct H as [(o1 & H & C1) | (re & t2 & H1 & H)].
  { left. unfold matchRegex in H.
    destruct (Strings.neqb (Strings.TrimSpace (Match cf)) "") eqn:N;
      [| unfold ret in H; inversion H; subst o1; discriminate C1].
    destruct (MustCompile env _) eqn:MC;
      [unfold ret in H; inversion H; subst o1; discriminate C1 |].
    unfold lift in H. inversion H. subst o1. simpl in C1. inversion C1.
    split; [apply neqb_true; exact N |]. split; [reflexivity |].
    eexists. reflexivity. }
  clear H1.
  apply (fun H => bind_crash_inv _ _ _ _ _ _ H C) in H.
  destruct H as [(o1 & H & C1) | (latest & t3 & H1 & H)].
  { right. exists r, re. split; [exact HN |].
    unfold lift in H. inversion H. subst o1. exact C1. }
  clear H1.
  apply (fun H => bind_crash_inv _ _ _ _ _ _ H C) in H.
  destruct H as [(o1 & H & C1) | (rel & t4 & H1 & H)];
    [apply orExit_no_crash in H; rewrite H in C1; discriminate C1 |].
  unfold ret in H. inversion H. subst o. discriminate C.
Qed.

Lemma resolve_no_crash (env : Env) (ctx : Context) (r : GitHub.GitHubRepository)
      (t t' : list Event) (o : Outcome Plan) :
  repository ctx = GitHub.asRepository env r ->
  resolve env ctx t = (o, t') -> crashOf o = None.
Proof.
  intros HR. unfold resolve. rewrite HR. intros H.
  destruct (crashOf o) as [c |] eqn:C; [exfalso | reflexivity].
  apply (fun H => bind_crash_inv _ _ _ _ _ _ H C) in H.
  destruct H as [(o1 & H & C1) | (u & t1 & _ & H)];
    [apply unless_no_crash in H; rewrite H in C1; discriminate C1 |].
  apply (fun H => bind_crash_inv _ _ _ _ _ _ H C) in H.
  destruct H as [(o1 & H & C1) | (fetched & t2 & _ & H)];
    [unfold lift in H; inversion H; subst o1; discriminate C1 |].
  apply (fun H => bind_crash_inv _ _ _ _ _ _ H C) in H.
  destruct H as [(o1 & H & C1) | (cs & t3 & _ & H)];
    [apply orExit_no_crash in H; rewrite H in C1; discriminate C1 |].
  apply (fun H => bind_crash_inv _ _ _ _ _ _ H C) in H.
  destruct H as [(o1 & H & C1) | (u' & t4 & _ & H)];
    [apply unless_no_crash in H; rewrite H in C1; discriminate C1 |].
  unfold ret in H. inversion H. subst o. discriminate C.
Qed.

Lemma prepare_no_crash (env : Env) (p : Plan) (t t' : list Event)
      (o : Outcome (string * string)) :
  prepare env p t = (o, t') -> crashOf o = None.
Proof.
  destruct (changelogPasses_dec env p) as [HC | HC].
  - rewrite (prepare_passes env p t HC).
    destruct (snd (anchor _ _)); intros H; inversion H; reflexivity.
  - destruct (prepare_blocked env p t HC) as [e' ->].
    intros H; inversion H. reflexivity.
Qed.

Lemma finish_no_crash (env : Env) (p : Plan) (t t' : list Event)
      (o : Outcome unit) :
  finish env p t = (o, t') -> crashOf o = None.
Proof.
  unfold finish. intros H.
  destruct (crashOf o) as [c |] eqn:C; [exfalso | reflexivity].
  apply (fun H => bind_crash_inv _ _ _ _ _ _ H C) in H.
  destruct H as [(o1 & H & C1) | (u & t1 & _ & H)].
  { destruct (Ghr _);
      [apply writeFile_no_crash in H; rewrite H in C1; discriminate C1 |].
    unfold ret in H. inversion H. subst o1. discriminate C1. }
  apply (fun H => bind_crash_inv _ _ _ _ _ _ H C) in H.
  destruct H as [(o1 & H & C1) | (u' & t2 & _ & H)].
  { destruct (Vf _);
      [apply writeFile_no_crash in H; rewrite H in C1; discriminate C1 |].
    unfold ret in H. inversion H. subst o1. discriminate C1. }
  apply (fun H => bind_crash_inv _ _ _ _ _ _ H C) in H.
  destruct H as [(o1 & H & C1) | (u'' & t3 & _ & H)].
  { destruct (Strings.neqb _ _);
      [| unfold ret in H; inversion H; subst o1; discriminate C1].
    destruct (updateApply env _ _); unfold exit, lift, emit in H;
      inversion H; subst o1; discriminate C1. }
  unfold ret in H. inversion H. subst o. discriminate C.
Qed.

Lemma deliver_no_crash (env : Env) (p : Plan) (changelog sha : string)
      (r : GitHub.GitHubRepository) (t t' : list Event) (o : Outcome unit) :
  repository (context p) = GitHub.asRepository env r ->
  deliver env p changelog sha t = (o, t') -> crashOf o = None.
Proof.
  intros HR. rewrite (deliver_github env p changelog sha r t HR).
  destruct (CreateRelease_returns r changelog (newVer p)
              (Prerelease (conf (context p))) (currentBranch (context p))
              (currentSha (context p)) sha (Pkgname (conf (context p))) t)
    as [err E].
  destruct (GitHub.CreateRelease _ _ _ _ _ _ _ _ t) as [o' t1].
  simpl in E. subst o'. destruct err as [e' |].
  - intros H; inversion H; reflexivity.
  - apply finish_no_crash.
Qed.

(** A run of the command on GitHub that ends without return or exit has
    done nothing, and ended in the compilation of the tag filter or in the
    selector. *)
Lemma run_crash (env : Env) (cf : Config) (c : option string) :
  NewConfig env = Ok cf ->
  GitLab cf = false ->
  crashOf (fst (run env)) = Some c ->
  snd (run env) = []
  /\ ((Strings.TrimSpace (Match cf) <> ""
       /\ MustCompile env ("^" ++ Strings.TrimSpace (Match cf)) = None
       /\ exists msg, c = Some msg)
      \/ exists r re,
           GitHub.NewGitHubRepository env (GheHost cf) (Slug cf) (Token cf) = Ok r
           /\ crashOf (GitHub.GetLatestRelease env r
                         (MaintainedVersion (BetaRelease cf)) re (Pkgname cf)
                         (lastVersionHotfix cf)) = Some c).
Proof.
  intros HC HG. unfold run, cliHandler, bind.
  destruct (setup env []) as [o t] eqn:S.
  pose proof (setup_trace _ _ _ _ S) as ->.
  destruct o as [ctx | c' e' | msg |]; cbn [fst snd crashOf]; try discriminate.
  - pose proof (setup_inv _ _ _ _ S) as (HC' & HR & _).
    rewrite HC in HC'. inversion HC' as [E].
    rewrite <- E in HR.
    destruct (newRepository_github env cf (NewCI env) _ HG HR) as (r & _ & Hrepo).
    destruct (resolve env ctx []) as [o t] eqn:R.
    pose proof (resolve_no_crash env ctx r _ _ _ Hrepo R) as NR.
    destruct o as [p | c' e' | msg |]; try discriminate NR;
      cbn [fst snd crashOf]; try discriminate.
    destruct (resolve_plan _ _ _ _ _ R) as (Hctx & _).
    destruct (prepare env p t) as [o t'] eqn:P.
    pose proof (prepare_no_crash env p _ _ _ P) as NP.
    destruct o as [[changelog sha] | c' e' | msg |]; try discriminate NP;
      cbn [fst snd crashOf]; try discriminate.
    destruct (deliver env p changelog sha t') as [o' t''] eqn:D.
    cbn [fst snd].
    assert (ND : crashOf o' = None).
    { apply (deliver_no_crash env p changelog sha r t' t'' o'); [| exact D].
      rewrite Hctx. exact Hrepo. }
    rewrite ND. discriminate.
  - intros C. split; [reflexivity |].
    apply (setup_crash env cf [] [] (Panic msg) c HC HG S C).
  - intros C. split; [reflexivity |].
    apply (setup_crash env cf [] [] OutOfFuel c HC HG S C).
Qed.

(** The exits of a run on GitHub. *)
Lemma run_exit (env : Env) (cf : Config) (c : Z) (e : error) :
  NewConfig env = Ok cf ->
  GitLab cf = false ->
  fst (run env) = Exit c e ->
  c = 1%Z
  \/ (c = 65%Z /\ e = "DRY RUN: no release was created" /\ snd (run env) = [])
  \/ (c = 65%Z /\ e = "Commit not found"
      /\ Forall (fun ev => isProviderEvent ev = false) (snd (run env)))
  \/ (c = 66%Z /\ Noci cf = false /\ snd (run env) = []
      /\ exists config, RunCondition (NewCI env) config = Some e).
Proof.
  intros HC HG. unfold run, cliHandler, bind.
  destruct (setup env []) as [o t] eqn:S.
  pose proof (setup_trace _ _ _ _ S) as ->.
  destruct o as [ctx | c' e' | msg |]; simpl; try discriminate.
  - pose proof (setup_inv _ _ _ _ S) as (HC' & HR & _).
    rewrite HC in HC'. inversion HC' as [E].
    rewrite <- E in HR.
    destruct (newRepository_github env cf (NewCI env) _ HG HR) as (r & _ & Hrepo).
    destruct (resolve env ctx []) as [o t] eqn:R.
    pose proof (resolve_trace _ _ _ _ _ R) as ->.
    destruct o as [p | c' e' | msg |]; simpl; try discriminate.
    + destruct (resolve_plan _ _ _ _ _ R) as (Hctx & _).
      destruct (prepare env p []) as [o t] eqn:P.
      destruct o as [[changelog sha] | c' e' | msg |]; simpl; try discriminate.
      * destruct (deliver env p changelog sha t) as [o' t'] eqn:D. simpl.
        intros H. subst o'. left.
        apply (deliver_exit env p changelog sha r t t' c e); [| exact D].
        rewrite Hctx. exact Hrepo.
      * intros H. inversion H. subst c' e'.
        apply prepare_exit in P. destruct P as [[-> _] | (-> & -> & ->)];
          [left; reflexivity |].
        right. right. left. split; [reflexivity |]. split; [reflexivity |].
        simpl. apply changelogWritten_no_provider.
    + intros H. inversion H. subst c' e'.
      apply (resolve_exit env ctx r _ _ _ _ Hrepo) in R.
      destruct R as [-> | [-> ->]]; [left; reflexivity |].
      right. left. auto.
  - intros H. inversion H. subst c' e'.
    apply (setup_exit env cf _ _ _ _ HC HG) in S.
    destruct S as [-> | (-> & N & X)]; [left; reflexivity |].
    right. right. right. auto.
Qed.

(** X14. How a run on GitHub ends, the calls into other packages
    returning.  It returns; or it exits with code 1, 65 or 66; or it
    panics, which ends the process with status 2 and not with one of these
    codes; or the selector finds no last page of tags.  Code 66 is the
    refusal of the CI condition, with its error, and nothing was done.
    Code 65 is the dry run, and nothing was done, or the anchor commit that
    was not found, and nothing was created at the provider.  Every other
    error, of the provider, of the file system or of the update hook, exits
    with code 1.  A panic comes from a tag filter that does not compile or
    from a listing of the tags that answers with neither a response nor an
    error; then, and when the pages never end, nothing was done. *)
Theorem exit_codes (env : Env) (cf : Config) :
  NewConfig env = Ok cf ->
  GitLab cf = false ->
  (forall c e,
     fst (run env) = Exit c e ->
     c = 1%Z
     \/ (c = 65%Z /\ e = "DRY RUN: no release was created" /\ snd (run env) = [])
     \/ (c = 65%Z /\ e = "Commit not found"
         /\ Forall (fun ev => isProviderEvent ev = false) (snd (run env)))
     \/ (c = 66%Z /\ Noci cf = false /\ snd (run env) = []
         /\ exists config, RunCondition (NewCI env) config = Some e))
  /\ (forall msg,
        fst (run env) = Panic msg ->
        snd (run env) = []
        /\ ((Strings.TrimSpace (Match cf) <> ""
             /\ MustCompile env ("^" ++ Strings.TrimSpace (Match cf)) = None)
            \/ exists r page refs,
                 GitHub.NewGitHubRepository env (GheHost cf) (Slug cf) (Token cf)
                 = Ok r
                 /\ Git_ListRefs (GitHub.client r) (GitHub.owner r)
                                 (GitHub.repo r) page
                    = (refs, None, None)))
  /\ (fst (run env) = OutOfFuel ->
      snd (run env) = []
      /\ exists r re,
           GitHub.NewGitHubRepository env (GheHost cf) (Slug cf) (Token cf) = Ok r
           /\ GitHub.GetLatestRelease env r
                (MaintainedVersion (BetaRelease cf)) re (Pkgname cf)
                (lastVersionHotfix cf) = OutOfFuel)
  /\ (Strings.TrimSpace (Match cf) <> "" ->
      MustCompile env ("^" ++ Strings.TrimSpace (Match cf)) = None ->
      (forall config, RunCondition (NewCI env) config = None) ->
      branchOf cf (NewCI env) <> "" ->
      MaintainedVersion (BetaRelease cf) = "" ->
      forall r info,
        GitHub.NewGitHubRepository env (GheHost cf) (Slug cf) (Token cf) = Ok r ->
        GitHub.GetInfo env r = Ok info ->
        exists msg, run env = (Panic msg, [])).
Proof.
  intros HC HG.
  split; [intros c e; apply (run_exit env cf c e HC HG) |].
  split.
  { intros msg H.
    destruct (run_crash env cf (Some msg) HC HG) as [T [F | (r & re & N & L)]].
    - rewrite H. reflexivity.
    - split; [exact T |]. left. split; apply F.
    - split; [exact T |]. right. exists r.
      unfold GitHub.GetLatestRelease in L.
      destruct (GitHub.pages env r _ re _ _ (fuel env) 0 []) as [a | c e | m |] eqn:P;
        try discriminate L.
      simpl in L. inversion L. subst m.
      destruct (pages_panic _ _ _ _ _ _ _ _ _ _ P) as (page & refs & G).
      exists page, refs. split; [exact N | exact G]. }
  split.
  { intros H.
    destruct (run_crash env cf None HC HG) as [T [F | (r & re & N & L)]].
    - rewrite H. reflexivity.
    - destruct F as (_ & _ & msg & F). discriminate F.
    - split; [exact T |]. exists r, re. split; [exact N |].
      destruct (GitHub.GetLatestRelease env r _ re _ _) as [a | c e | m |];
        try discriminate L. reflexivity. }
  intros HN HM HCI HB HMV r [db priv] HR HI.
  apply neqb_true in HN. apply String.eqb_neq in HB. unfold branchOf in HB.
  unfold run, cliHandler, setup, bind, orExit, lift, ret, exit, newRepository,
    matchRegex, exitIfError.
  rewrite HC, HG, HR. cbv beta iota.
  change (GetInfo (GitHub.asRepository env r)) with (Return (GitHub.GetInfo env r)).
  rewrite HI. cbv beta iota. rewrite HB. rewrite HMV.
  change (Strings.neqb "" "") with false. cbv beta iota.
  cbn [andb]. cbv beta iota.
  destruct (negb (Noci cf)); [rewrite HCI |]; unfold lift; cbv beta iota;
    rewrite HN, HM; eexists; reflexivity.
Qed.

(** ** The command: a successful run *)

Lemma writeFile_Return_inv (env : Env) (path content : string)
      (t t' : list Event) (u : unit) :
  writeFile env path content t = (Return u, t') ->
  t' = (t ++ [WriteFile path content])%list.
Proof.
  unfold writeFile. destruct (ioutilWriteFile env path content);
    unfold exit, lift, emit; intros H; inversion H; reflexivity.
Qed.

Lemma finish_success (env : Env) (p : Plan) (t t' : list Event) (u : unit) :
  finish env p t = (Return u, t') -> t' = (t ++ finishEvents p)%list.
Proof.
  unfold finish, finishEvents. intros H.
  apply bind_Return_inv in H. destruct H as (u1 & t1 & H1 & H).
  apply bind_Return_inv in H. destruct H as (u2 & t2 & H2 & H).
  apply bind_Return_inv in H. destruct H as (u3 & t3 & H3 & H).
  unfold ret in H. inversion H. subst t'. clear H.
  assert (E1 : t1 = (t ++ (if Ghr (conf (context p))
                           then [WriteFile ".ghr"
                                   ("-u " ++ Owner (repository (context p))
                                    ++ " -r " ++ Repo (repository (context p))
                                    ++ " v" ++ Semver.String_ (newVer p))]
                           else []))%list).
  { destruct (Ghr _).
    - apply writeFile_Return_inv in H1. exact H1.
    - unfold ret in H1. inversion H1. rewrite app_nil_r. reflexivity. }
  assert (E2 : t2 = (t1 ++ (if Vf (conf (context p))
                            then [WriteFile ".version" (Semver.String_ (newVer p))]
                            else []))%list).
  { destruct (Vf _).
    - apply writeFile_Return_inv in H2. exact H2.
    - unfold ret in H2. inversion H2. rewrite app_nil_r. reflexivity. }
  assert (E3 : t3 = (t2 ++ (if Strings.neqb (Update (conf (context p))) ""
                            then [UpdateApply (Update (conf (context p)))
                                    (Semver.String_ (newVer p))]
                            else []))%list).
  { destruct (Strings.neqb _ _).
    - destruct (updateApply env _ _); unfold exit, lift, emit in H3;
        inversion H3; reflexivity.
    - unfold ret in H3. inversion H3. rewrite app_nil_r. reflexivity. }
  rewrite E3, E2, E1. rewrite <- !app_assoc. reflexivity.
Qed.

(** X15. What a run on GitHub that succeeds has done, in this order and
    nothing else: it wrote the changelog if one is configured; it created
    the tag and the release of the new version at the configured commit
    hash, which is the SHA of a fetched commit; it created the branch of
    the version if the current branch is named ["master"]; it wrote [.ghr]
    and [.version] if asked to, and ran the update hook if one is
    configured. *)
Theorem success_trace (env : Env) (p : Plan) (r : GitHub.GitHubRepository) :
  planOf env = Some p ->
  repository (context p) = GitHub.asRepository env r ->
  fst (run env) = Return tt ->
  let cf := conf (context p) in
  let hash := CommitHash cf in
  let version := Semver.String_ (newVer p) in
  let tag := Pkgname cf ++ "-release-v" ++ version in
  In hash (map SHA (commits p))
  /\ changelogPasses env p
  /\ snd (run env)
     = (changelogWritten env p
        ++ [CreateRef ("refs/tags/" ++ tag) hash;
            CreateReleaseObject tag tag hash
              (GetChangelog env (commits p) (release (context p)) (newVer p))
              (Prerelease cf || Strings.neqb (Semver.Prerelease (newVer p)) "")]
        ++ (if String.eqb (currentBranch (context p)) "master"
            then [CreateRef ("refs/heads/" ++ Pkgname cf ++ "-branch-v" ++ version)
                            hash]
            else [])
        ++ finishEvents p)%list.
Proof.
  intros HP HR HS cf hash version tag.
  rewrite (run_with_plan env p HP) in *.
  destruct (changelogPasses_dec env p) as [HC | HC].
  2:{ unfold bind in HS. destruct (prepare_blocked env p [] HC) as [e E].
      rewrite E in HS. discriminate HS. }
  unfold bind in *. rewrite (prepare_passes env p [] HC) in *.
  rewrite anchor_spec in *. fold cf in HS |- *. fold hash in HS |- *.
  destruct (existsb (fun c => String.eqb (SHA c) hash) (commits p)) eqn:X;
    simpl in HS; [| discriminate HS].
  split; [apply existsb_SHA; exact X |]. split; [exact HC |].
  simpl. simpl in HS.
  rewrite (deliver_github env p _ hash r _ HR) in *.
  destruct (GitHub.CreateRelease r _ (newVer p) (Prerelease (conf (context p)))
              (currentBranch (context p)) (currentSha (context p)) hash
              (Pkgname (conf (context p))) (changelogWritten env p))
    as [o t1] eqn:C.
  destruct o as [[e |] | c e | msg |]; simpl in HS; try discriminate HS.
  apply CreateRelease_trace in C.
  destruct (finish env p t1) as [o t2] eqn:F. simpl in HS. subst o.
  apply finish_success in F. simpl. rewrite F, C.
  rewrite <- !app_assoc. reflexivity.
Qed.

(** ** The suffix of a hotfix branch *)

(** X16. The hotfix suffix of a run.  The release that a run selects is
    the answer of the selector for the suffix of lines 123-126: nothing
    when the configured current branch is the base branch, otherwise what
    [strings.Trim] leaves of the current branch for the cutset
    [<pkg>-branch-v].  That is a set of characters, not a prefix.  For a
    package name of ASCII and a branch [<pkg>-branch-v<version>], as
    release creation names it, the suffix is the version when the first and
    the last byte of the version occur neither in the package name nor in
    ["-branch-v"]; a version whose first byte occurs there is not the
    suffix; and the suffix never starts with a byte of the set. *)
Theorem hotfix_suffix (env : Env) (ctx : Context) (t : list Event) :
  setup env [] = (Return ctx, t) ->
  let cf := conf ctx in
  let cutset := Pkgname cf ++ "-branch-v" in
  (exists re,
     GetLatestRelease (repository ctx) (MaintainedVersion (BetaRelease cf))
                      re (Pkgname cf) (lastVersionHotfix cf)
     = Return (Ok (release ctx)))
  /\ (CurrentBranch cf = BaseBranch cf -> lastVersionHotfix cf = "")
  /\ (CurrentBranch cf <> BaseBranch cf ->
      lastVersionHotfix cf = Strings.Trim (CurrentBranch cf) cutset)
  /\ (Strings.isASCII (Pkgname cf) = true ->
      CurrentBranch cf <> BaseBranch cf ->
      (forall version a z,
         CurrentBranch cf = cutset ++ version ->
         firstByte version = Some a ->
         lastByte version = Some z ->
         (Strings.inCutset a cutset = false ->
          Strings.inCutset z cutset = false ->
          lastVersionHotfix cf = version)
         /\ (Strings.inCutset a cutset = true ->
             lastVersionHotfix cf <> version))
      /\ (forall b,
            firstByte (lastVersionHotfix cf) = Some b ->
            Strings.inCutset b cutset = false)).
Proof.
  intros S cf cutset.
  apply setup_inv in S.
  destruct S as (_ & _ & _ & _ & _ & db & priv & re & _ & _ & _ & _ & L).
  split; [exists re; exact L |].
  split.
  { intros E. unfold lastVersionHotfix. apply neqb_false in E. fold cf in E.
    rewrite E. reflexivity. }
  split.
  { intros N. unfold lastVersionHotfix. apply neqb_true in N. fold cf in N.
    rewrite N. reflexivity. }
  intros A N.
  assert (AC : Strings.isASCII cutset = true).
  { unfold cutset. rewrite isASCII_app, A. reflexivity. }
  assert (E : lastVersionHotfix cf
              = Strings.trimLeftASCII
                  (Strings.trimRightASCII (CurrentBranch cf) cutset) cutset).
  { unfold lastVersionHotfix. apply neqb_true in N. rewrite N.
    apply Trim_ASCII. exact AC. }
  assert (F : forall b, firstByte (lastVersionHotfix cf) = Some b ->
                        Strings.inCutset b cutset = false).
  { intros b. rewrite E. apply trimLeftASCII_starts. }
  split; [| exact F].
  intros version a z B Ha Hz. split.
  - intros Fa Fz. rewrite E, B.
    rewrite (trimRightASCII_last cutset (cutset ++ version) z).
    + rewrite trimLeftASCII_app; [| apply inCutset_self].
      apply (trimLeftASCII_first cutset version a Ha Fa).
    + rewrite lastByte_app; [exact Hz |].
      intros V. rewrite V in Ha. discriminate Ha.
    + exact Fz.
  - intros Fa V. rewrite (F a) in Fa; [discriminate |].
    rewrite V. exact Ha.
Qed.

(** ** The command: configuration, slug and tag filter *)

(** X17. An error of the configuration, and on GitHub a slug without
    ["/"], end the run with code 1 and that error (["invalid slug"] for the
    slug) before anything is asked of the provider or of the CI; nothing is
    left behind. *)
Theorem configuration_refusals (env : Env) :
  (forall e, NewConfig env = Err e -> run env = (Exit 1 e, []))
  /\ (forall cf,
        NewConfig env = Ok cf -> GitLab cf = false ->
        without "/"%char (Slug cf) ->
        run env = (Exit 1 "invalid slug", [])).
Proof.
  split.
  - intros e H. unfold run, cliHandler, setup.
    unfold bind at 1 2. rewrite H. reflexivity.
  - intros cf HC HG HS. unfold run, cliHandler, setup.
    unfold bind at 1 2. rewrite HC. simpl.
    unfold bind at 1. unfold newRepository. rewrite HG.
    unfold GitHub.NewGitHubRepository.
    apply Contains_byte_false in HS. rewrite HS. reflexivity.
Qed.

(** X18. The tag filter of a run.  A configured expression that is empty
    or made of white space only, that of Unicode included (a no-break
    space, say), is no filter.  Otherwise the expression without the white
    space around it is compiled behind ["^"]: when it compiles, the result
    is the filter; when it does not, the command panics there.  Either way
    the trace is as it was.  White space of ASCII around an expression that
    starts and ends with other bytes of ASCII is what the trimming
    removes. *)
Theorem tag_filter (env : Env) (cf : Config) (t : list Event) :
  (forall ws,
     Forall (fun w => In w whiteSpace) ws ->
     Match cf = fold_right String.append "" ws ->
     matchRegex env cf t = (Return None, t))
  /\ (forall rx,
        Strings.TrimSpace (Match cf) <> "" ->
        MustCompile env ("^" ++ Strings.TrimSpace (Match cf)) = Some rx ->
        matchRegex env cf t = (Return (Some rx), t))
  /\ (Strings.TrimSpace (Match cf) <> "" ->
      MustCompile env ("^" ++ Strings.TrimSpace (Match cf)) = None ->
      exists msg, matchRegex env cf t = (Panic msg, t))
  /\ (forall lead core trail a z,
        Match cf = lead ++ core ++ trail ->
        Forall (fun c => asciiSpace c = true) (list_ascii_of_string lead) ->
        Forall (fun c => asciiSpace c = true) (list_ascii_of_string trail) ->
        firstByte core = Some a -> asciiGraphic a = true ->
        lastByte core = Some z -> asciiGraphic z = true ->
        Strings.TrimSpace (Match cf) = core
        /\ (forall rx,
              MustCompile env ("^" ++ core) = Some rx ->
              matchRegex env cf t = (Return (Some rx), t))).
Proof.
  split.
  { intros ws H E. unfold matchRegex.
    rewrite E, (TrimSpace_whiteSpace ws H). reflexivity. }
  split.
  { intros rx HN HM. unfold matchRegex.
    apply neqb_true in HN. rewrite HN, HM. reflexivity. }
  split.
  { intros HN HM. unfold matchRegex.
    apply neqb_true in HN. rewrite HN, HM. eexists. reflexivity. }
  intros lead core trail a z E Hl Ht Ha Ga Hz Gz.
  assert (T : Strings.TrimSpace (Match cf) = core).
  { rewrite E. apply (TrimSpace_padding lead core trail a z); assumption. }
  split; [exact T |].
  intros rx HM. unfold matchRegex. rewrite T, HM.
  replace (Strings.neqb core "") with true; [reflexivity |].
  symmetry. apply neqb_true. intros C. rewrite C in Ha. discriminate Ha.
Qed.

(** ** The further properties on concrete runs *)

Lemma errorHandler_exit_witness :
  exists code,
    errorHandler (Some "boom") [65; 66]%Z [] = (Exit code "boom", [])
    /\ ([65; 66]%Z = [code] \/ (code = 1%Z /\ length [65; 66]%Z <> 1%nat)).
Proof.
  destruct (errorHandler_exit (Some "boom") [65; 66]%Z []) as (_ & H & _).
  apply (H "boom" eq_refl).
Defined.

Lemma NewGitHubRepository_slug_witness :
  GitHub.NewGitHubRepository Sample.released "" "widgets" "token"
  = Err "invalid slug"
  /\ GitHub.NewGitHubRepository Sample.released "" ("acme" ++ "/" ++ "widgets/x")
                                "token"
     = Ok (GitHub.mkGitHubRepository "acme" "widgets" Cases.sampleClient).
Proof.
  destruct (NewGitHubRepository_slug Sample.released "" "token") as [H1 H2].
  split.
  - apply H1. simpl. repeat split; discriminate.
  - destruct (H2 "acme" "widgets/x") as [H _];
      [simpl; repeat split; discriminate | exact H].
Defined.

Lemma GetCommits_keeps_history_witness :
  exists cs,
    GitHub.GetCommits Sample.released (Sample.github Cases.sampleClient)
                      "main" "pkgA" = Ok cs
    /\ map SHA cs = ["sha-2"; "sha-1"].
Proof.
  destruct (GetCommits_keeps_history Sample.released
              (Sample.github Cases.sampleClient) "main" "pkgA") as [_ H].
  destruct (H Sample.history eq_refl) as (cs & H1 & H2 & _).
  exists cs. split; [exact H1 | exact H2].
Defined.

Lemma parseGithubCommit_classes_witness :
  unclassified
    (GitHub.parseGithubCommit Sample.released
       (mkRepositoryCommit "sha-3" "feat(pkgB): BREAKING CHANGE") "pkgA").
Proof.
  destruct (parseGithubCommit_classes Sample.released
              (mkRepositoryCommit "sha-3" "feat(pkgB): BREAKING CHANGE") "pkgA")
    as (_ & _ & _ & _ & _ & _ & H).
  apply (H "feat" "pkgB" "BREAKING CHANGE" [] eq_refl). discriminate.
Defined.

Lemma GetLatestRelease_fuel_witness :
  GitHub.pages Sample.released (Sample.github Cases.pagedClient)
               "" None "pkgA" "" 50 0 []
  = GitHub.pages Sample.released (Sample.github Cases.pagedClient)
                 "" None "pkgA" "" 2 0 []
  /\ GitHub.pages Sample.released (Sample.github Cases.endlessClient)
                  "" None "pkgA" "" 50 0 [] = OutOfFuel.
Proof.
  destruct (GetLatestRelease_fuel Sample.released (Sample.github Cases.pagedClient)
              "" None "pkgA" "") as [H1 _].
  destruct (GetLatestRelease_fuel Sample.released (Sample.github Cases.endlessClient)
              "" None "pkgA" "") as [_ H2].
  split.
  - apply H1; [lia | discriminate].
  - apply H2. intros page. exists [], (mkResponse 200 1).
    split; [reflexivity |]. split; discriminate.
Defined.

Lemma GetLatestRelease_two_pages_witness :
  GitHub.GetLatestRelease Sample.released (Sample.github Cases.pagedClient)
                          "" None "pkgA" ""
  = Return (Ok (mkRelease "sha-120" (Sample.v 1 2 0))).
Proof.
  assert (F : (2 <= fuel Sample.released)%nat) by (simpl; lia).
  assert (S : 200%Z <> 404%Z) by discriminate.
  assert (N : 2%Z <> 0%Z) by discriminate.
  apply (GetLatestRelease_two_pages Sample.released
           (Sample.github Cases.pagedClient) "" None "pkgA" ""
           Cases.firstPage Cases.secondPage
           (mkResponse 200 2) (mkResponse 200 0) F eq_refl S N eq_refl S eq_refl).
Defined.

Lemma CreateRelease_failure_witness :
  GitHub.CreateRelease
    (Sample.github (Sample.client "main" Sample.refs Sample.history
                                  (Some "422 Validation Failed")))
    "notes" (Sample.v 1 1 0) false "master" "main" "sha-1" "pkgA" []
  = (Return (Some "422 Validation Failed"),
     [CreateRef "refs/tags/pkgA-release-v1.1.0" "sha-1"]).
Proof.
  destruct (CreateRelease_failure
              (Sample.github (Sample.client "main" Sample.refs Sample.history
                                            (Some "422 Validation Failed")))
              "notes" (Sample.v 1 1 0) false "master" "main" "sha-1" "pkgA" [])
    as (_ & _ & H & _).
  apply (H "422 Validation Failed"); reflexivity.
Defined.

Lemma setup_checks_witness :
  currentBranch
    (Sample.contextOn "CHANGELOG.md" "" "main" "main" "sha-2" "main" Sample.history)
  <> ""
  /\ currentSha
       (Sample.contextOn "CHANGELOG.md" "" "main" "main" "sha-2" "main"
                         Sample.history) = "main".
Proof.
  destruct (setup_checks Sample.released
              (Sample.contextOn "CHANGELOG.md" "" "main" "main" "sha-2" "main"
                                Sample.history) [] eq_refl)
    as (_ & _ & H1 & H2 & _).
  split; [exact H1 |]. apply H2. discriminate.
Defined.

Lemma branch_refusals_witness :
  run Cases.noBranch = (Exit 1 "current branch not found", [])
  /\ run Cases.maintainedOnDefault
     = (Exit 1 "maintained version not allowed on default branch", []).
Proof.
  destruct (branch_refusals Cases.noBranch
              (Sample.config "" "" "" "main" "sha-2")
              (GitHub.asRepository Cases.noBranch (Sample.github Cases.sampleClient))
              "main" false eq_refl eq_refl eq_refl) as [H1 _].
  destruct (branch_refusals Cases.maintainedOnDefault
              (Sample.config "" "1.0.x" "main" "main" "sha-2")
              (GitHub.asRepository Cases.maintainedOnDefault
                 (Sample.github Cases.sampleClient))
              "main" false eq_refl eq_refl eq_refl) as [_ H2].
  split; [apply H1; reflexivity |].
  apply H2; [discriminate | discriminate | reflexivity].
Defined.

Lemma dry_run_witness :
  snd (run Cases.dry) = []
  /\ run Cases.dry = (Exit 65 "DRY RUN: no release was created", []).
Proof.
  destruct (dry_run Cases.dry Cases.dryConfig eq_refl eq_refl) as (_ & H1 & H2).
  split; [exact H1 |].
  apply (H2 (mkContext Cases.dryConfig
               (GitHub.asRepository Cases.dry (Sample.github Cases.sampleClient))
               "main" "main" (mkRelease "sha-101" (Sample.v 1 0 1)))
            []
            (map (fun c => GitHub.parseGithubCommit Cases.dry c "pkgA")
                 Sample.history)
            eq_refl eq_refl eq_refl).
Defined.

Lemma resolve_outcomes_witness :
  planOf Sample.quiet = Some Sample.quietPlan.
Proof.
  destruct (resolve_outcomes Sample.quiet
              (Sample.contextOn "" "" "main" "main" "" "main" []) []
              eq_refl eq_refl) as [_ H].
  destruct (H [] eq_refl eq_refl) as [P _]. exact P.
Defined.

Lemma success_trace_witness :
  snd (run Cases.full)
  = [WriteFile "CHANGELOG.md" "## 1.1.0";
     CreateRef "refs/tags/pkgA-release-v1.1.0" "sha-2";
     CreateReleaseObject "pkgA-release-v1.1.0" "pkgA-release-v1.1.0" "sha-2"
       "## 1.1.0" false;
     CreateRef "refs/heads/pkgA-branch-v1.1.0" "sha-2";
     WriteFile ".ghr" "-u acme -r widgets v1.1.0";
     WriteFile ".version" "1.1.0";
     UpdateApply "package.json" "1.1.0"].
Proof.
  destruct (success_trace Cases.full Cases.fullPlan
              (Sample.github Cases.sampleClient) eq_refl eq_refl eq_refl)
    as (_ & _ & H).
  rewrite H. reflexivity.
Defined.

Lemma configuration_refusals_witness :
  run Cases.badSlug = (Exit 1 "invalid slug", []).
Proof.
  destruct (configuration_refusals Cases.badSlug) as [_ H].
  apply (H Cases.slugConfig eq_refl eq_refl).
  simpl. repeat split; discriminate.
Defined.

Lemma collect_origin_witness :
  GitHub.collect Sample.released None "pkgA" Cases.firstPage
    [mkRelease "sha-0" (Sample.v 0 1 0)]
  = [mkRelease "sha-0" (Sample.v 0 1 0); mkRelease "sha-100" (Sample.v 1 0 0)]
  /\ GitHub.candidate Sample.released None "pkgA"
       (mkReference "refs/tags/pkgA-release-v0.9.0" "tag" "sha-annotated") = None
  /\ ObjectType (mkReference "refs/tags/pkgA-release-v1.0.0" "commit" "sha-100")
     = "commit".
Proof.
  destruct (collect_origin Sample.released None "pkgA" Cases.firstPage
              [mkRelease "sha-0" (Sample.v 0 1 0)]) as (H1 & H2 & H3).
  split; [rewrite H1; reflexivity |].
  split; [apply H3; discriminate |].
  apply (H2 (mkReference "refs/tags/pkgA-release-v1.0.0" "commit" "sha-100")
            (mkRelease "sha-100" (Sample.v 1 0 0)) eq_refl).
Defined.

Lemma GetLatestRelease_error_witness :
  GitHub.GetLatestRelease Sample.released (Sample.github Cases.failingClient)
                          "" None "pkgA" ""
  = Return (Err "500 Internal Server Error")
  /\ GitHub.GetLatestRelease Sample.released (Sample.github Cases.failsLater)
                             "" None "pkgA" ""
     = Return (Err "502 Bad Gateway").
Proof.
  assert (F : fuel Sample.released <> O) by discriminate.
  assert (F2 : (2 <= fuel Sample.released)%nat) by (simpl; lia).
  assert (S : forall rs, Some (mkResponse 500 0) = Some rs ->
                         StatusCode rs <> 404%Z).
  { intros rs H. inversion H. discriminate. }
  assert (S2 : forall rs, Some (mkResponse 502 0) = Some rs ->
                          StatusCode rs <> 404%Z).
  { intros rs H. inversion H. discriminate. }
  destruct (GetLatestRelease_error Sample.released
              (Sample.github Cases.failingClient) "" None "pkgA" "")
    as (_ & H & _).
  destruct (GetLatestRelease_error Sample.released
              (Sample.github Cases.failsLater) "" None "pkgA" "")
    as (_ & _ & G).
  split.
  - apply (H [] (Some (mkResponse 500 0)) "500 Internal Server Error" F
             eq_refl S).
  - apply (G Cases.firstPage (mkResponse 200 2) [] (Some (mkResponse 502 0))
             "502 Bad Gateway" F2 eq_refl); try discriminate.
    + reflexivity.
    + exact S2.
Defined.

Lemma exit_codes_witness :
  snd (run Cases.ciRefused) = []
  /\ Forall (fun ev => isProviderEvent ev = false) (snd (run Sample.notFound))
  /\ (exists msg, run Cases.unclosed = (Panic msg, []))
  /\ snd (run Cases.endless) = [].
Proof.
  destruct (exit_codes Cases.ciRefused Cases.ciConfig eq_refl eq_refl)
    as (H & _).
  destruct (H 66%Z "not running on the default branch" eq_refl)
    as [H1 | [(H1 & _) | [(H1 & _) | (_ & _ & H1 & _)]]]; try discriminate H1.
  destruct (exit_codes Sample.notFound
              (Sample.config "CHANGELOG.md" "" "main" "main" "zzz")
              eq_refl eq_refl) as (G & _).
  destruct (G 65%Z "Commit not found" eq_refl)
    as [G1 | [(_ & G1 & _) | [(_ & _ & G1) | (G1 & _)]]]; try discriminate G1.
  destruct (exit_codes Cases.unclosed (Sample.configMatching "(")
              eq_refl eq_refl) as (_ & _ & _ & P).
  destruct (exit_codes Cases.endless (Sample.config "" "" "main" "main" "")
              eq_refl eq_refl) as (_ & _ & F & _).
  split; [exact H1 |]. split; [exact G1 |]. split.
  - apply (P ltac:(discriminate) eq_refl (fun _ => eq_refl)
             ltac:(discriminate) eq_refl
             (Sample.github Cases.sampleClient) ("main", false)
             eq_refl eq_refl).
  - apply F. reflexivity.
Defined.

Lemma hotfix_suffix_witness :
  lastVersionHotfix (Sample.config "" "" "pkgA-branch-v1.0" "main" "") = "1.0"
  /\ lastVersionHotfix Cases.digitConfig <> "1.2"
  /\ Strings.Trim "app1-branch-v1.2" "app1-branch-v" = ".2".
Proof.
  destruct (hotfix_suffix Sample.quietHotfix
              (context Sample.quietHotfixPlan) [] eq_refl)
    as (_ & _ & _ & H).
  destruct H as [H _]; [reflexivity | discriminate |].
  destruct (hotfix_suffix Cases.digit
              (mkContext Cases.digitConfig
                 (GitHub.asRepository Cases.digit
                    (Sample.github Cases.sampleClient))
                 "app1-branch-v1.2" "app1-branch-v1.2"
                 (mkRelease "" Semver.zero)) [] eq_refl)
    as (_ & _ & _ & G).
  destruct G as [G _]; [reflexivity | discriminate |].
  split.
  - apply (H "1.0" "1"%char "0"%char); reflexivity.
  - split; [| reflexivity].
    apply (G "1.2" "1"%char "2"%char); reflexivity.
Defined.

Lemma tag_filter_witness :
  matchRegex Cases.blank (Sample.configMatching (Strings.EncodeRune 160 ++ " ")) []
  = (Return None, [])
  /\ Strings.TrimSpace (Match (Sample.configMatching " v1 ")) = "v1"
  /\ (exists msg,
        matchRegex Cases.unclosed (Sample.configMatching "(") [] = (Panic msg, [])).
Proof.
  destruct (tag_filter Cases.blank
              (Sample.configMatching (Strings.EncodeRune 160 ++ " ")) [])
    as (H1 & _).
  destruct (tag_filter Sample.released (Sample.configMatching " v1 ") [])
    as (_ & _ & _ & H4).
  destruct (tag_filter Cases.unclosed (Sample.configMatching "(") [])
    as (_ & _ & H3 & _).
  split.
  - apply (H1 [Strings.EncodeRune 160; " "]); [| reflexivity].
    constructor; [vm_compute; tauto |].
    constructor; [vm_compute; tauto | constructor].
  - split.
    + apply (H4 " " "v1" " " "v"%char "1"%char); try reflexivity;
        repeat constructor.
    + apply H3; [discriminate | reflexivity].
Defined.

